(* ===== verification/_CoqProject ===== *)
-Q . S2P
Prelude.v
PySeq.v
PyStr.v
PyFloat.v
PyDecimal.v
Json.v
Schema.v
Stats.v
Keywords.v
Intent.v
Render.v
Analyzer.v
Wire.v
Service.v
Contract.v
App.v
