(* ===== verification/Prelude.v ===== *)
(** * FreshBite review-chat service: a verified model of
    [src/llm-service/main.py]

    ** The program

    The service answers a question about a dish from the reviews the caller
    sends with it.  It is one pure function, [analyze_reviews], behind one
    HTTP endpoint, [chat]; nothing is stored between requests.  The
    function
    - returns a fixed message when there are no reviews;
    - computes the number of reviews, the mean rating (a Python float), the
      number of 5-, 4- and 3-star reviews and the lists of low and high
      reviews;
    - lower-cases the question and collects the words of a fixed vocabulary
      that occur in it, then the reviews whose lower-cased text holds one of
      them, with their identifiers;
    - tests the question against three word lists and renders one of five
      answers (recommendation, negative check, consistency, keyword search,
      summary), the first test that holds winning;
    - returns the answer with at most ten identifiers and a metadata
      dictionary (number of reviews, mean rounded to one decimal, keywords).

    ** The model

    The development is a shallow embedding: every Python expression of the
    file is a Rocq function with the same name where Rocq allows it, and
    every value has the type it has at run time.
    - A [str] is the list of its code points ([list N]); a literal is
      written [lit "..."], which decodes the UTF-8 bytes of the Rocq string,
      so the em-dash, the star and the party glyphs of the templates are the
      code points Python sees.
    - An [int] is a [Z]: Python integers are unbounded and the code never
      bounds a rating.
    - A [float] is a sign, a mantissa and an exponent ([PyFloat.float]).
      [truediv] is CPython's [int / int]: the quotient correctly rounded to
      binary64 (53 bits, exponents from -1074, ties to even), raising
      [OverflowError] from [2^1024] on and [ZeroDivisionError] for a zero
      divisor.  [PyDecimal.format_f1] is the format [.1f] and
      [PyDecimal.py_round1] is [round(x, 1)], both correctly rounded from
      the binary value.
    - A call that can raise returns a [result] ([Ok] or [Raise]); calls are
      sequenced with the monadic bind, so an exception propagates as it does
      in Python.
    - [str.lower] depends on the Unicode tables of the interpreter.  It is
      the interface [PyStr.Lowering]: any function that lower-cases A-Z, maps
      U+0130 and U+212A to their images (the only other code points whose
      lower case holds an ASCII character) and sends every other code point
      to a non-empty non-ASCII text.  [PyStr.ascii_lowering] and
      [PyStr.latin1_lowering] are two executable instances that differ on
      accented capitals; the theorems hold for every instance.
    - A parsed body is a [Json.json] value: null, a boolean, an integer, a
      float, a string, an array, or an object, which is a finite map from
      keys to values ([gmap string json]) as the [dict] the parser returns.
      Reading a body into a model follows the class declarations of lines
      7-19: a field without a default is [Json.required], a field with one
      is [Json.optional], keys that no field names are ignored, [reviews]
      is a list read element by element ([Json.decode_list]) and the
      constraints of [Field] are checked last ([ChatRequest.make]).
    - What pydantic makes of a scalar of another type than the annotation
      (the number 5 for a [str], [true] for an [int]) depends on its version
      and mode.  It is the interface [Json.Casting]: any pair of functions
      that reads a string as itself, an integer as itself, and never reads
      null, an array or an object as a scalar.  [Json.strict_casting] and
      [Json.lenient_casting] are two executable instances; the theorems hold
      for every instance.
    - The web framework validates the body before it calls the handler and
      turns an exception of the handler into a server error: this order is
      [Service.post_chat], on typed field values, and
      [Service.post_chat_body], on parsed bodies, with the three outcomes
      [Answered], [Rejected] and [Failed].
    - The application object of line 4 and the route of line 162 are
      [App.app] and [App.chat_route].  One exchange is [App.serve]: the
      route is found by path and method, the outcome of the endpoint becomes
      a status (200 with the encoded response, 422 for a rejected body, 500
      for an exception, 405 for another method on the path), and a path
      without a declared route is left to the framework.

    ** The files

    - [Prelude] (this file): the [result] monad, the tactics [simplify_result]
      and [by_compute], the hint databases [py] and [py_len], list lemmas,
      the decision of [sublist_of] and [mapM] in the [result] monad.
    - [PySeq]: the builtins [sum], [len], [any], [min], [max] with [key=],
      truth of a list and the slice [l[:n]].
    - [PyStr]: strings, literals, [in] as [contains] with its specification
      [substring], [join], [str(int)], the [Lowering] interface and the
      theorem that an ASCII word is found in the lower-cased text of any
      instance exactly when it is found by the ASCII instance.
    - [PyFloat]: binary64 division and comparison; the rounding of a
      quotient, its binade, when it overflows, and how it compares with
      small integers; the invariant [finite64] of the values computed;
      equality of values [feq], an equivalence that the order respects.
    - [PyDecimal]: [.1f] and [round(x, 1)]; the printed digits do not see
      the representation of a value, the first decimal of a small quotient,
      the round trip from one decimal to binary and back.
    - [Json]: JSON values, the [Casting] interface with its two instances,
      and the decoders of a scalar, a required field, a field with a
      default and a list, with their inversion lemmas.
    - [Schema]: the pydantic models [ReviewData], [ChatRequest] (with its
      field constraints and defaults, [ChatRequest.make]) and
      [ChatResponse]; sample data for the examples.
    - [Stats]: lines 39-45 and 118-119, the statistics.
    - [Keywords]: lines 47-76, the vocabulary, the scan of the question and
      the selection of relevant reviews, as the loops of the code.
    - [Intent]: lines 80-82 and the conditions of the [if]/[elif] chain.
    - [Render]: lines 84-146, one definition per f-string and per branch.
    - [Analyzer]: [analyze_reviews] (lines 29-159) and [chat] (lines
      163-164), composed from the components as the code composes them, and
      the invariant [well_formed] of the responses.
    - [Wire]: [decode_review] and [decode_request] (the validation of a
      body against lines 7-19), [encode_response] (the body of the reply,
      lines 22-26), the bodies a client builds ([body_of],
      [encode_request]), the response a client reads back
      ([decode_response]) and the predicate [malformed] of the bodies every
      casting table rejects.
    - [Service]: the outcome of a request, validation then handler, on
      field values and on bodies.
    - [Contract]: the specification of the analyzer in exact arithmetic
      (substrings, the exact mean, the stages of the component design) and
      the proof that the code refines it.
    - [App]: the application, its route and one exchange; the status of
      every reply and the end-to-end theorem.

    ** The theorems

    - Totality and errors: [Analyzer.analyze_reviews_returns_iff] (exactly
      when a response is returned), [Analyzer.analyze_reviews_total] (always,
      when the ratings are star ratings), [Analyzer.analyze_reviews_raises]
      (the only exception is [OverflowError]).  All three follow from one
      case analysis, [Analyzer.analyze_reviews_outcome]; the example
      [Analyzer.analyze_reviews_overflow] shows the exception for a rating
      of [2^1024].
    - The type of the response: [Analyzer.analyze_reviews_well_formed]
      (every response returned satisfies the data model: a non-empty answer,
      at most ten identifiers, the metadata in one of its two shapes, a
      binary64 mean, keywords from the vocabulary).
    - The endpoint: [Service.post_chat_outcome] (when a request is rejected,
      when it fails and when it is answered, in every case) and
      [Service.post_chat_answers] (a valid request with star ratings is
      always answered: the service has no state and no loop, so this
      progress property is all there is to liveness).  The lemmas
      [Service.post_chat_body_of], [Service.post_chat_body_malformed] and
      [Service.post_chat_body_strict] carry both to parsed bodies.
    - The boundary: [Wire.decode_request_roundtrip] (a request written as a
      body and read back is the same request), [Wire.decode_request_rejects]
      (a malformed body raises the validation error, whatever the casting
      table), [Wire.decode_request_strict] (a body whose fields have their
      declared types is read alike by every casting table) and
      [Wire.encode_response_roundtrip] (a well-formed response written as a
      body is read back unchanged, so the body of the reply determines the
      response: [Wire.encode_response_inj]).
    - End to end: [App.serve_status] (the status of the reply to every
      exchange, and what each status says of the body and of the endpoint)
      and [App.serve_end_to_end] (a client that encodes a valid request,
      posts it and decodes the reply holds the response of the
      specification): the composition of [Wire], [Service], [Analyzer] and
      [Contract].
    - Round trip: [PyDecimal.py_round1_roundtrip] (a float rounded to one
      decimal prints as the float itself does, and rounding it again changes
      nothing); for the mean of star ratings this is
      [Stats.avg_rating_round_reading]: the [avgRating] of the metadata
      prints as the mean shown in the answer.
    - Refinement: [Contract.analyze_reviews_refines] (the code returns the
      response of the specification [Contract.analyze_spec]),
      [Contract.analyze_spec_deterministic] (which is unique) and
      [Contract.analyze_spec_client] (what a client derives from the
      specification alone).  The answers read the float mean only through
      [Render.same_reading], an equivalence the renderers respect
      ([Proper] instances), which is what lets the specification replace the
      float by the exact mean.
    - The response: [Analyzer.analyze_reviews_empty],
      [Analyzer.analyze_reviews_ids], [Analyzer.analyze_reviews_metadata].
    - The choice of the answer: [Analyzer.answer_parts_intent] refines the
      chain to the classification [Intent.intent];
      [Intent.intent_keyword_search_words];
      [Render.recommendation_parts_threshold] (the float comparisons decide
      as the exact mean does), [Render.recommendation_parts_top],
      [Render.consistency_parts_spread], [Render.negative_parts_quotes],
      [Render.summary_parts_latest] (the "latest positive" review is the
      first in input order rated 4 or more), [Analyzer.keyword_answer] (in
      the keyword branch the reviews quoted are among those whose
      identifiers are returned).
    - The order of the reviews: [Analyzer.analyze_reviews_order] (a
      rearrangement of the reviews changes the quotations and the
      identifiers at most; the metadata, the window and the number of
      identifiers stay).  The statistics are [Proper] for permutations
      ([Stats.avg_rating_perm], [Stats.min_max_perm] and the like), and so
      is the answer on consistency ([Render.consistency_parts_perm]).
    - Independence of case and of the Unicode tables:
      [Analyzer.analyze_reviews_case], [Analyzer.analyze_reviews_lowering],
      [PyStr.lowering_agree].
    - What is read of a review: [Analyzer.analyze_reviews_createdAt] (the
      dates play no part: reviews that agree on identifier, rating and text
      get the same response) and [Analyzer.analyze_reviews_anonymous] (the
      identifiers only name the reviews: the answer, the window, the
      metadata and the number of identifiers depend on ratings and texts
      alone).  Both come from one family of lemmas, the [_relabel] lemmas of
      [Stats], [Keywords], [Render] and [Analyzer]: every operation
      commutes with a map of the reviews that keeps the fields it reads.
      [Schema.same_content] and [Schema.same_words] are equivalences, and
      [Service.analyze_reviews_proper] lets a list of reviews be rewritten
      along the first, as [Service.post_chat_same_content] does for the
      outcome of a request.
    - The loops are filters: [Keywords.keywords_scan_correct],
      [Keywords.select_reviews_correct].
    - Statistics: [Stats.star_buckets_total], [Stats.star_buckets_miss],
      [Stats.avg_rating_tenths] (the digit printed is that of the exact
      mean, ties apart), and [Stats.min_max_correct].
    - The Python substrate: [PyFloat.truediv_nearest],
      [PyFloat.truediv_outcome], [PyDecimal.format_f1_ties],
      [PyStr.contains_correct]; [PySeq.py_max_key_first] and
      [Schema.make_correct] are the specifications of [max] with a key and
      of the field constraints that the theorems above rest on.
    - Examples, evaluated: the scenarios of the specification
      ([Analyzer.summary_scenario], [Analyzer.spicy_scenario],
      [Analyzer.consistency_scenarios], [Service.post_chat_scenarios]),
      [Analyzer.chat_make], [Analyzer.negative_quote_outside_ids],
      [Keywords.keywords_overlap] and [Json.casting_tables_differ].

    ** Bounds

    No definition uses fuel: every recursion is structural on a list.  The
    theorems that need the ratings to be star ratings say so
    ([Stats.star_ratings]); totality also asks for fewer than [2^1020]
    reviews, which keeps the sum of the ratings below the overflow threshold
    of the division, the threshold theorem for fewer than [2^51], which
    keeps four times the number of reviews below [2^53], where every
    integer is a binary64 value, and the one-decimal theorem for fewer than
    [2^46], which keeps the rounding error of the division below the
    distance of a non-tie mean to the nearest tie.  The round trip holds for
    floats below [2^46] in magnitude: a quotient below [2^j] by a divisor
    [b] keeps its first decimal when [10 * b < 2^(53 - j)]
    ([PyDecimal.ratio_tenths]), and the divisor 10 of [round(x, 1)] leaves
    [j = 46]; the mean of star ratings is at most 5.

    ** Not modelled

    Of the web framework, the development models the route table the
    program declares and the status of the reply on its one path
    ([App.serve]), from the specification and the framework's documented
    statuses.  What the framework adds of its own is not modelled: its
    documentation pages, the reply for an unknown path, redirects, headers
    and the event loop; a path without a declared route is [None].  The
    text of a body is not modelled either: the model starts from the parsed
    value and ends at the value to print, so number syntax, escapes,
    duplicate keys and encodings are the parser's and the printer's, and so
    is the body of an error reply.  The casting of a scalar of another type
    than the annotation is fixed only as far as the [Json.Casting]
    interface goes, and the metadata, declared as a plain [dict], is
    encoded only for the three shapes of value the analyzer stores in it.
    The full Unicode lower-casing tables are replaced by the
    [PyStr.Lowering] interface.  [createdAt] is carried but never read, as
    in the code.  The program has no concurrency, no waiting and no state
    between requests, so there is no interleaving to model. *)

From stdpp Require Export base tactics option numbers list sets.

(** ** Python exceptions as values

    The analyzer is a pure function, but two Python operations it calls can
    raise: true division of integers ([ZeroDivisionError], [OverflowError])
    and [min]/[max] of an empty sequence ([ValueError]).  Building a request
    model whose field constraints fail raises pydantic's [ValidationError].
    A call that may raise returns a [result]. *)

Inductive PyError : Set :=
| ZeroDivisionError
| OverflowError
| ValueError
| ValidationError.

Inductive result (A : Type) : Type :=
| Ok (a : A)
| Raise (e : PyError).

Arguments Ok {A} a.
Arguments Raise {A} e.

#[export] Instance PyError_eq_dec : EqDecision PyError.
Proof. solve_decision. Defined.

#[export] Instance result_eq_dec `{EqDecision A} : EqDecision (result A).
Proof. solve_decision. Defined.

#[export] Instance result_ret : MRet result := @Ok.

#[export] Instance result_bind : MBind result := λ A B f m,
  match m with Ok a => f a | Raise e => Raise e end.

#[export] Instance result_fmap : FMap result := λ A B f m,
  match m with Ok a => Ok (f a) | Raise e => Raise e end.

(** The value of a call, or [d] if it raised. *)
Definition ok_or {A} (d : A) (m : result A) : A :=
  match m with Ok a => a | Raise _ => d end.

(** [returns m] holds when the call completed without raising. *)
Definition returns {A} (m : result A) : Prop := ∃ a, m = Ok a.

#[export] Instance returns_dec {A} (m : result A) : Decision (returns m).
Proof.
  destruct m as [a|e]; [left; by exists a|right; by intros [a ?]].
Defined.

(** [is_sublist l k] tests whether [l] is [k] with some elements left out:
    the elements of [l] are matched greedily against those of [k]. *)
Fixpoint is_sublist {A} `{EqDecision A} (l k : list A) : bool :=
  match k with
  | [] => match l with [] => true | _ :: _ => false end
  | y :: k' =>
      match l with
      | [] => true
      | x :: l' => if decide (x = y) then is_sublist l' k' else is_sublist l k'
      end
  end.

(** ** Hint databases

    [py] collects the resolution hints of the development (list, string and
    arithmetic side conditions); [py_len] is a rewrite database that
    normalises lengths of the list operations the model uses. *)

Create HintDb py discriminated.
Create Rewrite HintDb py_len.

#[export] Hint Rewrite @length_app @length_fmap @length_take @length_nil
  @length_cons : py_len.

(** ** Lemmas on [result] *)

Section result_lemmas.
Context {A B : Type}.
Implicit Types (m : result A) (f : A → result B) (g : A → B).

Lemma bind_Ok m f b :
  m ≫= f = Ok b ↔ ∃ a, m = Ok a ∧ f a = Ok b.
Proof. destruct m; naive_solver. Qed.

Lemma bind_Raise m f e :
  m ≫= f = Raise e ↔ m = Raise e ∨ ∃ a, m = Ok a ∧ f a = Raise e.
Proof. destruct m; naive_solver. Qed.

Lemma fmap_Ok m g b : g <$> m = Ok b ↔ ∃ a, m = Ok a ∧ b = g a.
Proof. destruct m; naive_solver. Qed.

Lemma mret_Ok (a a' : A) : mret a = Ok a' ↔ a = a'.
Proof. split; [by intros [= ->]|by intros ->]. Qed.

Lemma returns_Ok (a : A) : returns (Ok a).
Proof. by exists a. Qed.

Lemma returns_Raise e : ¬ returns (@Raise A e).
Proof. by intros [a ?]. Qed.

Lemma returns_bind m f :
  returns (m ≫= f) ↔ ∃ a, m = Ok a ∧ returns (f a).
Proof.
  unfold returns. setoid_rewrite bind_Ok. naive_solver.
Qed.

End result_lemmas.

#[export] Hint Resolve returns_Ok : py.

(** [simplify_result] inverts equations between results: it splits a
    successful bind into its two calls and discards impossible cases. *)
Ltac simplify_result :=
  repeat match goal with
  | H : Ok _ = Ok _ |- _ => injection H as H
  | H : Raise _ = Raise _ |- _ => injection H as H
  | H : Ok _ = Raise _ |- _ => discriminate H
  | H : mret _ = Ok _ |- _ => apply (proj1 (mret_Ok _ _)) in H
  | H : Raise _ = Ok _ |- _ => discriminate H
  | H : _ ≫= _ = Ok _ |- _ => apply bind_Ok in H as (? & ? & H)
  | H : _ <$> _ = Ok _ |- _ => apply fmap_Ok in H as (? & ? & H)
  | H : returns (Raise _) |- _ => destruct (returns_Raise _ H)
  | _ => progress simplify_eq/=
  end.

(** ** [mapM] in [result]

    A list is decoded item by item; the first item that raises decides the
    error. *)

Section mapM_result.
Context {A B : Type}.
Implicit Types (f g : A → result B) (l : list A) (k : list B).

Lemma mapM_result_cons f x l :
  mapM f (x :: l) = y ← f x; k ← mapM f l; mret (y :: k).
Proof. done. Qed.

(** The items all decode exactly when the list does. *)
Lemma mapM_Ok f l k : mapM f l = Ok k ↔ Forall2 (λ x y, f x = Ok y) l k.
Proof.
  revert k. induction l as [|x l IH]; intros k.
  - split; [intros [= <-]; constructor|by inversion 1].
  - rewrite mapM_result_cons. split.
    + intros Hk. simplify_result. constructor; [done|]. by apply IH.
    + inversion 1 as [|? y ? k' Hx Hl]; simplify_eq. rewrite Hx. simpl.
      apply IH in Hl. by rewrite Hl.
Qed.

(** An error of the list is the error of one of its items. *)
Lemma mapM_Raise f l e :
  mapM f l = Raise e → ∃ x, x ∈ l ∧ f x = Raise e.
Proof.
  induction l as [|x l IH]; [done|]. rewrite mapM_result_cons.
  intros [Hx|(y & _ & Hl)]%bind_Raise.
  - exists x. split; [left|done].
  - apply bind_Raise in Hl as [Hl|(k & _ & ?)]; [|done].
    destruct (IH Hl) as (x' & ? & ?). exists x'. split; [by right|done].
Qed.

Lemma mapM_elem_Raise f l x e :
  (∀ y e', f y = Raise e' → e' = e) → x ∈ l → f x = Raise e → mapM f l = Raise e.
Proof.
  intros Hf Hx Hfx. destruct (mapM f l) as [k|e'] eqn:Hl.
  - apply mapM_Ok in Hl. apply list_elem_of_lookup in Hx as [i Hi].
    destruct (Forall2_lookup_l _ _ _ _ _ Hl Hi) as (y & _ & ?). congruence.
  - apply mapM_Raise in Hl as (y & _ & Hy). f_equal. by eapply Hf.
Qed.

(** Decoding the encoded items gives the items back. *)
Lemma mapM_fmap_Ok f (h : B → A) (k : list B) :
  (∀ y, f (h y) = Ok y) → mapM f (h <$> k) = Ok k.
Proof.
  intros Hf. apply mapM_Ok. induction k; constructor; auto.
Qed.
End mapM_result.

(** [by_compute] proves a closed decidable proposition by evaluating its
    decision procedure. *)
Ltac by_compute := apply (bool_decide_unpack _); vm_compute; exact I.

(** A boolean test that holds exactly when [P] does is the decision of
    [P]. *)
Lemma bool_decide_of_iff (b : bool) (P : Prop) `{!Decision P} :
  (b ↔ P) → b = bool_decide P.
Proof.
  intros Hb. destruct b; symmetry.
  - by apply bool_decide_eq_true, Hb.
  - apply bool_decide_eq_false. by intros ?%Hb.
Qed.

(** ** Lemmas on lists shared by the components *)

Section list_lemmas.
Context {A B : Type}.
Implicit Types (l k : list A) (f : A → B) (n : nat).

(** A slice [l[:n]] never has more than [n] elements. *)
Lemma length_take_bound l n : length (take n l) ≤ n.
Proof. rewrite length_take. lia. Qed.

(** The first [n] images of a filtered list, in order, are among the images
    of the whole list, in order. *)
Lemma take_fmap_filter_sublist (P : A → Prop) `{!∀ x, Decision (P x)} f l n :
  take n (f <$> filter P l) `sublist_of` f <$> l.
Proof.
  etrans; [apply sublist_take|]. by apply fmap_sublist, sublist_filter.
Qed.

Lemma take_fmap_sublist f l n : take n (f <$> l) `sublist_of` f <$> l.
Proof. apply sublist_take. Qed.

Lemma filter_nil_Forall (P : A → Prop) `{!∀ x, Decision (P x)} l :
  filter P l = [] ↔ Forall (λ x, ¬ P x) l.
Proof.
  induction l as [|x l IH]; [done|].
  rewrite filter_cons. destruct (decide (P x)).
  - split; [done|by inversion 1].
  - rewrite IH. split; [by constructor|by inversion 1].
Qed.

(** Two tests that agree on the elements of a list select the same ones. *)
Lemma filter_ext_elem_of (P Q : A → Prop)
    `{!∀ x, Decision (P x), !∀ x, Decision (Q x)} l :
  (∀ x, x ∈ l → P x ↔ Q x) → filter P l = filter Q l.
Proof.
  induction l as [|x l IH]; intros HPQ; [done|].
  rewrite !filter_cons, IH by (intros; apply HPQ; by right).
  destruct (decide (P x)) as [HP|HP], (decide (Q x)) as [HQ|HQ]; try done;
    apply HPQ in HP || apply HPQ in HQ; done || left.
Qed.

Lemma filter_all (P : A → Prop) `{!∀ x, Decision (P x)} l :
  Forall P l → filter P l = l.
Proof.
  induction 1 as [|x l Hx _ IH]; [done|].
  by rewrite filter_cons_True, IH.
Qed.

(** The first element that passes a test comes after elements that all
    fail it. *)
Lemma head_filter_split (P : A → Prop) `{!∀ x, Decision (P x)} l :
  match head (filter P l) with
  | Some x => ∃ l1 l2, l = l1 ++ x :: l2 ∧ Forall (λ y, ¬ P y) l1 ∧ P x
  | None => Forall (λ y, ¬ P y) l
  end.
Proof.
  induction l as [|y l IH]; [by constructor|]. rewrite filter_cons.
  destruct (decide (P y)) as [Hy|Hy]; simpl.
  - by exists [], l.
  - destruct (head (filter P l)) as [x|].
    + destruct IH as (l1 & l2 & -> & ? & ?). exists (y :: l1), l2. auto.
    + by constructor.
Qed.

(** A filter commutes with a map that respects the test. *)
Lemma filter_fmap_comm {C} (P : A → Prop) (Q : C → Prop)
    `{!∀ x, Decision (P x)} `{!∀ y, Decision (Q y)} (f : C → A) (k : list C) :
  (∀ y, P (f y) ↔ Q y) → filter P (f <$> k) = f <$> filter Q k.
Proof.
  intros HPQ. induction k as [|y k IH]; [done|].
  rewrite fmap_cons, !filter_cons, IH.
  destruct (decide (P (f y))), (decide (Q y)); naive_solver.
Qed.

End list_lemmas.

(** The greedy test decides [sublist_of]. *)
Lemma is_sublist_spec {A} `{EqDecision A} (l k : list A) :
  is_sublist l k ↔ l `sublist_of` k.
Proof.
  revert l. induction k as [|y k IH]; intros [|x l]; simpl.
  - split; [constructor|done].
  - split; [done|by intros ?%sublist_nil_r].
  - split; [intros _; apply sublist_nil_l|done].
  - destruct (decide (x = y)) as [->|Hne]; rewrite IH.
    + split; [by constructor|]. intros Hs.
      apply sublist_cons_r in Hs as [Hs|(l' & [= <-] & Hs)]; [|done].
      etrans; [|exact Hs]. by apply sublist_cons.
    + split; [by constructor|]. intros Hs.
      by apply sublist_cons_r in Hs as [Hs|(l' & [= <- <-] & Hs)].
Qed.

#[export] Instance sublist_dec {A} `{EqDecision A} : RelDecision (@sublist A).
Proof.
  refine (λ l k, cast_if (decide (is_sublist l k))); by rewrite <-is_sublist_spec.
Defined.

#[export] Hint Resolve length_take_bound : py.
#[export] Hint Resolve take_fmap_filter_sublist take_fmap_sublist : py.
