(* ===== verification/PySeq.v ===== *)
(** * PySeq: the Python builtins over sequences that the analyzer calls

    [sum], [len], [any], [min], [max] (with and without [key=]) and the
    slice [l[:n]].  Python integers are unbounded, so they are [Z].  [min] and
    [max] raise [ValueError] on an empty sequence; the other builtins are
    total.  The definitions follow the order in which CPython visits the
    elements: [sum] accumulates from the left, [any] stops at the first true
    test, [max] keeps the first of several maximal elements.  [sum], [len],
    [min] and [max] on integers are [Proper] for permutations. *)

From S2P Require Import Prelude.

Local Open Scope Z_scope.

(** [sum(l)]: left-to-right accumulation from 0. *)
Definition py_sum (l : list Z) : Z := foldl Z.add 0 l.

(** [len(l)], as a Python integer. *)
Definition py_len {A} (l : list A) : Z := Z.of_nat (length l).

(** [any(p(x) for x in l)]. *)
Fixpoint py_any {A} (p : A → bool) (l : list A) : bool :=
  match l with
  | [] => false
  | x :: l' => if p x then true else py_any p l'
  end.

(** The truth value of a list: [if l:] holds when [l] is not empty. *)
Definition truthy {A} (l : list A) : bool :=
  match l with [] => false | _ :: _ => true end.

(** [l[:n]] for a literal [n >= 0]. *)
Definition slice_to {A} (n : nat) (l : list A) : list A := take n l.

(** One step of [max(l, key=key)]: a later element replaces the current best
    only when its key is strictly greater, so ties go to the earliest
    element. *)
Definition keep_max {A} (key : A → Z) (best y : A) : A :=
  if key best <? key y then y else best.

(** One step of [min(l)]: replaced only by a strictly smaller element. *)
Definition keep_min (best y : Z) : Z := if y <? best then y else best.

Definition py_max_key {A} (key : A → Z) (l : list A) : result A :=
  match l with
  | [] => Raise ValueError
  | x :: l' => Ok (foldl (keep_max key) x l')
  end.

(** [max(l)] and [min(l)] on integers. *)
Definition py_max (l : list Z) : result Z := py_max_key id l.

Definition py_min (l : list Z) : result Z :=
  match l with
  | [] => Raise ValueError
  | x :: l' => Ok (foldl keep_min x l')
  end.

(** ** [sum] *)

Lemma foldl_add_acc a l : foldl Z.add a l = a + py_sum l.
Proof.
  unfold py_sum. revert a. induction l as [|x l IH]; intros a; simpl; [lia|].
  rewrite (IH (a + x)), (IH (0 + x)). lia.
Qed.

Lemma py_sum_nil : py_sum [] = 0.
Proof. done. Qed.

Lemma py_sum_cons x l : py_sum (x :: l) = x + py_sum l.
Proof. unfold py_sum at 1. simpl. by rewrite foldl_add_acc. Qed.

Lemma py_sum_app l k : py_sum (l ++ k) = py_sum l + py_sum k.
Proof.
  induction l as [|x l IH]; [done|].
  rewrite <-app_comm_cons, !py_sum_cons, IH. lia.
Qed.

(** [sum(1 for x in l)] counts the elements. *)
Lemma py_sum_ones {A} (l : list A) : py_sum ((λ _, 1) <$> l) = py_len l.
Proof.
  unfold py_len. induction l as [|x l IH]; [done|].
  rewrite fmap_cons, py_sum_cons, IH. simpl length. lia.
Qed.

Lemma py_sum_le_bound b l :
  Forall (λ x, x ≤ b) l → py_sum l ≤ b * py_len l.
Proof.
  unfold py_len. induction 1 as [|x l Hx _ IH]; [rewrite py_sum_nil; simpl; lia|].
  rewrite py_sum_cons. simpl length. lia.
Qed.

Lemma py_sum_ge_bound a l :
  Forall (λ x, a ≤ x) l → a * py_len l ≤ py_sum l.
Proof.
  unfold py_len. induction 1 as [|x l Hx _ IH]; [rewrite py_sum_nil; simpl; lia|].
  rewrite py_sum_cons. simpl length. lia.
Qed.

(** A sum at or above [k * len] needs an element at or above [k]. *)
Lemma py_sum_ge_Exists k l :
  l ≠ [] → k * py_len l ≤ py_sum l → Exists (λ x, k ≤ x) l.
Proof.
  intros Hl Hsum. apply not_Forall_Exists; [apply _|]. intros Hall.
  assert (py_sum l ≤ (k - 1) * py_len l) as Hle.
  { apply py_sum_le_bound. eapply Forall_impl; [exact Hall|].
    intros x Hx. apply Z.compare_gt_iff in Hx. lia. }
  unfold py_len in *. destruct l; [done|]. simpl length in *. lia.
Qed.

Lemma py_len_nonneg {A} (l : list A) : 0 ≤ py_len l.
Proof. unfold py_len. lia. Qed.

Lemma py_len_pos {A} (l : list A) : l ≠ [] → 0 < py_len l.
Proof. unfold py_len. destruct l; [done|simpl; lia]. Qed.

Lemma py_len_filter_le {A} (P : A → Prop) `{!∀ x, Decision (P x)} (l : list A) :
  py_len (filter P l) ≤ py_len l.
Proof. unfold py_len. pose proof (length_filter P l). lia. Qed.

(** ** [any] *)

Lemma py_any_Exists {A} (p : A → bool) l : py_any p l ↔ Exists (λ x, p x) l.
Proof.
  induction l as [|x l IH]; simpl.
  - by rewrite Exists_nil.
  - rewrite Exists_cons. destruct (p x); [naive_solver|].
    rewrite IH. naive_solver.
Qed.

Lemma py_any_elem_of {A} (p : A → bool) l : py_any p l ↔ ∃ x, x ∈ l ∧ p x.
Proof. by rewrite py_any_Exists, Exists_exists. Qed.

Lemma py_any_ext {A} (p q : A → bool) l :
  (∀ x, x ∈ l → p x = q x) → py_any p l = py_any q l.
Proof.
  induction l as [|x l IH]; intros Hpq; [done|]. simpl.
  rewrite (Hpq x), IH by set_solver. done.
Qed.

Lemma py_any_app {A} (p : A → bool) l k :
  py_any p (l ++ k) = py_any p l || py_any p k.
Proof. induction l as [|x l IH]; [done|]. simpl. by destruct (p x). Qed.

(** ** Truth values *)

Lemma truthy_spec {A} (l : list A) : truthy l ↔ l ≠ [].
Proof. by destruct l. Qed.

Lemma truthy_false {A} (l : list A) : truthy l = false ↔ l = [].
Proof. by destruct l. Qed.

Lemma truthy_fmap {A B} (f : A → B) l : truthy (f <$> l) = truthy l.
Proof. by destruct l. Qed.

(** ** Slices *)

Lemma length_slice_to {A} n (l : list A) : (length (slice_to n l) ≤ n)%nat.
Proof. apply length_take_bound. Qed.

Lemma slice_to_prefix {A} n (l : list A) : slice_to n l `prefix_of` l.
Proof. apply prefix_take. Qed.

Lemma slice_to_short {A} n (l : list A) :
  (length l ≤ n)%nat → slice_to n l = l.
Proof. apply take_ge. Qed.

(** ** [min], [max] *)

Section extrema.
Context {A : Type} (key : A → Z).
Implicit Types (l pre mid : list A) (x best : A).

Lemma keep_max_lt best y : key best < key y → keep_max key best y = y.
Proof. unfold keep_max. by intros ->%Z.ltb_lt. Qed.

Lemma keep_max_ge best y : key y ≤ key best → keep_max key best y = best.
Proof. unfold keep_max. by intros ->%Z.ltb_ge. Qed.

(** Loop invariant of [max]: the elements visited so far are
    [pre ++ best :: mid], the keys of [pre] are strictly below that of
    [best] and those of [mid] are not above it. *)
Lemma foldl_keep_max_inv pre mid best l :
  Forall (λ y, key y < key best) pre →
  Forall (λ y, key y ≤ key best) mid →
  ∃ k1 k2, pre ++ best :: mid ++ l = k1 ++ foldl (keep_max key) best l :: k2 ∧
    Forall (λ y, key y < key (foldl (keep_max key) best l)) k1 ∧
    Forall (λ y, key y ≤ key (foldl (keep_max key) best l)) k2.
Proof.
  revert pre mid best.
  induction l as [|y l IH]; intros pre mid best Hpre Hmid; simpl.
  { exists pre, mid. by rewrite app_nil_r. }
  destruct (Z.lt_ge_cases (key best) (key y)) as [Hlt|Hge].
  - rewrite keep_max_lt by done.
    destruct (IH (pre ++ best :: mid) [] y) as (k1 & k2 & Heq & ?); [|done|].
    + rewrite Forall_app, Forall_cons. split_and!; [|lia|];
        (eapply Forall_impl; [eassumption|]; simpl; lia).
    + exists k1, k2. split; [|done]. by rewrite <-Heq, <-app_assoc.
  - rewrite keep_max_ge by done.
    destruct (IH pre (mid ++ [y]) best) as (k1 & k2 & Heq & ?); [done| |].
    + rewrite Forall_app, Forall_singleton. done.
    + exists k1, k2. split; [|done]. by rewrite <-Heq, <-app_assoc.
Qed.
(** [max(l, key=key)] returns the first element of maximal key. *)
Lemma py_max_key_spec l r :
  py_max_key key l = Ok r →
  ∃ k1 k2, l = k1 ++ r :: k2 ∧
    Forall (λ y, key y < key r) k1 ∧ Forall (λ y, key y ≤ key r) k2.
Proof.
  destruct l as [|x l]; [done|]. intros [= <-].
  by apply (foldl_keep_max_inv [] []).
Qed.

Lemma py_max_key_returns l : l ≠ [] → returns (py_max_key key l).
Proof. destruct l; [done|]. intros _. apply returns_Ok. Qed.

Lemma py_max_key_elem_of l r : py_max_key key l = Ok r → r ∈ l.
Proof. intros (k1 & k2 & -> & _)%py_max_key_spec. set_solver. Qed.

Lemma py_max_key_ge l r y : py_max_key key l = Ok r → y ∈ l → key y ≤ key r.
Proof.
  intros (k1 & k2 & -> & H1 & H2)%py_max_key_spec.
  rewrite elem_of_app, elem_of_cons, !Forall_forall in *.
  intros [?|[->|?]]; [|lia|by apply H2]. by apply Z.lt_le_incl, H1.
Qed.

End extrema.

(** [max] with [key=] commutes with a map that respects the key. *)
Lemma py_max_key_fmap {A B} (key : A → Z) (key' : B → Z) (f : B → A) (l : list B) :
  (∀ y, key (f y) = key' y) →
  py_max_key key (f <$> l) = f <$> py_max_key key' l.
Proof.
  intros Hk. destruct l as [|x l]; [done|]. simpl. f_equal.
  revert x. induction l as [|y l IH]; intros x; [done|]. simpl.
  rewrite <-IH. f_equal. unfold keep_max. rewrite !Hk. by case_match.
Qed.

Lemma py_max_spec l m : py_max l = Ok m → m ∈ l ∧ Forall (λ y, y ≤ m) l.
Proof.
  intros Hm. split; [by eapply py_max_key_elem_of|].
  apply Forall_forall. intros y. by apply (py_max_key_ge id).
Qed.

Lemma foldl_keep_min_opp best l :
  - foldl keep_min best l = foldl (keep_max id) (- best) (Z.opp <$> l).
Proof.
  revert best. induction l as [|y l IH]; intros best; [done|]. simpl.
  rewrite IH. f_equal. unfold keep_min, keep_max, id.
  destruct (Z.ltb_spec y best), (Z.ltb_spec (- best) (- y)); lia.
Qed.

Lemma py_min_spec l m : py_min l = Ok m → m ∈ l ∧ Forall (λ y, m ≤ y) l.
Proof.
  destruct l as [|x l]; [done|]. intros [= <-].
  assert (py_max (Z.opp <$> x :: l) = Ok (- foldl keep_min x l)) as Hmax.
  { unfold py_max. simpl. by rewrite foldl_keep_min_opp. }
  apply py_max_spec in Hmax as [Hin Hle]. split.
  - apply list_elem_of_fmap in Hin as (y & ? & ?).
    by replace (foldl keep_min x l) with y by lia.
  - apply Forall_forall. intros y Hy. rewrite Forall_forall in Hle.
    assert (- y ≤ - foldl keep_min x l); [|lia].
    by apply Hle, list_elem_of_fmap_2.
Qed.

Lemma py_min_returns l : l ≠ [] → returns (py_min l).
Proof. destruct l; [done|]. intros _. apply returns_Ok. Qed.

Lemma py_max_returns l : l ≠ [] → returns (py_max l).
Proof. apply py_max_key_returns. Qed.

(** The range of a non-empty sequence is never negative. *)
Lemma py_min_le_max l lo hi : py_min l = Ok lo → py_max l = Ok hi → lo ≤ hi.
Proof.
  intros [Hlo _]%py_min_spec [_ Hhi]%py_max_spec.
  rewrite Forall_forall in Hhi. by apply Hhi.
Qed.

#[export] Hint Resolve py_len_nonneg py_len_pos py_min_returns py_max_returns
  py_max_key_returns : py.

(** ** The order of the elements

    [sum], [len], [min] and [max] on integers do not depend on the order of
    the list. *)

#[export] Instance py_sum_perm : Proper ((≡ₚ) ==> (=)) py_sum.
Proof. induction 1; rewrite ?py_sum_cons; lia. Qed.

#[export] Instance py_len_perm {A} : Proper ((≡ₚ) ==> (=)) (@py_len A).
Proof. intros l k Hl. unfold py_len. by rewrite Hl. Qed.

(** Two values that are each below every element of a list that holds the
    other are equal; so are two values each above. *)
Lemma extremum_unique (R : relation Z) (l k : list Z) m m' :
  (∀ x y, R x y → R y x → x = y) →
  l ≡ₚ k → m ∈ l → Forall (R m) l → m' ∈ k → Forall (R m') k → m = m'.
Proof.
  rewrite !Forall_forall. intros HR Hl Hin Hall Hin' Hall'.
  apply HR; [apply Hall; by rewrite Hl|apply Hall'; by rewrite <-Hl].
Qed.

#[export] Instance py_min_perm : Proper ((≡ₚ) ==> (=)) py_min.
Proof.
  intros l k Hl. destruct (decide (l = [])) as [->|Hne].
  { by apply Permutation_nil_l in Hl as ->. }
  assert (k ≠ []) as Hne' by (intros ->; by apply Permutation_nil_r in Hl).
  destruct (py_min_returns l Hne) as [m Hm], (py_min_returns k Hne') as [m' Hm'].
  rewrite Hm, Hm'. f_equal.
  apply py_min_spec in Hm as [Hin Hall], Hm' as [Hin' Hall'].
  apply (extremum_unique Z.le l k); done || (intros; lia).
Qed.

#[export] Instance py_max_perm : Proper ((≡ₚ) ==> (=)) py_max.
Proof.
  intros l k Hl. destruct (decide (l = [])) as [->|Hne].
  { by apply Permutation_nil_l in Hl as ->. }
  assert (k ≠ []) as Hne' by (intros ->; by apply Permutation_nil_r in Hl).
  destruct (py_max_returns l Hne) as [m Hm], (py_max_returns k Hne') as [m' Hm'].
  rewrite Hm, Hm'. f_equal.
  apply py_max_spec in Hm as [Hin Hall], Hm' as [Hin' Hall'].
  apply (extremum_unique (λ x y, y ≤ x) l k); done || (intros; lia).
Qed.

(** ** Main results *)

(** [max(l, key=key)] returns the element at the first position that
    holds a maximal key: no element has a larger key, and every element
    before that position has a strictly smaller one. *)
Theorem py_max_key_first {A} (key : A → Z) (l : list A) (r : A) :
  py_max_key key l = Ok r →
  ∃ i, l !! i = Some r ∧
    ∀ j y, l !! j = Some y → key y ≤ key r ∧ ((j < i)%nat → key y < key r).
Proof.
  intros (k1 & k2 & -> & Hlt & Hle)%py_max_key_spec. exists (length k1).
  split; [by apply list_lookup_middle|]. intros j y Hy.
  rewrite Forall_forall in Hlt, Hle.
  apply lookup_app_Some in Hy as [Hy|[Hj Hy]].
  - apply list_elem_of_lookup_2, Hlt in Hy. lia.
  - split; [|lia]. destruct (j - length k1)%nat as [|j'] eqn:Hj'; simpl in Hy.
    + injection Hy as ->. lia.
    + by apply list_elem_of_lookup_2, Hle in Hy.
Qed.

Lemma py_max_key_first_witness :
  ∃ i, [3; 5; 5; 4] !! i = Some 5 ∧
    ∀ j y, [3; 5; 5; 4] !! j = Some y → id y ≤ id 5 ∧ ((j < i)%nat → id y < id 5).
Proof. apply (py_max_key_first id [3; 5; 5; 4] 5). by vm_compute. Defined.
