(* ===== verification/PyStr.v ===== *)
(** * PyStr: the Python [str] operations the analyzer calls

    A Python [str] is a sequence of Unicode code points, so the model is
    [list N] (one [N] per code point, not per byte): slicing [s[:n]], [len]
    and the substring test [a in b] all count code points.  String literals
    of the source are written [lit "..."], which decodes the UTF-8 bytes of
    the Rocq literal the way Python decodes its UTF-8 source file.

    [str.lower()] depends on the Unicode tables of the interpreter.  The
    analyzer only ever asks whether a lower-cased string contains an ASCII
    keyword, so the model fixes exactly what that question depends on:
    [lower_rel s t] says that [t] is a lower-casing of [s] that is exact on
    every code point whose image contains an ASCII character (A-Z, U+0130 and
    U+212A; no other code point lower-cases to ASCII) and maps every other
    code point to a non-empty run of non-ASCII code points.  The class
    [Lowering] is the interface the analyzer is written against;
    [ascii_lower] is its executable instance. *)

From stdpp Require Import strings pretty.
From Stdlib Require Import Ascii.
From S2P Require Import Prelude.

Local Open Scope N_scope.

Abbreviation codepoint := N (only parsing).
Abbreviation str := (list N) (only parsing).

(** ** Literals *)

Definition bytes_of (s : string) : list N :=
  N_of_ascii <$> String.list_ascii_of_string s.

(** UTF-8 decoding of a well-formed byte sequence; a truncated sequence
    yields U+FFFD (the literals of the model are well formed). *)
Fixpoint utf8_decode (bs : list N) : str :=
  match bs with
  | [] => []
  | b :: rest =>
    if b <? 128 then b :: utf8_decode rest
    else if b <? 224 then
      match rest with
      | c1 :: rest1 => ((b mod 32) * 64 + c1 mod 64) :: utf8_decode rest1
      | [] => [65533]
      end
    else if b <? 240 then
      match rest with
      | c1 :: c2 :: rest2 =>
        ((b mod 16) * 4096 + (c1 mod 64) * 64 + c2 mod 64) :: utf8_decode rest2
      | _ => [65533]
      end
    else
      match rest with
      | c1 :: c2 :: c3 :: rest3 =>
        ((b mod 8) * 262144 + (c1 mod 64) * 4096 + (c2 mod 64) * 64 + c3 mod 64)
          :: utf8_decode rest3
      | _ => [65533]
      end
  end.

Definition lit (s : string) : str := utf8_decode (bytes_of s).

(** The double quote and the newline, which a Rocq literal cannot hold. *)
Definition dquote : str := [34].
Definition newline : str := [10].

(** ** [str(int)] *)

Definition str_of_int (z : Z) : str := bytes_of (pretty z).

(* Literals and printed numbers stay folded under [simpl]. *)
Arguments lit : simpl never.
Arguments str_of_int : simpl never.

(** ** Lower-casing *)

Definition is_ascii (c : codepoint) : bool := c <? 128.

(** An ASCII word: what a keyword of the vocabulary is. *)
Definition ascii_word (kw : str) : Prop :=
  kw ≠ [] ∧ Forall (λ c, is_ascii c) kw.

(** The lower-case image of one code point, exact wherever the image holds
    an ASCII character: A-Z, LATIN CAPITAL LETTER I WITH DOT ABOVE (U+0130,
    which becomes "i" followed by U+0307) and KELVIN SIGN (U+212A, "k"). *)
Definition lower_cp (c : codepoint) : str :=
  if (65 <=? c) && (c <=? 90) then [c + 32]
  else if c =? 304 then [105; 775]
  else if c =? 8490 then [107]
  else [c].

Definition ascii_lower (s : str) : str := s ≫= lower_cp.

(** A larger table: the capital letters of Latin-1 as well (U+00C0 to
    U+00DE, the multiplication sign U+00D7 apart), which [str.lower] moves
    32 code points up. *)
Definition latin1_lower_cp (c : codepoint) : str :=
  if (192 <=? c) && (c <=? 222) && negb (c =? 215) then [c + 32]
  else lower_cp c.

Definition latin1_lower (s : str) : str := s ≫= latin1_lower_cp.

(** The code points whose lower-case image is fixed by the model. *)
Definition ascii_source (c : codepoint) : bool :=
  is_ascii c || (c =? 304) || (c =? 8490).

Inductive lower_rel : str → str → Prop :=
| lower_rel_nil : lower_rel [] []
| lower_rel_exact c s t :
    ascii_source c → lower_rel s t → lower_rel (c :: s) (lower_cp c ++ t)
| lower_rel_other c u s t :
    ¬ ascii_source c → u ≠ [] → Forall (λ x, ¬ is_ascii x) u →
    lower_rel s t → lower_rel (c :: s) (u ++ t).

Class Lowering := {
  lower : str → str;
  lower_sound : ∀ s, lower_rel s (lower s)
}.

(** ** Substring test [needle in hay] *)

Fixpoint starts_with (needle hay : str) : bool :=
  match needle, hay with
  | [], _ => true
  | _ :: _, [] => false
  | a :: needle', b :: hay' => (a =? b) && starts_with needle' hay'
  end.

Fixpoint contains (needle hay : str) : bool :=
  starts_with needle hay ||
  match hay with
  | [] => false
  | _ :: hay' => contains needle hay'
  end.

(** The specification of [in]: [needle] occurs somewhere inside [hay]. *)
Definition substring (needle hay : str) : Prop :=
  ∃ k1 k2, hay = k1 ++ needle ++ k2.

(** ** [sep.join(parts)] *)

Fixpoint join (sep : str) (parts : list str) : str :=
  match parts with
  | [] => []
  | p :: ps =>
    match ps with
    | [] => p
    | _ :: _ => p ++ sep ++ join sep ps
    end
  end.

(** ** Facts on literals *)

Lemma bytes_of_app s1 s2 : bytes_of (s1 +:+ s2) = bytes_of s1 ++ bytes_of s2.
Proof.
  induction s1 as [|a s1 IH]; [done|].
  change (N_of_ascii a :: bytes_of (s1 +:+ s2) =
          N_of_ascii a :: (bytes_of s1 ++ bytes_of s2)).
  by rewrite IH.
Qed.

Lemma bytes_of_bounded s : Forall (λ b, b < 256) (bytes_of s).
Proof.
  unfold bytes_of. induction s as [|a s IH]; constructor; [|done].
  apply N_ascii_bounded.
Qed.

(** On ASCII bytes decoding is the identity. *)
Lemma utf8_decode_ascii bs :
  Forall (λ b, is_ascii b) bs → utf8_decode bs = bs.
Proof.
  induction 1 as [|b bs Hb _ IH]; [done|].
  unfold is_ascii in Hb. simpl. destruct (b <? 128); [|done]. by rewrite IH.
Qed.

(** ** Facts on [starts_with] and [contains] *)

Lemma starts_with_spec needle hay :
  starts_with needle hay ↔ needle `prefix_of` hay.
Proof.
  revert hay. induction needle as [|a needle IH]; intros [|b hay]; simpl.
  - split; [intros _; apply prefix_nil|done].
  - split; [intros _; apply prefix_nil|done].
  - split; [done|]. by intros ?%prefix_nil_not.
  - rewrite andb_True, IH. destruct (N.eqb_spec a b) as [->|Hne].
    + split; [intros [_ ?]; by apply prefix_cons|].
      intros ?%prefix_cons_inv_2. done.
    + split; [by intros [[] _]|]. by intros ?%prefix_cons_inv_1.
Qed.

Lemma substring_cons needle c hay :
  substring needle (c :: hay) ↔
  needle `prefix_of` (c :: hay) ∨ substring needle hay.
Proof.
  split.
  - intros ([|c' k1] & k2 & Heq); simplify_eq/=.
    + left. by exists k2.
    + right. by exists k1, k2.
  - intros [[k2 ->]|(k1 & k2 & ->)].
    + by exists [], k2.
    + by exists (c :: k1), k2.
Qed.

Lemma substring_nil needle : substring needle [] ↔ needle = [].
Proof.
  split; [|intros ->; by exists [], []].
  intros (k1 & k2 & Heq). symmetry in Heq.
  by apply app_eq_nil in Heq as [_ [? _]%app_eq_nil].
Qed.

Lemma contains_spec needle hay : contains needle hay ↔ substring needle hay.
Proof.
  induction hay as [|c hay IH]; simpl.
  - rewrite substring_nil. destruct needle; naive_solver.
  - by rewrite orb_True, substring_cons, IH, starts_with_spec.
Qed.

#[export] Instance substring_dec needle hay : Decision (substring needle hay).
Proof.
  refine (cast_if (decide (contains needle hay))); by rewrite <-contains_spec.
Defined.

#[export] Instance substring_preorder : PreOrder substring.
Proof.
  split.
  - intros s. exists [], []. by rewrite app_nil_r.
  - intros a b c (k1 & k2 & ->) (k3 & k4 & ->).
    exists (k3 ++ k1), (k2 ++ k4). by rewrite <-!app_assoc.
Qed.

Lemma contains_nil hay : contains [] hay.
Proof. apply contains_spec. by exists [], hay. Qed.

(** A keyword found in a part of a string is found in the string. *)
Lemma contains_substring needle hay hay' :
  contains needle hay → substring hay hay' → contains needle hay'.
Proof. rewrite !contains_spec. intros. by etrans. Qed.

(** A keyword that contains another one drags it along. *)
Lemma contains_trans kw1 kw2 hay :
  substring kw1 kw2 → contains kw2 hay → contains kw1 hay.
Proof. rewrite !contains_spec. intros. by etrans. Qed.

#[export] Hint Resolve contains_nil : py.
(** ** Facts on lower-casing *)

Lemma ascii_lower_nil : ascii_lower [] = [].
Proof. done. Qed.

Lemma ascii_lower_cons c s : ascii_lower (c :: s) = lower_cp c ++ ascii_lower s.
Proof. done. Qed.

Lemma ascii_lower_app s t :
  ascii_lower (s ++ t) = ascii_lower s ++ ascii_lower t.
Proof. apply bind_app. Qed.

Lemma lower_cp_cases c :
  (65 ≤ c ≤ 90 ∧ lower_cp c = [c + 32]) ∨
  (c = 304 ∧ lower_cp c = [105; 775]) ∨
  (c = 8490 ∧ lower_cp c = [107]) ∨
  ((c < 65 ∨ 90 < c) ∧ c ≠ 304 ∧ c ≠ 8490 ∧ lower_cp c = [c]).
Proof.
  unfold lower_cp.
  destruct (N.leb_spec 65 c), (N.leb_spec c 90); simpl;
    destruct (N.eqb_spec c 304), (N.eqb_spec c 8490); subst; simpl;
    try lia; auto 10 with lia.
Qed.

(** Lower-casing is idempotent: every image is already lower case. *)
Lemma lower_cp_idemp c : ascii_lower (lower_cp c) = lower_cp c.
Proof.
  destruct (lower_cp_cases c) as [[? ->]|[[-> ->]|[[-> ->]|(? & ? & ? & ->)]]];
    [|done|done|].
  - unfold ascii_lower, lower_cp. simpl.
    destruct (N.leb_spec 65 (c + 32)), (N.leb_spec (c + 32) 90); simpl; try lia;
      destruct (N.eqb_spec (c + 32) 304), (N.eqb_spec (c + 32) 8490); simpl; by try lia.
  - unfold ascii_lower, lower_cp. simpl.
    destruct (N.leb_spec 65 c), (N.leb_spec c 90); simpl; try lia;
      destruct (N.eqb_spec c 304), (N.eqb_spec c 8490); simpl; by try lia.
Qed.

Lemma ascii_lower_idemp s : ascii_lower (ascii_lower s) = ascii_lower s.
Proof.
  induction s as [|c s IH]; [done|].
  by rewrite ascii_lower_cons, ascii_lower_app, lower_cp_idemp, IH.
Qed.

Lemma lower_cp_other c :
  ¬ ascii_source c → lower_cp c = [c] ∧ ¬ is_ascii c.
Proof.
  unfold ascii_source, is_ascii. 
  destruct (N.ltb_spec c 128), (N.eqb_spec c 304), (N.eqb_spec c 8490); simpl; try tauto.
  intros _. destruct (lower_cp_cases c) as [[? ->]|[[-> ->]|[[-> ->]|(? & ? & ? & ->)]]];
    try lia; auto.
Qed.

Lemma ascii_lower_sound s : lower_rel s (ascii_lower s).
Proof.
  induction s as [|c s IH]; [constructor|].
  rewrite ascii_lower_cons. destruct (decide (ascii_source c)) as [Hc|Hc].
  - by constructor.
  - destruct (lower_cp_other c Hc) as [Heq ?]. rewrite Heq.
    apply lower_rel_other; auto.
Qed.

#[export] Instance ascii_lowering : Lowering :=
  {| lower := ascii_lower; lower_sound := ascii_lower_sound |}.

(** ** The keyword tests do not depend on the Unicode tables *)

Section lowering_abstraction.
Implicit Types (kw s t u : str).

Lemma starts_with_app_agree img t t' :
  (∀ kw, Forall (λ c, is_ascii c) kw → starts_with kw t = starts_with kw t') →
  ∀ kw, Forall (λ c, is_ascii c) kw →
    starts_with kw (img ++ t) = starts_with kw (img ++ t').
Proof.
  intros Ht. induction img as [|x img IH]; intros kw Hkw; [by apply Ht|].
  destruct Hkw as [|k kw Hk Hkw]; simpl; [done|]. by rewrite IH.
Qed.

Lemma contains_app_agree img t t' :
  (∀ kw, Forall (λ c, is_ascii c) kw → starts_with kw t = starts_with kw t') →
  ∀ kw, Forall (λ c, is_ascii c) kw → contains kw t = contains kw t' →
    contains kw (img ++ t) = contains kw (img ++ t').
Proof.
  intros Hs kw Hkw Hc. induction img as [|x img IH]; [done|].
  simpl. rewrite IH. f_equal. by apply (starts_with_app_agree (x :: img)).
Qed.

(** The Latin-1 table satisfies the interface too: it differs from the ASCII
    one on code points whose image has no ASCII character. *)
Lemma latin1_lower_cp_cases c :
  (ascii_source c ∧ latin1_lower_cp c = lower_cp c) ∨
  (¬ ascii_source c ∧ ∃ x, latin1_lower_cp c = [x] ∧ ¬ is_ascii x).
Proof.
  unfold latin1_lower_cp.
  destruct (N.leb_spec 192 c), (N.leb_spec c 222), (N.eqb_spec c 215); simpl;
    try (destruct (decide (ascii_source c)) as [Hc|Hc];
         [by left|right; split; [done|]; exists c; apply (lower_cp_other c Hc)]).
  right. unfold ascii_source, is_ascii.
  destruct (N.ltb_spec c 128), (N.eqb_spec c 304), (N.eqb_spec c 8490); simpl;
    try lia. split; [tauto|]. exists (c + 32)%N. split; [done|].
  destruct (N.ltb_spec (c + 32) 128); simpl; [lia|tauto].
Qed.

Lemma latin1_lower_sound s : lower_rel s (latin1_lower s).
Proof.
  induction s as [|c s IH]; [constructor|].
  change (latin1_lower (c :: s)) with (latin1_lower_cp c ++ latin1_lower s).
  destruct (latin1_lower_cp_cases c) as [[Hc ->]|(Hc & x & -> & Hx)].
  - by constructor.
  - apply lower_rel_other; auto.
Qed.

#[export] Instance latin1_lowering : Lowering | 10 :=
  {| lower := latin1_lower; lower_sound := latin1_lower_sound |}.

(** The two tables differ: only the second one lower-cases [É]. *)
Lemma lowering_tables_differ :
  @lower ascii_lowering (lit "CAFÉ") = lit "cafÉ" ∧
  @lower latin1_lowering (lit "CAFÉ") = lit "café".
Proof. by vm_compute. Qed.

Lemma starts_with_nonascii kw u t :
  Forall (λ c, is_ascii c) kw → u ≠ [] → Forall (λ x, ¬ is_ascii x) u →
  starts_with kw (u ++ t) = bool_decide (kw = []).
Proof.
  intros Hkw Hu Hna. destruct Hna as [|x u Hx _]; [done|].
  destruct Hkw as [|k kw Hk _]; simpl; [done|].
  destruct (N.eqb_spec k x) as [->|]; done.
Qed.

Lemma contains_nonascii kw u t :
  Forall (λ c, is_ascii c) kw → Forall (λ x, ¬ is_ascii x) u →
  contains kw (u ++ t) = contains kw t.
Proof.
  intros Hkw. induction 1 as [|x u Hx Hu IH]; [done|].
  simpl. rewrite IH. destruct Hkw as [|k kw Hk Hkw]; simpl.
  - by destruct t.
  - destruct (N.eqb_spec k x) as [->|]; done.
Qed.

Lemma starts_with_lower_rel s t t' kw :
  lower_rel s t → lower_rel s t' → Forall (λ c, is_ascii c) kw →
  starts_with kw t = starts_with kw t'.
Proof.
  intros Ht. revert t' kw.
  induction Ht as [|c s t Hc _ IH|c u s t Hc Hu Hna _ IH];
    intros t' kw Ht' Hkw; inversion Ht'; simplify_eq; try done.
  - apply starts_with_app_agree; eauto.
  - by rewrite !starts_with_nonascii.
Qed.

Lemma contains_lower_rel s t t' kw :
  lower_rel s t → lower_rel s t' → Forall (λ c, is_ascii c) kw →
  contains kw t = contains kw t'.
Proof.
  intros Ht. revert t'.
  induction Ht as [|c s t Hc Ht IH|c u s t Hc Hu Hna Ht IH];
    intros t' Ht' Hkw; inversion Ht'; simplify_eq; try done.
  - apply contains_app_agree; eauto using starts_with_lower_rel.
  - rewrite !contains_nonascii by done. eauto.
Qed.

(** Whatever the interpreter's Unicode tables, the test [kw in s.lower()]
    for an ASCII keyword is the one the executable instance computes. *)
Theorem contains_lower `{Lowering} kw s :
  Forall (λ c, is_ascii c) kw →
  contains kw (lower s) = contains kw (ascii_lower s).
Proof.
  intros. eapply contains_lower_rel; eauto using lower_sound, ascii_lower_sound.
Qed.

End lowering_abstraction.

(** Two implementations of [str.lower] that satisfy the [Lowering]
    interface agree on whether the lower-cased text contains a given ASCII
    word, whatever they do to the other code points. *)
Theorem lowering_agree (L1 L2 : Lowering) kw s :
  Forall (λ c, is_ascii c) kw →
  contains kw (@lower L1 s) = contains kw (@lower L2 s).
Proof. intros Hkw. by rewrite !contains_lower. Qed.

Lemma lowering_agree_witness :
  contains (lit "spicy") (@lower ascii_lowering (lit "TRÈS SPICY")) =
  contains (lit "spicy") (@lower latin1_lowering (lit "TRÈS SPICY")).
Proof. apply lowering_agree. by_compute. Defined.

(** C39: the substring test [needle in hay] is true exactly when [hay] is
    some text, then [needle], then some text. *)
Theorem contains_correct needle hay :
  contains needle hay = bool_decide (substring needle hay) ∧
  (substring needle hay ↔ ∃ k1 k2, hay = k1 ++ needle ++ k2).
Proof.
  split; [|done]. apply bool_decide_of_iff, contains_spec.
Qed.

(** ** Facts on [join] *)

Lemma join_cons sep p q ps :
  join sep (p :: q :: ps) = p ++ sep ++ join sep (q :: ps).
Proof. done. Qed.

(** Every part of a joined string occurs in it. *)
Lemma substring_join sep p parts : p ∈ parts → substring p (join sep parts).
Proof.
  induction parts as [|q [|q' parts] IH]; intros Hp.
  - by apply elem_of_nil in Hp.
  - apply list_elem_of_singleton in Hp as ->. done.
  - rewrite join_cons. apply elem_of_cons in Hp as [->|Hp].
    + exists [], (sep ++ join sep (q' :: parts)). done.
    + destruct (IH Hp) as (k1 & k2 & ->). exists (q ++ sep ++ k1), k2.
      by rewrite <-!app_assoc.
Qed.

(** The first part is a prefix of the joined string. *)
Lemma join_prefix sep p parts : p `prefix_of` join sep (p :: parts).
Proof. destruct parts; [done|]. rewrite join_cons. by eexists. Qed.

(** ** Facts on [str_of_int] *)

#[export] Instance bytes_of_inj : Inj (=) (=) bytes_of.
Proof.
  assert (Inj (=) (=) N_of_ascii) as Hinj.
  { intros a b Hab.
    by rewrite <-(ascii_N_embedding a), <-(ascii_N_embedding b), Hab. }
  intros s1 s2 Heq. apply (inj (fmap N_of_ascii)) in Heq.
  by rewrite <-(String.string_of_list_ascii_of_string s1),
    <-(String.string_of_list_ascii_of_string s2), Heq.
Qed.

(** Distinct integers print differently. *)
#[export] Instance str_of_int_inj : Inj (=) (=) str_of_int.
Proof. intros z1 z2 Heq. by apply (inj bytes_of), (inj pretty) in Heq. Qed.

Lemma pretty_N_go_ascii x s :
  Forall (λ c, is_ascii c) (bytes_of s) →
  Forall (λ c, is_ascii c) (bytes_of (pretty_N_go x s)).
Proof.
  revert s. induction (N.lt_wf_0 x) as [x _ IH]; intros s Hs.
  destruct (decide (x = 0)) as [->|]; [by rewrite pretty_N_go_0|].
  rewrite pretty_N_go_step by lia. apply IH; [apply N.div_lt; lia|].
  constructor; [|done]. unfold pretty_N_char. by repeat case_match.
Qed.

(** The decimal rendering of an integer is pure ASCII. *)
Lemma str_of_int_ascii z : Forall (λ c, is_ascii c) (str_of_int z).
Proof.
  unfold str_of_int, pretty, pretty_Z.
  destruct z as [|p|p]; [by repeat constructor|..];
    unfold pretty, pretty_positive, pretty, pretty_N; simpl.
  - by apply pretty_N_go_ascii.
  - constructor; [done|]. by apply pretty_N_go_ascii.
Qed.

(** ** Concrete checks *)

(** The non-ASCII glyphs of the templates decode to one code point each:
    EM DASH, WHITE MEDIUM STAR and PARTY POPPER. *)
Example lit_glyphs : lit "— ⭐🎉" = [8212; 32; 11088; 127881].
Proof. reflexivity. Qed.

Example lower_mixed_case :
  ascii_lower (lit "Is it too Spicy?") = lit "is it too spicy?".
Proof. reflexivity. Qed.

Example contains_price_rice :
  contains (lit "rice") (lit "what is the price") = true.
Proof. reflexivity. Qed.

Example str_of_int_negative : str_of_int (-12) = lit "-12".
Proof. reflexivity. Qed.

(** ** Facts on [str(int)] *)

(** A decimal digit prints as one character. *)
Lemma str_of_int_digit d :
  (0 ≤ d < 10)%Z → str_of_int d = [Z.to_N (48 + d)].
Proof.
  intros Hd.
  assert (d ∈ [0; 1; 2; 3; 4; 5; 6; 7; 8; 9]%Z) as Hin.
  { rewrite !elem_of_cons. lia. }
  clear Hd. revert d Hin. apply Forall_forall. by_compute.
Qed.
