(* ===== verification/PyFloat.v ===== *)
(** * PyFloat: Python [float] as the analyzer uses it

    The analyzer makes one float, [avg_rating = sum(...) / total], compares
    it with the literals [4.0] and [3.0], prints it with [{:.1f}] and rounds
    it with [round(avg_rating, 1)]; printing and rounding are in
    [PyDecimal].  A Python float is an IEEE-754 binary64
    number.  Only finite values arise (true division of integers raises
    instead of returning an infinity), so a [float] here is a sign, a
    mantissa and an exponent with value [(-1)^fneg * fmant * 2^fexp]; the
    sign is kept on zero, because [{:.1f}] prints [-0.0].

    - [truediv a b] is Python's [a / b] on integers: the quotient rounded
      once to the nearest binary64 value, ties to even, with gradual
      underflow below [2^-1022]; [ZeroDivisionError] for [b = 0] and
      [OverflowError] when the rounded quotient reaches [2^1024].
    - [fle] is [<=] on floats: comparison of the values ([-0.0 <= 0.0] and
      [0.0 <= -0.0] both hold).

    [F2Q] is the exact rational a float denotes; two representations with
    the same value and sign are the same Python float ([feq] is equality of
    the values).  [finite64] is the invariant of the floats computed: a
    mantissa of at most 53 bits, an exponent between -1074 and 971 and a
    magnitude below [2^1024]. *)

From stdpp Require Import strings.
From Stdlib Require Import QArith Qpower.
From S2P Require Import Prelude PySeq PyStr.

Local Open Scope Z_scope.

Record float := mkfloat { fneg : bool; fmant : Z; fexp : Z }.

(** The mantissa with its sign. *)
Definition fsigned (x : float) : Z := if fneg x then - fmant x else fmant x.

(** The rational a float denotes. *)
Definition F2Q (x : float) : Q := inject_Z (fsigned x) * 2 ^ fexp x.

(** [n / d] rounded to the nearest integer, ties to the even one ([0 < d]). *)
Definition round_half_even (n d : Z) : Z :=
  let q := n / d in
  let r := n mod d in
  if 2 * r <? d then q
  else if d <? 2 * r then q + 1
  else if Z.even q then q else q + 1.

(** [floor (log2 (n / d))] for [0 < n] and [0 < d]. *)
Definition floor_log2_ratio (n d : Z) : Z :=
  let l := Z.log2 n - Z.log2 d in
  if n * 2 ^ Z.max 0 (- l) <? d * 2 ^ Z.max 0 l then l - 1 else l.

(** The exponent of the binary64 value nearest to [n / d]: 53 significant
    bits, but never below -1074 (gradual underflow). *)
Definition ratio_exp (n d : Z) : Z :=
  Z.max (floor_log2_ratio n d - 52) (-1074).

(** Its mantissa: [n / d / 2^e] rounded to the nearest integer. *)
Definition ratio_mant (n d : Z) : Z :=
  round_half_even (n * 2 ^ Z.max 0 (- ratio_exp n d))
                  (d * 2 ^ Z.max 0 (ratio_exp n d)).

(** The binary64 value nearest to [n / d] ([0 <= n], [0 < d]) with sign
    [neg]; [OverflowError] when it is [2^1024] or more. *)
Definition float_of_ratio (neg : bool) (n d : Z) : result float :=
  if n =? 0 then Ok (mkfloat neg 0 0)
  else
    let e := ratio_exp n d in
    let m := ratio_mant n d in
    if (0 <=? e) && (2 ^ 1024 <=? m * 2 ^ e) then Raise OverflowError
    else Ok (mkfloat neg m e).

(** [a / b] on Python integers. *)
Definition truediv (a b : Z) : result float :=
  if b =? 0 then Raise ZeroDivisionError
  else float_of_ratio (xorb (a <? 0) (b <? 0)) (Z.abs a) (Z.abs b).

(** A float literal with an integral value, such as [4.0]. *)
Definition float_of_int (z : Z) : float := mkfloat (z <? 0) (Z.abs z) 0.

(** [n / d < 2^k], with a negative exponent moved to the other side. *)
Definition below_pow2 (n d k : Z) : Prop :=
  n * 2 ^ Z.max 0 (- k) < d * 2 ^ Z.max 0 k.

(** [x <= y] on floats: both mantissas are brought to the smaller exponent
    and compared. *)
Definition fle (x y : float) : bool :=
  let e0 := Z.min (fexp x) (fexp y) in
  fsigned x * 2 ^ (fexp x - e0) <=? fsigned y * 2 ^ (fexp y - e0).

(** The largest quotient that still rounds to a finite binary64 value is
    just below [2^1024 - 2^970]. *)
Definition overflow_threshold : Z := 2 ^ 1024 - 2 ^ 970.

(** The floats binary64 can hold: a mantissa of at most 53 bits, an exponent
    between the subnormal one and the largest, and a magnitude below
    [2^1024]. *)
Definition finite64 (x : float) : Prop :=
  0 ≤ fmant x ≤ 2 ^ 53 ∧ -1074 ≤ fexp x ≤ 971 ∧
  fmant x * 2 ^ Z.max 0 (fexp x) < 2 ^ 1024.

(** [x == y] on floats: the same value, whatever the exponents. *)
Definition feq (x y : float) : Prop := fle x y ∧ fle y x.

#[export] Instance finite64_dec x : Decision (finite64 x).
Proof. unfold finite64. apply _. Defined.

#[export] Instance feq_dec x y : Decision (feq x y).
Proof. unfold feq. apply _. Defined.

Arguments truediv : simpl never.

(** ** Rounding to the nearest integer *)

Section round_half_even.
Context (n d : Z) (Hd : 0 < d).

Lemma round_half_even_cases :
  (round_half_even n d = n / d ∧ 2 * (n mod d) < d) ∨
  (round_half_even n d = n / d + 1 ∧ d < 2 * (n mod d)) ∨
  (2 * (n mod d) = d ∧ Z.even (round_half_even n d) ∧
   (round_half_even n d = n / d ∨ round_half_even n d = n / d + 1)).
Proof.
  unfold round_half_even.
  destruct (Z.ltb_spec (2 * (n mod d)) d); [by left|].
  destruct (Z.ltb_spec d (2 * (n mod d))); [by right; left|].
  right; right. split; [lia|].
  destruct (Z.even (n / d)) eqn:Hev; [rewrite Hev; by auto|].
  split; [|by right]. by rewrite Z.even_add, Hev.
Qed.

(** The result is within one half of the quotient. *)
Lemma round_half_even_near :
  2 * Z.abs (n - round_half_even n d * d) ≤ d.
Proof.
  pose proof (Z.mod_pos_bound n d Hd). pose proof (Z.div_mod n d).
  destruct round_half_even_cases as [[-> ?]|[[-> ?]|(? & _ & [->| ->])]]; nia.
Qed.

(** Exactly half way between two integers the even one is chosen. *)
Lemma round_half_even_tie :
  2 * Z.abs (n - round_half_even n d * d) = d → Z.even (round_half_even n d).
Proof.
  pose proof (Z.mod_pos_bound n d Hd). pose proof (Z.div_mod n d).
  destruct round_half_even_cases as [[Hm ?]|[[Hm ?]|(? & Hev & _)]];
    [rewrite Hm; nia..|done].
Qed.

(** No integer is nearer to the quotient than the result. *)
Lemma round_half_even_nearest k :
  Z.abs (n - round_half_even n d * d) ≤ Z.abs (n - k * d).
Proof.
  pose proof round_half_even_near. 
  destruct (decide (k = round_half_even n d)) as [->|]; [lia|]. nia.
Qed.

End round_half_even.

Lemma round_half_even_exact k d : 0 < d → round_half_even (k * d) d = k.
Proof.
  intros Hd. unfold round_half_even.
  rewrite Z.div_mul, Z.mod_mul by lia. 
  destruct (Z.ltb_spec (2 * 0) d); [done|lia].
Qed.

Lemma round_half_even_mono n n' d :
  0 < d → n ≤ n' → round_half_even n d ≤ round_half_even n' d.
Proof.
  intros Hd Hn.
  pose proof (Z.mod_pos_bound n d Hd). pose proof (Z.div_mod n d).
  pose proof (Z.mod_pos_bound n' d Hd). pose proof (Z.div_mod n' d).
  assert (n / d ≤ n' / d) by (apply Z.div_le_mono; lia).
  destruct (decide (n / d = n' / d)) as [Heq|].
  - destruct (round_half_even_cases n d) as [[-> ?]|[[-> ?]|(? & Hev & [Hm|Hm])]];
    destruct (round_half_even_cases n' d) as [[-> ?]|[[-> ?]|(? & Hev' & [Hm'|Hm'])]];
      try lia; rewrite ?Hm, ?Hm'; try lia.
    all: exfalso; rewrite ?Hm, ?Hm', ?Heq in *; 
      try (rewrite Z.even_add in *; destruct (Z.even (n' / d)); simpl in *; done); try lia.
  - destruct (round_half_even_cases n d) as [[-> ?]|[[-> ?]|(? & _ & [->| ->])]];
    destruct (round_half_even_cases n' d) as [[-> ?]|[[-> ?]|(? & _ & [->| ->])]]; lia.
Qed.

Lemma round_half_even_nonneg n d : 0 < d → 0 ≤ n → 0 ≤ round_half_even n d.
Proof.
  intros Hd Hn. rewrite <-(round_half_even_exact 0 d Hd) at 1.
  by apply round_half_even_mono.
Qed.

(** Rounding never crosses an integer bound. *)
Lemma round_half_even_le n d k : 0 < d → n ≤ k * d → round_half_even n d ≤ k.
Proof.
  intros Hd Hn. rewrite <-(round_half_even_exact k d Hd).
  by apply round_half_even_mono.
Qed.

Lemma round_half_even_ge n d k : 0 < d → k * d ≤ n → k ≤ round_half_even n d.
Proof.
  intros Hd Hn. rewrite <-(round_half_even_exact k d Hd) at 1.
  by apply round_half_even_mono.
Qed.

(** ** Powers of two *)

Lemma pow2_gt0 k : 0 ≤ k → 0 < 2 ^ k.
Proof. intros. by apply Z.pow_pos_nonneg. Qed.

Lemma pow2_max_pos k : 0 < 2 ^ Z.max 0 k.
Proof. apply pow2_gt0; lia. Qed.

Lemma pow2_add a b : 0 ≤ a → 0 ≤ b → 2 ^ (a + b) = 2 ^ a * 2 ^ b.
Proof. intros. by apply Z.pow_add_r. Qed.

#[export] Hint Resolve pow2_gt0 pow2_max_pos : py.

(** Scaling both sides of [n / d < 2^(k + j)] by [2^-k]. *)
Lemma below_pow2_shift n d k j :
  0 ≤ j →
  below_pow2 n d (k + j) ↔ n * 2 ^ Z.max 0 (- k) < 2 ^ j * (d * 2 ^ Z.max 0 k).
Proof.
  intros Hj. unfold below_pow2.
  destruct (decide (0 ≤ k)) as [Hk|Hk].
  - rewrite !(Z.max_l 0 (- _)), !Z.max_r, pow2_add, Z.pow_0_r by lia.
    by rewrite !Z.mul_1_r, (Z.mul_comm (2 ^ j)), Z.mul_assoc.
  - rewrite (Z.max_r 0 (- k)), (Z.max_l 0 k), Z.pow_0_r, !Z.mul_1_r by lia.
    destruct (decide (0 ≤ k + j)).
    + rewrite Z.max_l, Z.max_r, Z.pow_0_r, Z.mul_1_r by lia.
      rewrite (Z.mul_lt_mono_pos_r (2 ^ (- k))) by (apply pow2_gt0; lia).
      rewrite <-Z.mul_assoc, <-pow2_add by lia.
      by replace (k + j + - k) with j by lia; rewrite (Z.mul_comm d).
    + rewrite Z.max_r, Z.max_l, Z.pow_0_r, Z.mul_1_r by lia.
      rewrite (Z.mul_lt_mono_pos_r (2 ^ j)) by (apply pow2_gt0; lia).
      rewrite <-Z.mul_assoc, <-pow2_add by lia.
      by replace (- (k + j) + j) with (- k) by lia; rewrite (Z.mul_comm d).
Qed.

Lemma below_pow2_mono n d k k' :
  0 ≤ n → 0 < d → k ≤ k' → below_pow2 n d k → below_pow2 n d k'.
Proof.
  intros Hn Hd Hk. replace k' with (k + (k' - k)) by lia.
  rewrite below_pow2_shift by lia. unfold below_pow2.
  pose proof (pow2_gt0 (k' - k) ltac:(lia)). pose proof (pow2_max_pos k).
  generalize dependent (2 ^ (k' - k)). generalize dependent (2 ^ Z.max 0 k).
  generalize dependent (2 ^ Z.max 0 (- k)). intros; nia.
Qed.

(** [n / d] lies in the binade [[2^l, 2^(l+1))] that [floor_log2_ratio]
    returns; negative exponents are moved to the other side. *)
Lemma floor_log2_ratio_spec n d :
  0 < n → 0 < d →
  let l := floor_log2_ratio n d in
  d * 2 ^ Z.max 0 l ≤ n * 2 ^ Z.max 0 (- l) ∧
  n * 2 ^ Z.max 0 (- (l + 1)) < d * 2 ^ Z.max 0 (l + 1).
Proof.
  intros Hn Hd. unfold floor_log2_ratio.
  destruct (Z.log2_spec n Hn) as [Hn1 Hn2], (Z.log2_spec d Hd) as [Hd1 Hd2].
  pose proof (Z.log2_nonneg n). pose proof (Z.log2_nonneg d).
  set (a := Z.log2 n) in *. set (b := Z.log2 d) in *.
  destruct (Z.ltb_spec (n * 2 ^ Z.max 0 (- (a - b))) (d * 2 ^ Z.max 0 (a - b)))
    as [Hlt|Hge]; simpl.
  - split.
    + destruct (decide (1 ≤ a - b)).
      * rewrite !Z.max_r, Z.max_l by lia. 
        replace a with (b + 1 + (a - b - 1)) in Hn1 by lia.
        rewrite pow2_add in Hn1 by lia. 
        pose proof (pow2_gt0 (a - b - 1) ltac:(lia)). nia.
      * rewrite Z.max_l, Z.max_r by lia. 
        replace (- (a - b - 1)) with (b + 1 - a) by lia.
        replace (Z.succ b) with (a + (b + 1 - a)) in Hd2 by lia.
        rewrite pow2_add in Hd2 by lia. 
        pose proof (pow2_gt0 (b + 1 - a) ltac:(lia)). nia.
    + by replace (a - b - 1 + 1) with (a - b) by lia.
  - split; [done|].
    destruct (decide (0 ≤ a - b)).
    + rewrite Z.max_l, Z.max_r by lia.
      replace (Z.succ a) with (b + (a - b + 1)) in Hn2 by lia.
      rewrite pow2_add in Hn2 by lia.
      pose proof (pow2_gt0 (a - b + 1) ltac:(lia)). nia.
    + rewrite Z.max_r, Z.max_l by lia.
      replace (- (a - b + 1)) with (b - a - 1) by lia.
      replace b with (a + 1 + (b - a - 1)) in Hd1 by lia.
      rewrite pow2_add in Hd1 by lia. 
      pose proof (pow2_gt0 (b - a - 1) ltac:(lia)). nia.
Qed.

(** ** Mantissa and exponent of a rounded quotient *)

Section ratio.
Context (n d : Z) (Hn : 0 < n) (Hd : 0 < d).

Lemma ratio_exp_ge : floor_log2_ratio n d - 52 ≤ ratio_exp n d.
Proof. unfold ratio_exp. lia. Qed.

Lemma ratio_den_pos : 0 < d * 2 ^ Z.max 0 (ratio_exp n d).
Proof. pose proof (pow2_max_pos (ratio_exp n d)). nia. Qed.

(** The scaled quotient is below [2^53] ... *)
Lemma ratio_scaled_lt :
  n * 2 ^ Z.max 0 (- ratio_exp n d) <
  2 ^ 53 * (d * 2 ^ Z.max 0 (ratio_exp n d)).
Proof.
  apply below_pow2_shift; [done|].
  destruct (floor_log2_ratio_spec n d Hn Hd) as [_ Hlt].
  eapply below_pow2_mono; [lia|done| |exact Hlt]. pose proof ratio_exp_ge. lia.
Qed.

(** ... and, unless the result is subnormal, at least [2^52]. *)
Lemma ratio_scaled_ge :
  -1074 ≤ floor_log2_ratio n d - 52 →
  2 ^ 52 * (d * 2 ^ Z.max 0 (ratio_exp n d)) ≤
  n * 2 ^ Z.max 0 (- ratio_exp n d).
Proof.
  intros Hnormal. apply Z.nlt_ge. rewrite <-below_pow2_shift by done.
  destruct (floor_log2_ratio_spec n d Hn Hd) as [Hge _].
  unfold ratio_exp. rewrite Z.max_l by done.
  replace (floor_log2_ratio n d - 52 + 52) with (floor_log2_ratio n d) by lia.
  unfold below_pow2. lia.
Qed.

Lemma ratio_mant_nonneg : 0 ≤ ratio_mant n d.
Proof.
  apply round_half_even_nonneg; [apply ratio_den_pos|].
  pose proof (pow2_max_pos (- ratio_exp n d)). nia.
Qed.

Lemma ratio_mant_le : ratio_mant n d ≤ 2 ^ 53.
Proof.
  apply round_half_even_le; [apply ratio_den_pos|].
  pose proof ratio_scaled_lt. lia.
Qed.

Lemma ratio_mant_ge :
  -1074 ≤ floor_log2_ratio n d - 52 → 2 ^ 52 ≤ ratio_mant n d.
Proof.
  intros. apply round_half_even_ge; [apply ratio_den_pos|].
  by apply ratio_scaled_ge.
Qed.

(** A quotient below [2^k] has its binade below [k]. *)
Lemma floor_log2_ratio_lt k : below_pow2 n d k → floor_log2_ratio n d < k.
Proof.
  intros Hk. apply Z.nle_gt. intros Hle.
  destruct (floor_log2_ratio_spec n d Hn Hd) as [Hge _].
  apply (below_pow2_mono n d k (floor_log2_ratio n d)) in Hk; [|lia..].
  unfold below_pow2 in Hk. lia.
Qed.

End ratio.

(** ** When [float_of_ratio] returns *)

Lemma float_of_ratio_zero neg d : float_of_ratio neg 0 d = Ok (mkfloat neg 0 0).
Proof. done. Qed.

(** No overflow for a quotient below [2^1023]. *)
Lemma float_of_ratio_returns neg n d :
  0 ≤ n → 0 < d → n < 2 ^ 1023 * d → returns (float_of_ratio neg n d).
Proof.
  intros Hn Hd Hlt. unfold float_of_ratio.
  destruct (Z.eqb_spec n 0) as [->|Hne]; [apply returns_Ok|].
  assert (ratio_exp n d ≤ 970) as He.
  { unfold ratio_exp. 
    assert (floor_log2_ratio n d < 1023); [|lia].
    apply floor_log2_ratio_lt; [lia..|]. unfold below_pow2.
    rewrite Z.max_l, Z.max_r, Z.pow_0_r by lia. lia. }
  destruct (Z.leb_spec 0 (ratio_exp n d)) as [He0|]; [|apply returns_Ok].
  destruct (Z.leb_spec (2 ^ 1024) (ratio_mant n d * 2 ^ ratio_exp n d));
    [|apply returns_Ok].
  exfalso. pose proof (ratio_mant_le n d ltac:(lia) Hd).
  pose proof (ratio_mant_nonneg n d ltac:(lia) Hd).
  assert (2 ^ ratio_exp n d ≤ 2 ^ 970) by (apply Z.pow_le_mono_r; lia).
  assert (ratio_mant n d * 2 ^ ratio_exp n d ≤ 2 ^ 53 * 2 ^ 970) by nia.
  change (2 ^ 53 * 2 ^ 970) with (2 ^ 1023) in *.
  assert (2 ^ 1023 < 2 ^ 1024) by (apply Z.pow_lt_mono_r; lia). lia.
Qed.

(** The result carries the requested sign and a mantissa of at most 53
    bits. *)
Lemma float_of_ratio_Ok neg n d x :
  0 ≤ n → 0 < d → float_of_ratio neg n d = Ok x →
  fneg x = neg ∧ 0 ≤ fmant x ≤ 2 ^ 53 ∧
  (n = 0 → fmant x = 0) ∧
  (0 < n → fmant x = ratio_mant n d ∧ fexp x = ratio_exp n d).
Proof.
  intros Hn Hd. unfold float_of_ratio.
  destruct (Z.eqb_spec n 0) as [->|Hne].
  - intros [= <-]. simpl. split_and!; [done|done|lia|done|lia].
  - destruct (_ && _); [done|]. intros [= <-]. simpl.
    pose proof (ratio_mant_le n d ltac:(lia) Hd).
    pose proof (ratio_mant_nonneg n d ltac:(lia) Hd). split_and!; auto with lia.
Qed.

(** ** [truediv] *)

Lemma truediv_zero_divisor a : truediv a 0 = Raise ZeroDivisionError.
Proof. done. Qed.

(** Division by a positive integer raises at most [OverflowError], and not
    at all when the dividend is below [2^1023] in magnitude. *)
Lemma truediv_returns a b :
  b ≠ 0 → Z.abs a < 2 ^ 1023 → returns (truediv a b).
Proof.
  intros Hb Ha. unfold truediv. destruct (Z.eqb_spec b 0); [done|].
  apply float_of_ratio_returns; [lia..|]. 
  assert (0 < 2 ^ 1023) by (by apply pow2_gt0). nia.
Qed.

Lemma truediv_no_zero_division a b e :
  b ≠ 0 → truediv a b = Raise e → e = OverflowError.
Proof.
  unfold truediv, float_of_ratio. destruct (Z.eqb_spec b 0); [done|].
  intros _. destruct (_ =? _); [done|]. destruct (_ && _); naive_solver.
Qed.
(** ** The order on floats is the order on their values *)

Lemma Qpow2_pos e : (0 < 2 ^ e)%Q.
Proof. by apply Qpower_0_lt. Qed.

(** A float's value with the mantissa brought to a smaller exponent. *)
Lemma F2Q_rescale x e0 :
  e0 ≤ fexp x →
  (F2Q x == inject_Z (fsigned x * 2 ^ (fexp x - e0)) * 2 ^ e0)%Q.
Proof.
  intros He. unfold F2Q.
  rewrite inject_Z_mult, Zpower_Qpower by lia.
  replace (fexp x) with (fexp x - e0 + e0) at 1 by lia.
  rewrite Qpower_plus by done. change (inject_Z 2) with 2%Q. by rewrite Qmult_assoc.
Qed.

Lemma fle_spec x y : fle x y ↔ (F2Q x <= F2Q y)%Q.
Proof.
  unfold fle. set (e0 := Z.min (fexp x) (fexp y)).
  rewrite (F2Q_rescale x e0), (F2Q_rescale y e0) by lia.
  rewrite Qmult_le_r by apply Qpow2_pos.
  rewrite <-Zle_Qle, Is_true_true. apply Z.leb_le.
Qed.

#[export] Instance fle_preorder : PreOrder (λ x y, Is_true (fle x y)).
Proof.
  split.
  - intros x. apply fle_spec, Qle_refl.
  - intros x y z. rewrite !fle_spec. apply Qle_trans.
Qed.

(** [feq] is equality of the values, an equivalence that [fle] respects. *)
Lemma feq_spec x y : feq x y ↔ (F2Q x == F2Q y)%Q.
Proof.
  unfold feq. rewrite !fle_spec. split.
  - intros [? ?]. by apply Qle_antisym.
  - intros ->. split; apply Qle_refl.
Qed.

#[export] Instance feq_equiv : Equivalence feq.
Proof.
  split.
  - by intros x.
  - by intros x y [? ?].
  - intros x y z [? ?] [? ?]. split; by etrans.
Qed.

#[export] Instance fle_proper : Proper (feq ==> feq ==> eq) fle.
Proof.
  assert (∀ x x' y y', feq x x' → feq y y' → fle x y → fle x' y') as Himp.
  { intros x x' y y' [_ ?] [? _] ?. etrans; [done|]. by etrans. }
  intros x x' Hx y y' Hy. apply Bool.eq_iff_eq_true. rewrite <-!Is_true_true.
  split; apply Himp; done || by symmetry.
Qed.

(** The order is total, and antisymmetric up to [feq]. *)
#[export] Instance fle_antisymm : AntiSymm feq (λ x y, Is_true (fle x y)).
Proof. by intros x y ??. Qed.

#[export] Instance fle_total : Total (λ x y, Is_true (fle x y)).
Proof.
  intros x y. rewrite !fle_spec.
  destruct (Qlt_le_dec (F2Q y) (F2Q x)); [right; by apply Qlt_le_weak|by left].
Qed.

Lemma F2Q_float_of_int k : (F2Q (float_of_int k) == inject_Z k)%Q.
Proof.
  unfold F2Q, float_of_int, fsigned. simpl fexp. simpl fneg. simpl fmant.
  change (2 ^ 0)%Q with 1%Q. rewrite Qmult_1_r.
  destruct (Z.ltb_spec k 0); f_equiv; lia.
Qed.

Lemma fle_float_of_int j k : fle (float_of_int j) (float_of_int k) ↔ j ≤ k.
Proof. by rewrite fle_spec, !F2Q_float_of_int, <-Zle_Qle. Qed.

(** ** Comparing a float with an integer literal *)

Lemma fsigned_float_of_int k : fsigned (float_of_int k) = k.
Proof. unfold fsigned, float_of_int; simpl. destruct (Z.ltb_spec k 0); lia. Qed.

Lemma fle_unfold x y :
  fle x y ↔
  fsigned x * 2 ^ (fexp x - Z.min (fexp x) (fexp y)) ≤
  fsigned y * 2 ^ (fexp y - Z.min (fexp x) (fexp y)).
Proof. unfold fle. by rewrite Is_true_true, Z.leb_le. Qed.

Lemma fle_int_r m e k :
  fle (mkfloat false m e) (float_of_int k) ↔
  m * 2 ^ Z.max 0 e ≤ k * 2 ^ Z.max 0 (- e).
Proof.
  rewrite fle_unfold, fsigned_float_of_int. unfold fsigned; simpl.
  destruct (decide (0 ≤ e)).
  - by rewrite Z.min_r, (Z.max_r 0 e), (Z.max_l 0 (- e)), !Z.sub_0_r by lia.
  - by rewrite Z.min_l, (Z.max_l 0 e), (Z.max_r 0 (- e)), Z.sub_diag, Z.sub_0_l by lia.
Qed.

Lemma fle_int_l m e k :
  fle (float_of_int k) (mkfloat false m e) ↔
  k * 2 ^ Z.max 0 (- e) ≤ m * 2 ^ Z.max 0 e.
Proof.
  rewrite fle_unfold, fsigned_float_of_int. unfold fsigned; simpl.
  destruct (decide (0 ≤ e)).
  - by rewrite Z.min_l, (Z.max_r 0 e), (Z.max_l 0 (- e)), !Z.sub_0_r by lia.
  - by rewrite Z.min_r, (Z.max_l 0 e), (Z.max_r 0 (- e)), Z.sub_diag, Z.sub_0_l by lia.
Qed.

(** ** Rounding a quotient never crosses a small integer *)

Section ratio_vs_int.
Context (n d k : Z) (Hn : 0 < n) (Hd : 0 < d) (Hk : 0 ≤ k < 2 ^ 53).

(** With a positive exponent the value is at least [2^53]. *)
Lemma ratio_exp_pos_big :
  0 < ratio_exp n d →
  2 ^ 53 * d ≤ n ∧ 2 ^ 53 ≤ ratio_mant n d * 2 ^ ratio_exp n d.
Proof.
  intros He.
  assert (-1074 ≤ floor_log2_ratio n d - 52) as Hnorm
    by (unfold ratio_exp in He; lia).
  pose proof (ratio_scaled_ge n d Hn Hd Hnorm) as Hge.
  pose proof (ratio_mant_ge n d Hn Hd Hnorm).
  rewrite (Z.max_r 0 (ratio_exp n d)), (Z.max_l 0 (- _)), Z.pow_0_r in Hge by lia.
  assert (2 ^ 1 ≤ 2 ^ ratio_exp n d) by (apply Z.pow_le_mono_r; lia).
  change (2 ^ 1) with 2 in *. change (2 ^ 53) with (2 ^ 52 * 2). 
  assert (0 < 2 ^ 52) by done. split; nia.
Qed.

Lemma ratio_le_int :
  n ≤ k * d → fle (mkfloat false (ratio_mant n d) (ratio_exp n d)) (float_of_int k).
Proof.
  intros Hle. apply fle_int_r.
  destruct (Z.lt_trichotomy (ratio_exp n d) 0) as [He|[He|He]].
  - unfold ratio_mant. rewrite (Z.max_r 0 (- _)), (Z.max_l 0 (ratio_exp n d)) by lia.
    pose proof (pow2_gt0 (- ratio_exp n d) ltac:(lia)).
    rewrite Z.pow_0_r, !Z.mul_1_r. apply round_half_even_le; [lia|nia].
  - unfold ratio_mant. rewrite He. simpl. rewrite !Z.mul_1_r.
    by apply round_half_even_le.
  - destruct (ratio_exp_pos_big He). nia.
Qed.

Lemma ratio_ge_int :
  k * d ≤ n → fle (float_of_int k) (mkfloat false (ratio_mant n d) (ratio_exp n d)).
Proof.
  intros Hle. apply fle_int_l.
  destruct (Z.lt_trichotomy (ratio_exp n d) 0) as [He|[He|He]].
  - unfold ratio_mant. rewrite (Z.max_r 0 (- _)), (Z.max_l 0 (ratio_exp n d)) by lia.
    pose proof (pow2_gt0 (- ratio_exp n d) ltac:(lia)).
    rewrite Z.pow_0_r, !Z.mul_1_r. apply round_half_even_ge; [lia|nia].
  - unfold ratio_mant. rewrite He. simpl. rewrite !Z.mul_1_r.
    by apply round_half_even_ge.
  - destruct (ratio_exp_pos_big He).
    rewrite (Z.max_l 0 (- _)), Z.max_r, Z.pow_0_r by lia. lia.
Qed.

End ratio_vs_int.

(** ** [truediv] against integer thresholds *)

Section truediv_vs_int.
Context (a b k : Z) (x : float).
Context (Hb : 0 < b) (Hk : 0 ≤ k < 2 ^ 53) (Hx : truediv a b = Ok x).

Lemma truediv_Ok_cases :
  (a < 0 ∧ fneg x = true ∧ 0 ≤ fmant x) ∨
  (a = 0 ∧ fmant x = 0) ∨
  (0 < a ∧ x = mkfloat false (ratio_mant a b) (ratio_exp a b)).
Proof.
  revert Hx. unfold truediv. destruct (Z.eqb_spec b 0); [lia|].
  intros Hx'. apply float_of_ratio_Ok in Hx' as (Hneg & Hm & H0 & Hpos); [|lia..].
  destruct (Z.lt_trichotomy a 0) as [?|[->|?]].
  - left. rewrite Hneg. destruct (Z.ltb_spec a 0), (Z.ltb_spec b 0); try lia. auto with lia.
  - right; left. auto.
  - right; right. split; [done|]. destruct Hpos as [??]; [lia|].
    destruct x; simplify_eq/=. rewrite !Z.abs_eq by lia.
    destruct (Z.ltb_spec a 0), (Z.ltb_spec b 0); try lia. done.
Qed.

(** A mean at or above [k] gives a float at or above [k.0] ... *)
Theorem truediv_ge_int : k * b ≤ a → fle (float_of_int k) x.
Proof.
  intros Hle. destruct truediv_Ok_cases as [(? & _)|[(-> & Hm)|(? & ->)]].
  - nia.
  - assert (k = 0) as -> by nia. apply fle_unfold.
    unfold fsigned. rewrite Hm. simpl. destruct (fneg x); lia.
  - by apply ratio_ge_int.
Qed.

(** ... and a mean at or below [k] a float at or below [k.0]. *)
Theorem truediv_le_int : a ≤ k * b → fle x (float_of_int k).
Proof.
  intros Hle. destruct truediv_Ok_cases as [(? & Hneg & Hm)|[(-> & Hm)|(? & ->)]].
  - apply fle_unfold. rewrite fsigned_float_of_int. unfold fsigned. rewrite Hneg.
    pose proof (Z.pow_nonneg 2 (fexp x - Z.min (fexp x) (fexp (float_of_int k))) ltac:(lia)).
    pose proof (Z.pow_nonneg 2 (fexp (float_of_int k) - Z.min (fexp x) (fexp (float_of_int k))) ltac:(lia)).
    nia.
  - apply fle_unfold. rewrite fsigned_float_of_int. unfold fsigned. rewrite Hm.
    pose proof (Z.pow_nonneg 2 (fexp (float_of_int k) - Z.min (fexp x) (fexp (float_of_int k))) ltac:(lia)).
    destruct (fneg x); nia.
  - by apply ratio_le_int.
Qed.

End truediv_vs_int.

(** A quotient that is an integer below [2^53] is computed exactly. *)
Lemma truediv_exact a b k x :
  0 < b → 0 ≤ k < 2 ^ 53 → a = k * b → truediv a b = Ok x →
  feq x (float_of_int k).
Proof.
  intros Hb Hk -> Hx. split.
  - by apply (truediv_le_int (k * b) b k).
  - by apply (truediv_ge_int (k * b) b k).
Qed.

(** A float at or above [k.0] needs a mean above [k - 1]. *)
Corollary truediv_ge_int_inv a b k x :
  0 < b → 1 ≤ k < 2 ^ 53 → truediv a b = Ok x →
  fle (float_of_int k) x → (k - 1) * b < a.
Proof.
  intros Hb Hk Hx Hle. apply Z.nle_gt. intros Hmean.
  assert (fle (float_of_int k) (float_of_int (k - 1))) as Hkk.
  { etrans; [exact Hle|]. eapply truediv_le_int; eauto with lia. }
  apply fle_float_of_int in Hkk. lia.
Qed.

(** ** Below an integer threshold the quotient stays below it *)

Lemma round_half_even_ge_inv n d k :
  0 < d → k ≤ round_half_even n d → (2 * k - 1) * d ≤ 2 * n.
Proof. intros Hd Hk. pose proof (round_half_even_near n d Hd). nia. Qed.

Section ratio_lt_int.
Context (n d k : Z) (Hn : 0 < n) (Hd : 0 < d).
Context (Hkd : k * d < 2 ^ 53) (Hlt : n < k * d).

(** The threshold is a small integer ... *)
Lemma ratio_lt_int_exp : ratio_exp n d ≤ 0.
Proof.
  assert (floor_log2_ratio n d < 53); [|unfold ratio_exp; lia].
  apply floor_log2_ratio_lt; [done..|]. unfold below_pow2.
  rewrite Z.max_l, Z.max_r, Z.pow_0_r by lia. nia.
Qed.

(** ... so a mantissa that reaches it needs a denominator of more than 53
    bits. *)
Lemma ratio_lt_int_scaled :
  ¬ k * 2 ^ (- ratio_exp n d) ≤ ratio_mant n d.
Proof.
  pose proof ratio_lt_int_exp as He. unfold ratio_mant.
  rewrite (Z.max_r 0 (- _)), (Z.max_l 0 (ratio_exp n d)), Z.pow_0_r, Z.mul_1_r by lia.
  intros Hge%round_half_even_ge_inv; [|done].
  pose proof (pow2_gt0 (- ratio_exp n d) ltac:(lia)) as Hp.
  assert (2 * 2 ^ (- ratio_exp n d) ≤ d) as Hd2 by nia.
  destruct (decide (-1074 ≤ floor_log2_ratio n d - 52)) as [Hnorm|Hsub].
  - pose proof (ratio_scaled_ge n d Hn Hd Hnorm) as Hsc.
    rewrite (Z.max_r 0 (- _)), (Z.max_l 0 (ratio_exp n d)), Z.pow_0_r, Z.mul_1_r
      in Hsc by lia.
    revert Hp Hd2 Hsc Hge. generalize (2 ^ (- ratio_exp n d)). intros p ????.
    assert (2 ^ 52 < k * p) by nia. nia.
  - assert (ratio_exp n d = -1074) as He' by (unfold ratio_exp; lia).
    rewrite He' in Hd2. simpl Z.opp in Hd2.
    assert (2 ^ 53 < 2 * 2 ^ 1074) by done.
    assert (1 ≤ k) by nia. assert (d ≤ k * d) by nia. lia.
Qed.

Lemma ratio_lt_int :
  ¬ fle (float_of_int k) (mkfloat false (ratio_mant n d) (ratio_exp n d)).
Proof.
  rewrite fle_int_l. pose proof ratio_lt_int_exp.
  rewrite (Z.max_r 0 (- _)), (Z.max_l 0 (ratio_exp n d)), Z.pow_0_r, Z.mul_1_r by lia.
  apply ratio_lt_int_scaled.
Qed.

End ratio_lt_int.

(** For a threshold [k >= 1] with [k * b] below [2^53], the comparison of the
    rounded quotient with [k.0] is the comparison of the integers. *)
Theorem truediv_ge_int_iff a b k x :
  0 < b → 1 ≤ k → k * b < 2 ^ 53 → truediv a b = Ok x →
  fle (float_of_int k) x ↔ k * b ≤ a.
Proof.
  intros Hb Hk Hkb Hx. split; [|apply truediv_ge_int; [done|nia|done]].
  intros Hle. apply Z.nlt_ge. intros Hlt.
  destruct (truediv_Ok_cases a b x Hb Hx) as [(? & Hneg & Hm)|[(-> & Hm)|(? & ->)]].
  - apply fle_unfold in Hle. rewrite fsigned_float_of_int in Hle.
    unfold fsigned in Hle. rewrite Hneg in Hle.
    pose proof (pow2_gt0 (fexp (float_of_int k) - Z.min (fexp (float_of_int k)) (fexp x)) ltac:(lia)).
    pose proof (pow2_gt0 (fexp x - Z.min (fexp (float_of_int k)) (fexp x)) ltac:(lia)).
    nia.
  - apply fle_unfold in Hle. rewrite fsigned_float_of_int in Hle.
    unfold fsigned in Hle. rewrite Hm in Hle.
    pose proof (pow2_gt0 (fexp (float_of_int k) - Z.min (fexp (float_of_int k)) (fexp x)) ltac:(lia)).
    destruct (fneg x); nia.
  - by apply (ratio_lt_int a b k).
Qed.

(** ** A quotient between two integers *)

Lemma fle_float_int x k :
  fle x (float_of_int k) ↔
  fsigned x * 2 ^ Z.max 0 (fexp x) ≤ k * 2 ^ Z.max 0 (- fexp x).
Proof.
  rewrite fle_unfold, fsigned_float_of_int. simpl fexp.
  destruct (decide (0 ≤ fexp x)).
  - by rewrite Z.min_r, (Z.max_r 0 (fexp x)), (Z.max_l 0 (- fexp x)), !Z.sub_0_r by lia.
  - by rewrite Z.min_l, (Z.max_l 0 (fexp x)), (Z.max_r 0 (- fexp x)), Z.sub_diag,
      Z.sub_0_l by lia.
Qed.

Lemma fle_int_float k x :
  fle (float_of_int k) x ↔
  k * 2 ^ Z.max 0 (- fexp x) ≤ fsigned x * 2 ^ Z.max 0 (fexp x).
Proof.
  rewrite fle_unfold, fsigned_float_of_int. simpl fexp.
  destruct (decide (0 ≤ fexp x)).
  - by rewrite Z.min_l, (Z.max_r 0 (fexp x)), (Z.max_l 0 (- fexp x)), !Z.sub_0_r by lia.
  - by rewrite Z.min_r, (Z.max_l 0 (fexp x)), (Z.max_r 0 (- fexp x)), Z.sub_diag,
      Z.sub_0_l by lia.
Qed.

(** The mantissa of a quotient is never negative. *)
Lemma truediv_mant_nonneg a b x : truediv a b = Ok x → 0 ≤ fmant x.
Proof.
  unfold truediv. destruct (Z.eqb_spec b 0); [done|].
  intros Hx. apply float_of_ratio_Ok in Hx; [|lia..]. lia.
Qed.

(** The mean of integers between [lo] and [hi] rounds to a float between
    [lo] and [hi]. *)
Lemma truediv_between a b lo hi x :
  0 < b → 0 ≤ lo → hi < 2 ^ 53 → lo * b ≤ a ≤ hi * b → truediv a b = Ok x →
  fle (float_of_int lo) x ∧ fle x (float_of_int hi).
Proof.
  intros Hb Hlo Hhi [Ha1 Ha2] Hx.
  assert (0 < 2 ^ 53) by done. assert (lo ≤ hi) by nia.
  split; [apply (truediv_ge_int a b lo x)|apply (truediv_le_int a b hi x)];
    done || lia.
Qed.

Lemma float_of_ratio_raises neg n d e :
  float_of_ratio neg n d = Raise e → e = OverflowError.
Proof.
  unfold float_of_ratio. destruct (_ =? _); [done|].
  destruct (_ && _); naive_solver.
Qed.

(** A quotient of positive integers has the sign bit clear. *)
Lemma truediv_pos a b :
  0 < a → 0 < b → truediv a b = float_of_ratio false a b.
Proof.
  intros Ha Hb. unfold truediv. destruct (Z.eqb_spec b 0); [lia|].
  rewrite !Z.abs_eq by lia.
  by destruct (Z.ltb_spec a 0), (Z.ltb_spec b 0); try lia.
Qed.

(** The quotient of positive integers is not negative. *)
Lemma truediv_pos_sign a b x : 0 < a → 0 < b → truediv a b = Ok x → fneg x = false.
Proof.
  intros Ha Hb Hx.
  by destruct (truediv_Ok_cases a b x Hb Hx) as [(? & _)|[(-> & _)|(_ & ->)]];
    [lia..|].
Qed.

(** ** Exactly when the division overflows *)

Lemma floor_log2_ratio_ge n d k :
  0 < n → 0 < d → ¬ below_pow2 n d k → k ≤ floor_log2_ratio n d.
Proof.
  intros Hn Hd Hk. apply Z.nlt_ge. intros Hlt. apply Hk.
  destruct (floor_log2_ratio_spec n d Hn Hd) as [_ Hspec].
  apply (below_pow2_mono n d (floor_log2_ratio n d + 1)); [lia..|done].
Qed.

(** At a tie the even neighbour is chosen, so an even [k] is reached from
    [k - 1/2] on. *)
Lemma round_half_even_ge_half n d k :
  0 < d → Z.even k → (2 * k - 1) * d ≤ 2 * n → k ≤ round_half_even n d.
Proof.
  intros Hd Hev Hk. pose proof (round_half_even_near n d Hd) as Hnear.
  assert (k - 1 ≤ round_half_even n d) as Hge by nia.
  apply Z.le_lteq in Hge as [?|Heq]; [lia|]. exfalso.
  assert (Z.even (round_half_even n d)) as Hev'.
  { apply round_half_even_tie; [done|]. rewrite <-Heq in *. nia. }
  rewrite <-Heq in Hev'. replace k with (Z.succ (k - 1)) in Hev by lia.
  rewrite Z.even_succ, <-Z.negb_even in Hev. by destruct (Z.even (k - 1)).
Qed.

Lemma below_pow2_nonneg n d k :
  0 ≤ k → below_pow2 n d k ↔ n < d * 2 ^ k.
Proof.
  intros Hk. unfold below_pow2.
  by rewrite Z.max_l, Z.max_r, Z.pow_0_r, Z.mul_1_r by lia.
Qed.

Section overflow.
Context (n d : Z) (Hn : 0 < n) (Hd : 0 < d).

Lemma ratio_binade_1023 :
  2 ^ 1023 * d ≤ n → n < 2 ^ 1024 * d →
  ratio_exp n d = 971 ∧ ratio_mant n d = round_half_even n (d * 2 ^ 971).
Proof.
  intros Hlo Hhi.
  assert (floor_log2_ratio n d = 1023) as Hfl.
  { apply Z.le_antisymm.
    - assert (floor_log2_ratio n d < 1024); [|lia].
      apply floor_log2_ratio_lt; [done..|]. apply below_pow2_nonneg; lia.
    - apply floor_log2_ratio_ge; [done..|]. rewrite below_pow2_nonneg by lia. lia. }
  assert (ratio_exp n d = 971) as He by (unfold ratio_exp; lia).
  split; [done|]. unfold ratio_mant. rewrite He. simpl Z.max.
  by rewrite Z.pow_0_r, Z.mul_1_r.
Qed.

Lemma float_of_ratio_raises_iff neg :
  float_of_ratio neg n d = Raise OverflowError ↔ overflow_threshold * d ≤ n.
Proof.
  unfold overflow_threshold.
  assert (2 ^ 1024 = 2 * 2 ^ 1023) as H24 by done.
  assert (2 ^ 1023 = 2 ^ 53 * 2 ^ 970) as H23 by done.
  assert (0 < 2 ^ 970) as H970 by done.
  destruct (Z.lt_ge_cases n (2 ^ 1023 * d)) as [Hlow|Hlo].
  { destruct (float_of_ratio_returns neg n d) as [x Hx]; [lia..|].
    rewrite Hx. split; [done|]. nia. }
  unfold float_of_ratio. destruct (Z.eqb_spec n 0); [lia|].
  destruct (Z.lt_ge_cases n (2 ^ 1024 * d)) as [Hhi|Hhuge].
  - destruct (ratio_binade_1023 Hlo Hhi) as [-> ->]. simpl (0 <=? 971).
    assert (0 < d * 2 ^ 971) as HD by (assert (0 < 2 ^ 971) by done; nia).
    change (2 ^ 1024) with (2 ^ 53 * 2 ^ 971) at 1.
    destruct (Z.leb_spec (2 ^ 53 * 2 ^ 971)
      (round_half_even n (d * 2 ^ 971) * 2 ^ 971)) as [Hm|Hm]; simpl.
    + split; [intros _|done].
      assert (2 ^ 53 ≤ round_half_even n (d * 2 ^ 971)) as Hge
        by (assert (0 < 2 ^ 971) by done; nia).
      apply round_half_even_ge_inv in Hge; [|done].
      change (2 ^ 971) with (2 * 2 ^ 970) in Hge. nia.
    + split; [done|]. intros Hthr. exfalso.
      assert (2 ^ 53 ≤ round_half_even n (d * 2 ^ 971)); [|nia].
      apply round_half_even_ge_half; [done|done|].
      change (2 ^ 971) with (2 * 2 ^ 970). nia.
  - assert (1024 ≤ floor_log2_ratio n d) as Hfl.
    { apply floor_log2_ratio_ge; [done..|]. rewrite below_pow2_nonneg by lia. lia. }
    assert (ratio_exp n d = floor_log2_ratio n d - 52) as He
      by (unfold ratio_exp; lia).
    pose proof (ratio_mant_ge n d Hn Hd ltac:(lia)) as Hm.
    assert (2 ^ 972 ≤ 2 ^ ratio_exp n d) by (apply Z.pow_le_mono_r; lia).
    destruct (Z.leb_spec 0 (ratio_exp n d)); [|lia].
    destruct (Z.leb_spec (2 ^ 1024) (ratio_mant n d * 2 ^ ratio_exp n d));
      simpl.
    + split; [intros _; nia|done].
    + exfalso. change (2 ^ 1024) with (2 ^ 52 * 2 ^ 972) in *.
      assert (0 < 2 ^ 972) by done. assert (0 < 2 ^ 52) by done. nia.
Qed.

End overflow.

(** [a / b] raises [OverflowError] exactly when the magnitude of the
    quotient is at least [2^1024 - 2^970]. *)
Lemma truediv_overflow_iff a b :
  b ≠ 0 →
  truediv a b = Raise OverflowError ↔ overflow_threshold * Z.abs b ≤ Z.abs a.
Proof.
  intros Hb. unfold truediv. destruct (Z.eqb_spec b 0); [done|].
  destruct (decide (a = 0)) as [->|Ha].
  { simpl. split; [done|]. unfold overflow_threshold.
    assert (0 < 2 ^ 1024 - 2 ^ 970) by done. nia. }
  apply float_of_ratio_raises_iff; lia.
Qed.

Lemma truediv_returns_iff a b :
  returns (truediv a b) ↔ b ≠ 0 ∧ Z.abs a < overflow_threshold * Z.abs b.
Proof.
  destruct (decide (b = 0)) as [->|Hb].
  { rewrite truediv_zero_divisor. split; [by intros [? ?]|by intros [? _]]. }
  pose proof (truediv_overflow_iff a b Hb) as Hov.
  destruct (truediv a b) as [x|e] eqn:Hx.
  - split; [intros _|intros _; apply returns_Ok].
    split; [done|]. apply Z.nle_gt. by intros ?%Hov.
  - apply truediv_no_zero_division in Hx as ->; [|done].
    split; [by intros [? ?]|]. intros [_ Hlt]. destruct Hov as [Hov _].
    specialize (Hov eq_refl). lia.
Qed.

Lemma float_of_ratio_returns_iff neg n d :
  0 ≤ n → 0 < d →
  returns (float_of_ratio neg n d) ↔ n < overflow_threshold * d.
Proof.
  intros Hn Hd. destruct (decide (n = 0)) as [->|Hne].
  { rewrite float_of_ratio_zero. split; [intros _|intros _; apply returns_Ok].
    unfold overflow_threshold. assert (0 < 2 ^ 1024 - 2 ^ 970) by done. nia. }
  pose proof (float_of_ratio_raises_iff n d ltac:(lia) Hd neg) as Hov.
  destruct (float_of_ratio neg n d) as [x|e] eqn:Hx.
  - split; [intros _|intros _; apply returns_Ok].
    apply Z.nle_gt. by intros ?%Hov.
  - apply float_of_ratio_raises in Hx as ->.
    split; [by intros [? ?]|]. destruct Hov as [Hov _].
    specialize (Hov eq_refl). lia.
Qed.

(** A float produced by [float_of_ratio] has a mantissa of at most 53 bits
    and a magnitude below the overflow threshold. *)
Lemma float_of_ratio_finite neg n d x :
  0 ≤ n → 0 < d → float_of_ratio neg n d = Ok x →
  0 ≤ fmant x ≤ 2 ^ 53 ∧
  (0 ≤ fexp x → fmant x * 2 ^ fexp x < overflow_threshold).
Proof.
  intros Hn Hd Hx.
  pose proof (float_of_ratio_Ok neg n d x Hn Hd Hx) as (_ & Hm & H0 & Hpos).
  split; [done|]. intros He. unfold overflow_threshold.
  destruct (decide (n = 0)) as [->|Hne].
  { rewrite H0 by done. by rewrite Z.mul_0_l. }
  destruct Hpos as [Hm' He']; [lia|].
  assert (fmant x * 2 ^ fexp x < 2 ^ 1024) as Hlt.
  { revert Hx. unfold float_of_ratio. destruct (Z.eqb_spec n 0); [lia|].
    rewrite <-Hm', <-He'. destruct (Z.leb_spec 0 (fexp x)); [|lia].
    by destruct (Z.leb_spec (2 ^ 1024) (fmant x * 2 ^ fexp x)). }
  assert (2 ^ 52 ≤ fmant x) as Hnorm.
  { rewrite Hm'. apply ratio_mant_ge; [lia|done|]. unfold ratio_exp in He'. lia. }
  destruct (Z.lt_ge_cases (fexp x) 972) as [He2|He2].
  - destruct (decide (fexp x = 971)) as [Heq|Hneq].
    + rewrite Heq in *. change (2 ^ 1024) with (2 ^ 53 * 2 ^ 971) in Hlt.
      assert (0 < 2 ^ 971) by done.
      change (2 ^ 1024 - 2 ^ 970) with ((2 ^ 53 - 1) * 2 ^ 971 + 2 ^ 970).
      assert (0 < 2 ^ 970) by done. nia.
    + assert (2 ^ fexp x ≤ 2 ^ 970) by (apply Z.pow_le_mono_r; lia).
      pose proof (pow2_gt0 (fexp x) He).
      assert (fmant x * 2 ^ fexp x ≤ 2 ^ 53 * 2 ^ 970) by nia.
      change (2 ^ 53 * 2 ^ 970) with (2 ^ 1023) in *.
      assert (2 ^ 1023 < 2 ^ 1024 - 2 ^ 970) by done. lia.
  - assert (2 ^ 972 ≤ 2 ^ fexp x) by (apply Z.pow_le_mono_r; lia).
    change (2 ^ 1024) with (2 ^ 52 * 2 ^ 972) in Hlt.
    assert (0 < 2 ^ 972) by done. nia.
Qed.

(** Every float the model computes is one binary64 can hold. *)
Lemma float_of_ratio_finite64 neg n d x :
  0 ≤ n → 0 < d → float_of_ratio neg n d = Ok x → finite64 x.
Proof.
  intros Hn Hd Hx.
  pose proof (float_of_ratio_Ok neg n d x Hn Hd Hx) as (_ & Hm & H0 & Hpos).
  destruct (decide (n = 0)) as [->|Hne].
  { rewrite float_of_ratio_zero in Hx. injection Hx as <-. by vm_compute. }
  destruct Hpos as [Hm' He']; [lia|].
  pose proof (float_of_ratio_finite neg n d x Hn Hd Hx) as [_ Hfin].
  assert (-1074 ≤ fexp x) by (rewrite He'; unfold ratio_exp; lia).
  unfold finite64. destruct (decide (0 ≤ fexp x)) as [He|He].
  - rewrite Z.max_r by done. specialize (Hfin He).
    assert (overflow_threshold < 2 ^ 1024) by done.
    assert (2 ^ 52 ≤ fmant x) as Hnorm.
    { rewrite Hm'. apply ratio_mant_ge; [lia|done|]. unfold ratio_exp in He'. lia. }
    split_and!; try lia.
    apply Z.nlt_ge. intros Hgt.
    assert (2 ^ 972 ≤ 2 ^ fexp x) by (apply Z.pow_le_mono_r; lia).
    change (2 ^ 1024) with (2 ^ 52 * 2 ^ 972) in *.
    assert (0 < 2 ^ 972) by done. nia.
  - rewrite Z.max_l, Z.pow_0_r by lia. assert (2 ^ 53 < 2 ^ 1024) by done.
    split_and!; lia.
Qed.

Lemma truediv_finite64 a b x : truediv a b = Ok x → finite64 x.
Proof.
  unfold truediv. destruct (Z.eqb_spec b 0); [done|].
  apply float_of_ratio_finite64; lia.
Qed.

Lemma float_of_int_finite64 k : Z.abs k ≤ 2 ^ 53 → finite64 (float_of_int k).
Proof.
  intros Hk. unfold finite64, float_of_int. cbn [fmant fexp].
  change (2 ^ Z.max 0 0) with 1. assert (2 ^ 53 < 2 ^ 1024) by done. lia.
Qed.

(** ** Main results *)

(** C36: the quotient of two positive integers is correctly rounded to
    binary64: the result [m * 2^e] is positive, [e] is at least -1074, [m]
    has at most 53 bits and exactly 53 unless [e = -1074] (a subnormal), no
    multiple of [2^e] is nearer to the exact quotient, and when the quotient
    is half way between two multiples the even mantissa is chosen. *)
Theorem truediv_nearest a b x :
  0 < a → 0 < b → truediv a b = Ok x →
  let p := 2 ^ Z.max 0 (- fexp x) in
  let q := 2 ^ Z.max 0 (fexp x) in
  fneg x = false ∧ -1074 ≤ fexp x ∧ fmant x ≤ 2 ^ 53 ∧
  (2 ^ 52 ≤ fmant x ∨ fexp x = -1074) ∧
  (∀ k, Z.abs (a * p - fmant x * (b * q)) ≤ Z.abs (a * p - k * (b * q))) ∧
  (2 * Z.abs (a * p - fmant x * (b * q)) = b * q → Z.even (fmant x)).
Proof.
  intros Ha Hb Hx.
  destruct (truediv_Ok_cases a b x Hb Hx) as [(? & _)|[(-> & _)|(_ & ->)]];
    [lia..|].
  pose proof (ratio_den_pos a b) as Hden. simpl. split_and!.
  - done.
  - unfold ratio_exp. lia.
  - apply ratio_mant_le; auto.
  - destruct (decide (-1074 ≤ floor_log2_ratio a b - 52)).
    + left. apply ratio_mant_ge; auto.
    + right. unfold ratio_exp. lia.
  - intros k. apply round_half_even_nearest; auto.
  - apply round_half_even_tie; auto.
Qed.

Lemma truediv_nearest_witness :
  let x := mkfloat false 8256599316845909 (-51) in
  let p := 2 ^ Z.max 0 (- fexp x) in
  let q := 2 ^ Z.max 0 (fexp x) in
  fneg x = false ∧ -1074 ≤ fexp x ∧ fmant x ≤ 2 ^ 53 ∧
  (2 ^ 52 ≤ fmant x ∨ fexp x = -1074) ∧
  (∀ k, Z.abs (11 * p - fmant x * (3 * q)) ≤ Z.abs (11 * p - k * (3 * q))) ∧
  (2 * Z.abs (11 * p - fmant x * (3 * q)) = 3 * q → Z.even (fmant x)).
Proof. apply (truediv_nearest 11 3); [lia|lia|by vm_compute]. Defined.

(** C37: the outcome of [a / b] in every case: [ZeroDivisionError] exactly
    for a zero divisor, [OverflowError] exactly when the magnitude of the
    quotient is at least [2^1024 - 2^970], and otherwise a float with the
    sign of the quotient (a negative zero included) and a mantissa of at
    most 53 bits. *)
Theorem truediv_outcome a b :
  match truediv a b with
  | Raise ZeroDivisionError => b = 0
  | Raise OverflowError => b ≠ 0 ∧ overflow_threshold * Z.abs b ≤ Z.abs a
  | Raise _ => False
  | Ok x => b ≠ 0 ∧ Z.abs a < overflow_threshold * Z.abs b ∧
      fneg x = xorb (a <? 0) (b <? 0) ∧ 0 ≤ fmant x ≤ 2 ^ 53
  end.
Proof.
  destruct (decide (b = 0)) as [->|Hb]; [by rewrite truediv_zero_divisor|].
  pose proof (truediv_returns_iff a b) as Hret.
  destruct (truediv a b) as [x|e] eqn:Hx.
  - destruct Hret as [[_ Hlt] _]; [apply returns_Ok|].
    split; [done|]. split; [done|].
    revert Hx. unfold truediv. destruct (Z.eqb_spec b 0); [done|].
    intros Hx. by apply float_of_ratio_Ok in Hx as (? & ? & _); [|lia..].
  - pose proof (truediv_no_zero_division a b e Hb Hx) as ->.
    split; [done|]. by apply truediv_overflow_iff.
Qed.
