(* ===== verification/PyDecimal.v ===== *)
(** * PyDecimal: a float printed and rounded to one decimal

    The analyzer prints the mean with [{:.1f}] (lines 88, 98, 103, 114, 123,
    128 and 142 of [src/llm-service/main.py]) and stores [round(avg_rating,
    1)] in the metadata (line 156).
    - [tenths x] is [|x| * 10] rounded to an integer, ties to even, from the
      exact binary value of [x];
    - [format_f1] is [{:.1f}]: the sign, the tenths but for the last digit,
      a point and the last digit;
    - [py_round1] is [round(x, 1)]: the binary64 value nearest to the
      tenths divided by ten.

    The lemmas: the tenths depend on the value of the float only; rounding
    never overflows on a quotient; the first decimal of a small quotient is
    that of the exact quotient, ties apart; a one-decimal value survives the
    conversion to binary and back. *)

From stdpp Require Import strings.
From S2P Require Import Prelude PySeq PyStr PyFloat.

Local Open Scope Z_scope.

(** [|x| * 10] rounded to an integer, ties to even: the digits [{:.1f}]
    prints. *)
Definition tenths (x : float) : Z :=
  round_half_even (10 * fmant x * 2 ^ Z.max 0 (fexp x))
                  (2 ^ Z.max 0 (- fexp x)).

(** [f"{x:.1f}"]. *)
Definition format_f1 (x : float) : str :=
  (if fneg x then lit "-" else []) ++
  str_of_int (tenths x / 10) ++ lit "." ++ str_of_int (tenths x mod 10).

(** [round(x, 1)]. *)
Definition py_round1 (x : float) : result float :=
  float_of_ratio (fneg x) (tenths x) 10.

Arguments format_f1 : simpl never.
Arguments py_round1 : simpl never.

(** ** Rounding to one decimal *)

Lemma tenths_nonneg x : 0 ≤ fmant x → 0 ≤ tenths x.
Proof.
  intros Hm. apply round_half_even_nonneg; [apply pow2_max_pos|].
  pose proof (pow2_max_pos (fexp x)). nia.
Qed.

(** Rounding a quotient does not depend on a common factor. *)
Lemma round_half_even_scale n d c :
  0 < d → 0 < c → round_half_even (n * c) (d * c) = round_half_even n d.
Proof.
  intros Hd Hc. unfold round_half_even.
  rewrite Z.div_mul_cancel_r, Zmult_mod_distr_r by lia.
  pose proof (Z.mod_pos_bound n d Hd).
  repeat case_match; try done;
    repeat match goal with
    | H : (_ <? _) = true |- _ => apply Z.ltb_lt in H
    | H : (_ <? _) = false |- _ => apply Z.ltb_ge in H
    end; nia.
Qed.

(** The digits of a float with its mantissa brought to a smaller exponent. *)
Lemma tenths_rescale x e0 :
  e0 ≤ fexp x →
  tenths x = round_half_even (10 * (fmant x * 2 ^ (fexp x - e0)) * 2 ^ Z.max 0 e0)
                             (2 ^ Z.max 0 (- e0)).
Proof.
  intros He. unfold tenths.
  pose proof (pow2_gt0 (fexp x - e0) ltac:(lia)) as Hc.
  destruct (decide (0 ≤ e0)) as [H0|H0].
  - rewrite (Z.max_r 0 e0), (Z.max_r 0 (fexp x)), !(Z.max_l 0 (- _)) by lia.
    f_equal. assert (2 ^ fexp x = 2 ^ (fexp x - e0) * 2 ^ e0) as ->; [|lia].
    rewrite <-pow2_add by lia. f_equal. lia.
  - rewrite (Z.max_l 0 e0), (Z.max_r 0 (- e0)), Z.pow_0_r, Z.mul_1_r by lia.
    destruct (decide (0 ≤ fexp x)) as [He0|He0].
    + rewrite (Z.max_r 0 (fexp x)), (Z.max_l 0 (- fexp x)), Z.pow_0_r by lia.
      rewrite <-(round_half_even_scale _ 1 (2 ^ (- e0))), Z.mul_1_l
        by (done || apply pow2_gt0; lia).
      f_equal. assert (2 ^ (fexp x - e0) = 2 ^ fexp x * 2 ^ (- e0)) as ->; [|lia].
      rewrite <-pow2_add by lia. f_equal; lia.
    + rewrite (Z.max_l 0 (fexp x)), (Z.max_r 0 (- fexp x)), Z.pow_0_r, Z.mul_1_r
        by lia.
      rewrite <-(round_half_even_scale _ _ (2 ^ (fexp x - e0))) by
        (done || apply pow2_gt0; lia).
      f_equal; [lia|]. rewrite <-pow2_add by lia. f_equal. lia.
Qed.

(** Floats of the same value print the same digits, whatever their
    exponents. *)
Lemma feq_tenths x y :
  0 ≤ fmant x → 0 ≤ fmant y → feq x y → tenths x = tenths y.
Proof.
  intros Hx Hy [Hle Hge]. apply fle_unfold in Hle, Hge.
  rewrite Z.min_comm in Hge.
  set (e0 := Z.min (fexp x) (fexp y)) in *.
  rewrite (tenths_rescale x e0), (tenths_rescale y e0) by lia.
  assert (fsigned x * 2 ^ (fexp x - e0) = fsigned y * 2 ^ (fexp y - e0)) as Heq
    by lia.
  pose proof (pow2_gt0 (fexp x - e0) ltac:(lia)).
  pose proof (pow2_gt0 (fexp y - e0) ltac:(lia)).
  do 3 f_equal. unfold fsigned in Heq. destruct (fneg x), (fneg y); nia.
Qed.

(** A float between [-k] and [k] has at most [10 * k] tenths. *)
Lemma tenths_le x k :
  0 ≤ fmant x → fle (float_of_int (- k)) x → fle x (float_of_int k) →
  tenths x ≤ 10 * k.
Proof.
  intros Hm Hlo%fle_int_float Hhi%fle_float_int.
  apply round_half_even_le; [apply pow2_max_pos|].
  unfold fsigned in *. destruct (fneg x); lia.
Qed.

Lemma py_round1_returns x k :
  0 ≤ fmant x → k < 2 ^ 1000 →
  fle (float_of_int (- k)) x → fle x (float_of_int k) →
  returns (py_round1 x).
Proof.
  intros Hm Hk Hlo Hhi. pose proof (tenths_le x k Hm Hlo Hhi).
  apply float_of_ratio_returns; [by apply tenths_nonneg|done|].
  assert (2 ^ 1000 * 10 < 2 ^ 1023) by done. lia.
Qed.

Lemma py_round1_raises x e : py_round1 x = Raise e → e = OverflowError.
Proof. apply float_of_ratio_raises. Qed.

(** ** One decimal of a small quotient *)

(** An integer strictly within one half of the quotient is the rounded
    quotient. *)
Lemma round_half_even_unique n d k :
  0 < d → 2 * Z.abs (n - k * d) < d → round_half_even n d = k.
Proof.
  intros Hd Hk. pose proof (round_half_even_near n d Hd).
  assert (Z.abs ((round_half_even n d - k) * d) < d) as Habs by lia.
  rewrite Z.abs_mul, (Z.abs_eq d) in Habs by lia. nia.
Qed.

(** Away from a tie the rounded quotient is strictly within one half. *)
Lemma round_half_even_strict n d :
  0 < d → (2 * n) mod (2 * d) ≠ d →
  2 * Z.abs (n - round_half_even n d * d) < d.
Proof.
  intros Hd Htie. pose proof (round_half_even_near n d Hd) as Hnear.
  apply Z.le_lteq in Hnear as [?|Heq]; [done|]. destruct Htie.
  destruct (Z.abs_spec (n - round_half_even n d * d)) as [[_ Ha]|[_ Ha]];
    rewrite Ha in Heq.
  - replace (2 * n) with (d + round_half_even n d * (2 * d)) by lia.
    rewrite Z.mod_add, Z.mod_small by lia. done.
  - replace (2 * n) with (d + (round_half_even n d - 1) * (2 * d)) by lia.
    rewrite Z.mod_add, Z.mod_small by lia. done.
Qed.

Section tenths_of_ratio.
Context (neg : bool) (a b j : Z) (x : float).
Context (Ha : 0 < a) (Hb : 0 < b) (Hj : 0 ≤ j ≤ 52).
Context (Hsmall : a < 2 ^ j * b) (Hlen : 10 * b < 2 ^ (53 - j)).
Context (Hx : float_of_ratio neg a b = Ok x).

Lemma ratio_small_exp :
  fexp x ≤ j - 53 ∧ fmant x = ratio_mant a b ∧ fexp x = ratio_exp a b.
Proof.
  apply float_of_ratio_Ok in Hx as (_ & _ & _ & Hpos); [|lia..].
  destruct Hpos as [-> ->]; [done|]. split; [|done].
  assert (floor_log2_ratio a b < j); [|unfold ratio_exp; lia].
  apply floor_log2_ratio_lt; [done..|]. unfold below_pow2.
  rewrite Z.max_l, Z.max_r, Z.pow_0_r by lia. lia.
Qed.

(** The first decimal of the float nearest to [a / b] is that of [a / b]
    itself unless [a / b] is half way between two one-decimal values: the
    rounding error of the division is too small to move it across. The
    quotient is below [2^j] and the divisor leaves [53 - j] bits for the
    error. *)
Lemma ratio_tenths T :
  2 * Z.abs (10 * a - T * b) < b → tenths x = T.
Proof.
  intros HT. destruct ratio_small_exp as (He & Hm & He').
  unfold tenths. rewrite (Z.max_l 0 (fexp x)), (Z.max_r 0 (- fexp x)) by lia.
  rewrite Z.pow_0_r, Z.mul_1_r.
  pose proof (pow2_gt0 (- fexp x) ltac:(lia)) as Hp.
  assert (2 ^ (53 - j) ≤ 2 ^ (- fexp x)) as Hp50 by (apply Z.pow_le_mono_r; lia).
  apply round_half_even_unique; [done|].
  pose proof (round_half_even_near (a * 2 ^ Z.max 0 (- ratio_exp a b))
    (b * 2 ^ Z.max 0 (ratio_exp a b)) (ratio_den_pos a b Ha Hb)) as Hnear.
  fold (ratio_mant a b) in Hnear. rewrite <-Hm, <-He' in Hnear.
  rewrite (Z.max_l 0 (fexp x)), (Z.max_r 0 (- fexp x)), Z.pow_0_r, Z.mul_1_r
    in Hnear by lia.
  revert Hp Hp50 Hnear. generalize (2 ^ (- fexp x)), (fmant x). intros p m ???.
  assert ((10 * m - T * p) * b = p * (10 * a - T * b) - 10 * (a * p - m * b))
    as Hkey by lia.
  assert (2 * Z.abs ((10 * m - T * p) * b) < p * b) as Hlt.
  { rewrite Hkey.
    assert (2 * Z.abs (p * (10 * a - T * b)) ≤ p * (b - 1)).
    { rewrite Z.abs_mul, (Z.abs_eq p) by lia. nia. }
    assert (2 * Z.abs (10 * (a * p - m * b)) ≤ 10 * b) by lia.
    lia. }
  rewrite Z.abs_mul, (Z.abs_eq b) in Hlt by lia. nia.
Qed.

End tenths_of_ratio.

(** The case of a mean of star ratings: a quotient below 8. *)
Lemma truediv_tenths a b x T :
  0 < a → 0 < b → a < 8 * b → 10 * b < 2 ^ 50 → truediv a b = Ok x →
  2 * Z.abs (10 * a - T * b) < b → tenths x = T.
Proof.
  intros Ha Hb Hsmall Hlen Hx HT. rewrite truediv_pos in Hx by done.
  apply (ratio_tenths false a b 3 x); done || lia.
Qed.

Lemma tenths_zero neg e : tenths (mkfloat neg 0 e) = 0.
Proof.
  unfold tenths. simpl. rewrite Z.mul_0_r, Z.mul_0_l.
  apply (round_half_even_exact 0), pow2_max_pos.
Qed.

(** ** From decimal to binary and back

    A one-decimal value below [2^46] survives the conversion to binary64:
    the float nearest to [t / 10] prints as [t] tenths. *)
Lemma float_of_ratio_tenths neg t r :
  0 ≤ t < 10 * 2 ^ 46 → float_of_ratio neg t 10 = Ok r →
  fneg r = neg ∧ tenths r = t.
Proof.
  intros Ht Hr. split; [by apply float_of_ratio_Ok in Hr as (? & _); [|lia..]|].
  destruct (decide (t = 0)) as [->|Hne].
  { rewrite float_of_ratio_zero in Hr. injection Hr as <-. apply tenths_zero. }
  apply (ratio_tenths neg t 10 46 r); try done; try lia.
Qed.

Lemma py_round1_tenths x r :
  0 ≤ fmant x → tenths x < 10 * 2 ^ 46 → py_round1 x = Ok r →
  fneg r = fneg x ∧ tenths r = tenths x.
Proof.
  intros Hm Ht. apply float_of_ratio_tenths. split; [by apply tenths_nonneg|done].
Qed.

Lemma py_round1_fixed x r :
  0 ≤ fmant x → tenths x < 10 * 2 ^ 46 → py_round1 x = Ok r →
  py_round1 r = Ok r.
Proof.
  intros Hm Ht Hr. destruct (py_round1_tenths x r Hm Ht Hr) as [Hs Hd].
  unfold py_round1. by rewrite Hs, Hd.
Qed.

(** ** Rounding a quotient to one decimal never overflows *)

Lemma py_round1_finite64 x r : 0 ≤ fmant x → py_round1 x = Ok r → finite64 r.
Proof. intros Hm. by apply float_of_ratio_finite64; [apply tenths_nonneg|]. Qed.

Lemma py_round1_returns_finite x :
  0 ≤ fmant x ≤ 2 ^ 53 →
  (0 ≤ fexp x → fmant x * 2 ^ fexp x < overflow_threshold) →
  returns (py_round1 x).
Proof.
  intros Hm Hfin. apply float_of_ratio_returns_iff; [apply tenths_nonneg; lia|done|].
  unfold tenths. destruct (decide (0 ≤ fexp x)) as [He|He].
  - rewrite (Z.max_r 0 (fexp x)), (Z.max_l 0 (- fexp x)), Z.pow_0_r by lia.
    rewrite <-(Z.mul_1_r (10 * _ * _)) at 1.
    rewrite round_half_even_exact by done. specialize (Hfin He). lia.
  - rewrite (Z.max_l 0 (fexp x)), (Z.max_r 0 (- fexp x)), Z.pow_0_r, Z.mul_1_r
      by lia.
    pose proof (pow2_gt0 (- fexp x) ltac:(lia)).
    assert (round_half_even (10 * fmant x) (2 ^ (- fexp x)) ≤ 10 * fmant x)
      by (apply round_half_even_le; [done|nia]).
    unfold overflow_threshold.
    assert (2 ^ 53 < 2 ^ 1024 - 2 ^ 970) by done. lia.
Qed.

(** [round(a / b, 1)] returns whenever [a / b] does. *)
Lemma py_round1_truediv a b x : truediv a b = Ok x → returns (py_round1 x).
Proof.
  unfold truediv. destruct (Z.eqb_spec b 0); [done|]. intros Hx.
  apply float_of_ratio_finite in Hx as [? ?]; [|lia..].
  by apply py_round1_returns_finite.
Qed.

(** ** The shape of the printed mean *)

(** [{:.1f}] prints an optional sign, the integer part, a point and exactly
    one digit. *)
Lemma format_f1_shape x :
  0 ≤ fmant x →
  ∃ d, 0 ≤ d < 10 ∧ tenths x = 10 * (tenths x / 10) + d ∧
    format_f1 x = (if fneg x then lit "-" else []) ++
      str_of_int (tenths x / 10) ++ lit "." ++ [Z.to_N (48 + d)].
Proof.
  intros Hm. exists (tenths x mod 10).
  pose proof (Z.mod_pos_bound (tenths x) 10 ltac:(lia)) as Hd.
  split; [done|]. split; [apply Z.div_mod; lia|].
  unfold format_f1. by rewrite (str_of_int_digit _ Hd).
Qed.

(** ** Main results *)


(** C26: rounding to one decimal and printing commute: when [round(x, 1)]
    returns [r] for a float [x] below [2^46] in magnitude, [r] is a binary64
    value that prints with one decimal exactly as [x] does, digits and sign,
    and rounding [r] again gives [r] back. *)
Theorem py_round1_roundtrip x r :
  0 ≤ fmant x → tenths x < 10 * 2 ^ 46 → py_round1 x = Ok r →
  finite64 r ∧ format_f1 r = format_f1 x ∧ py_round1 r = Ok r.
Proof.
  intros Hm Ht Hr. destruct (py_round1_tenths x r Hm Ht Hr) as [Hs Hd].
  split; [by eapply py_round1_finite64|]. split; [|by eapply py_round1_fixed].
  unfold format_f1. by rewrite Hs, Hd.
Qed.

Lemma py_round1_roundtrip_witness :
  let x := mkfloat false 8256599316845909 (-51) in
  let r := mkfloat false 8331659310635418 (-51) in
  finite64 r ∧ format_f1 r = format_f1 x ∧ py_round1 r = Ok r.
Proof.
  apply (py_round1_roundtrip (mkfloat false 8256599316845909 (-51)));
    [by_compute|by_compute|by vm_compute].
Defined.
