(* ===== verification/Json.v ===== *)
(** * Json: the values of a request body and of a response

    FastAPI hands the handler a [ChatRequest] built by pydantic from the
    parsed JSON body, and turns the [ChatResponse] it returns into JSON
    again.  This file holds what the two directions share: the parsed JSON
    values ([json], with objects as finite maps from keys to values, as a
    Python [dict] is) and the decoders of the field annotations of the
    models, [str], [int], [list[...]], a required field ([Field(...)]) and a
    field with a default.

    How pydantic reads a scalar of another type than the annotation (a
    number where a string is declared, a truth value where an integer is)
    depends on its version and mode.  It is the interface [Casting]: any pair
    of functions that read a string as itself, an integer as itself, and
    never read [null], an array or an object as a string or an integer.
    [strict_casting] reads nothing else; [lenient_casting] is a second
    instance.  The theorems hold for every instance. *)

From stdpp Require Import strings gmap.
From S2P Require Import Prelude PySeq PyStr PyFloat.

Local Open Scope Z_scope.

(** A parsed JSON value. *)
Inductive json : Type :=
| JNull
| JBool (b : bool)
| JInt (z : Z)
| JFloat (x : float)
| JStr (s : str)
| JArr (l : list json)
| JObj (o : gmap string json).

(** The values that are not [null], an array or an object. *)
Definition scalar (j : json) : bool :=
  match j with
  | JNull | JArr _ | JObj _ => false
  | _ => true
  end.

(** The fields of an object; no field for another value. *)
Definition fields (j : json) : gmap string json :=
  match j with JObj o => o | _ => ∅ end.

(** What a field annotation [str] or [int] makes of a JSON value. *)
Class Casting := {
  cast_str : json → option str;
  cast_int : json → option Z;
  cast_str_str s : cast_str (JStr s) = Some s;
  cast_int_int z : cast_int (JInt z) = Some z;
  cast_str_scalar j s : cast_str j = Some s → scalar j;
  cast_int_scalar j z : cast_int j = Some z → scalar j
}.

(** The strict table: only a string is a string, only an integer an
    integer. *)
Definition strict_str (j : json) : option str :=
  match j with JStr s => Some s | _ => None end.
Definition strict_int (j : json) : option Z :=
  match j with JInt z => Some z | _ => None end.

(** A lenient table: an integer where a string is declared is read as its
    decimal text, a truth value where an integer is declared as 0 or 1. *)
Definition lenient_str (j : json) : option str :=
  match j with
  | JStr s => Some s
  | JInt z => Some (str_of_int z)
  | _ => None
  end.
Definition lenient_int (j : json) : option Z :=
  match j with
  | JInt z => Some z
  | JBool b => Some (if b then 1 else 0)
  | _ => None
  end.

Section decoders.
Context `{Casting}.
Context {A : Type}.
Implicit Types (dec : json → result A) (o : gmap string json) (k : string).

(** A value that does not validate raises [ValidationError]. *)
Definition validated {B} (x : option B) : result B :=
  from_option Ok (Raise ValidationError) x.

(** The annotations [str] and [int]. *)
Definition decode_str (j : json) : result str := validated (cast_str j).
Definition decode_int (j : json) : result Z := validated (cast_int j).

(** A field declared with [Field(...)]: the key must be present. *)
Definition required dec k o : result A :=
  match o !! k with
  | Some j => dec j
  | None => Raise ValidationError
  end.

(** A field declared with a default: the key may be absent. *)
Definition optional dec k o : result (option A) :=
  match o !! k with
  | Some j => Some <$> dec j
  | None => Ok None
  end.

(** The annotation [list[...]]: an array whose items all decode. *)
Definition decode_list dec (j : json) : result (list A) :=
  match j with
  | JArr l => mapM dec l
  | _ => Raise ValidationError
  end.

End decoders.

#[export] Instance strict_casting : Casting.
Proof. by refine {| cast_str := strict_str; cast_int := strict_int |}; intros []. Defined.

#[export] Instance lenient_casting : Casting | 10.
Proof. by refine {| cast_str := lenient_str; cast_int := lenient_int |}; intros []. Defined.

(** A decoder that raises nothing but [ValidationError]. *)
Definition only_validation {A} (dec : json → result A) : Prop :=
  ∀ j e, dec j = Raise e → e = ValidationError.

(** [dec2] accepts what [dec1] accepts, with the same result. *)
Definition accepts_less {A} (dec1 dec2 : json → result A) : Prop :=
  ∀ j a, dec1 j = Ok a → dec2 j = Ok a.

(** ** The constructors are injective *)

#[export] Instance JStr_inj : Inj (=) (=) JStr.
Proof. by intros ?? [= ->]. Qed.

#[export] Instance JArr_inj : Inj (=) (=) JArr.
Proof. by intros ?? [= ->]. Qed.

#[export] Instance JObj_inj : Inj (=) (=) JObj.
Proof. intros o1 o2 Heq. exact (f_equal fields Heq). Qed.

(** ** The decoders of fields *)

Section decoder_lemmas.
Context `{Casting}.

Lemma validated_Ok {B} (x : option B) b : validated x = Ok b ↔ x = Some b.
Proof. destruct x; naive_solver. Qed.

Lemma validated_Raise {B} (x : option B) e : validated x = Raise e → e = ValidationError.
Proof. destruct x; naive_solver. Qed.

Lemma decode_str_str s : decode_str (JStr s) = Ok s.
Proof. unfold decode_str. by rewrite cast_str_str. Qed.

Lemma decode_int_int z : decode_int (JInt z) = Ok z.
Proof. unfold decode_int. by rewrite cast_int_int. Qed.

Lemma decode_str_not_scalar j : ¬ scalar j → decode_str j = Raise ValidationError.
Proof.
  intros Hj. unfold decode_str. destruct (cast_str j) as [s|] eqn:Hs; [|done].
  by apply cast_str_scalar in Hs.
Qed.

Lemma decode_int_not_scalar j : ¬ scalar j → decode_int j = Raise ValidationError.
Proof.
  intros Hj. unfold decode_int. destruct (cast_int j) as [s|] eqn:Hs; [|done].
  by apply cast_int_scalar in Hs.
Qed.

Lemma decode_str_Ok j s : decode_str j = Ok s → scalar j.
Proof. intros ?%validated_Ok. by eapply cast_str_scalar. Qed.

Lemma decode_int_Ok j z : decode_int j = Ok z → scalar j.
Proof. intros ?%validated_Ok. by eapply cast_int_scalar. Qed.

Lemma decode_str_only : only_validation decode_str.
Proof. intros j e. apply validated_Raise. Qed.

Lemma decode_int_only : only_validation decode_int.
Proof. intros j e. apply validated_Raise. Qed.

Context {A : Type}.
Implicit Types (dec : json → result A) (o : gmap string json) (k : string).

Lemma required_Raise dec k o e :
  only_validation dec → required dec k o = Raise e → e = ValidationError.
Proof. unfold required. destruct (o !! k); naive_solver. Qed.

Lemma optional_Raise dec k o e :
  only_validation dec → optional dec k o = Raise e → e = ValidationError.
Proof.
  unfold optional. destruct (o !! k) as [j|]; [|done].
  intros Hd. destruct (dec j) eqn:Hj; naive_solver.
Qed.

Lemma decode_list_only dec : only_validation dec → only_validation (decode_list dec).
Proof.
  intros Hd [] e; try naive_solver. simpl.
  intros (x & _ & Hx)%mapM_Raise. eauto.
Qed.

(** When a field decodes. *)
Lemma required_Ok dec k o a :
  required dec k o = Ok a ↔ ∃ j, o !! k = Some j ∧ dec j = Ok a.
Proof. unfold required. destruct (o !! k); naive_solver. Qed.

Lemma optional_Ok dec k o x :
  optional dec k o = Ok x ↔
  match o !! k with
  | Some j => ∃ a, dec j = Ok a ∧ x = Some a
  | None => x = None
  end.
Proof.
  unfold optional. destruct (o !! k) as [j|]; [|naive_solver].
  rewrite fmap_Ok. naive_solver.
Qed.

Lemma decode_list_Ok dec j l :
  decode_list dec j = Ok l ↔
  ∃ js, j = JArr js ∧ Forall2 (λ x y, dec x = Ok y) js l.
Proof. destruct j; simpl; rewrite ?mapM_Ok; naive_solver. Qed.

Lemma required_missing dec k o : o !! k = None → required dec k o = Raise ValidationError.
Proof. unfold required. by intros ->. Qed.

Lemma required_lookup dec k o j : o !! k = Some j → required dec k o = dec j.
Proof. unfold required. by intros ->. Qed.

Lemma optional_missing dec k o : o !! k = None → optional dec k o = Ok None.
Proof. unfold optional. by intros ->. Qed.

Lemma optional_lookup dec k o j : o !! k = Some j → optional dec k o = Some <$> dec j.
Proof. unfold optional. by intros ->. Qed.

End decoder_lemmas.

(** ** What the strict table accepts, every table accepts *)
Section accepts_less.
Context {A : Type}.
Implicit Types (dec : json → result A).

Lemma required_accepts_less dec1 dec2 k o a :
  accepts_less dec1 dec2 → required dec1 k o = Ok a → required dec2 k o = Ok a.
Proof. unfold required. destruct (o !! k); naive_solver. Qed.

Lemma optional_accepts_less dec1 dec2 k o a :
  accepts_less dec1 dec2 → optional dec1 k o = Ok a → optional dec2 k o = Ok a.
Proof.
  unfold optional. destruct (o !! k) as [j|]; [|done]. intros Hd Ha.
  simplify_result. by erewrite Hd.
Qed.

Lemma decode_list_accepts_less dec1 dec2 :
  accepts_less dec1 dec2 → accepts_less (decode_list dec1) (decode_list dec2).
Proof.
  intros Hd [] k; try done. simpl. rewrite !mapM_Ok.
  intros Hl. eapply Forall2_impl; [exact Hl|]. auto.
Qed.
End accepts_less.

Lemma strict_str_accepts_less `{Casting} : accepts_less (@decode_str strict_casting) decode_str.
Proof. intros [] a; try done. intros [= <-]. apply decode_str_str. Qed.

Lemma strict_int_accepts_less `{Casting} : accepts_less (@decode_int strict_casting) decode_int.
Proof. intros [] a; try done. intros [= <-]. apply decode_int_int. Qed.

#[export] Hint Resolve decode_str_only decode_int_only decode_list_only : py.
#[export] Hint Resolve strict_str_accepts_less strict_int_accepts_less : py.
#[export] Hint Resolve decode_list_accepts_less : py.

(** The two tables differ on a truth value where an integer is declared. *)
Example casting_tables_differ :
  @decode_int strict_casting (JBool true) = Raise ValidationError ∧
  @decode_int lenient_casting (JBool true) = Ok 1.
Proof. done. Qed.
