(* ===== verification/Schema.v ===== *)
(** * Schema: the three pydantic models of [src/llm-service/main.py]

    [ReviewData], [ChatRequest] and [ChatResponse] are records with the
    source's field names, each in a module of its own since [window] is a
    field of both the request and the response.  The field constraints of
    [ChatRequest] ([min_length], [max_length]) and its defaults are the
    function [ChatRequest.make], which raises [ValidationError] where
    pydantic rejects the body.  The [metadata] dictionary of the response is
    an association list in insertion order whose values are the three kinds
    of value the analyzer stores in it.  [same_content] and [same_words] are
    the equivalences of reviews up to the date, and up to the date and the
    identifier; [undated] and [anonymous] pick a representative of each
    class. *)

From stdpp Require Import strings pretty.
From S2P Require Import Prelude PySeq PyStr PyFloat.

(** [class ReviewData(BaseModel)] *)
Module ReviewData.

Record t : Type := mk {
  id : str;
  rating : Z;
  text : str;
  createdAt : str
}.

#[export] Instance eq_dec : EqDecision t.
Proof. solve_decision. Defined.

End ReviewData.

(** [class ChatRequest(BaseModel)] *)
Module ChatRequest.

Record t : Type := mk {
  dishAtRestaurantId : str;
  question : str;
  window : str;
  dishName : str;
  reviews : list ReviewData.t
}.

(** [Field(default="24h")], [Field(default="this dish")],
    [Field(default_factory=list)] *)
Definition default_window : str := lit "24h".
Definition default_dishName : str := lit "this dish".
Definition default_reviews : list ReviewData.t := [].

(** [min_length=n] and [max_length=n] count code points. *)
Definition min_length (n : nat) (s : str) : bool := bool_decide (n ≤ length s).
Definition max_length (n : nat) (s : str) : bool := bool_decide (length s ≤ n).

(** The constraints of the two required fields. *)
Definition constraints (dishAtRestaurantId question : str) : bool :=
  min_length 1 dishAtRestaurantId && min_length 1 question &&
  max_length 500 question.

(** Building the model from a body in which the three defaulted fields may
    be absent. *)
Definition make (dishAtRestaurantId question : str)
    (window dishName : option str)
    (reviews : option (list ReviewData.t)) : result t :=
  if constraints dishAtRestaurantId question then
    Ok (mk dishAtRestaurantId question
          (default default_window window)
          (default default_dishName dishName)
          (default default_reviews reviews))
  else Raise ValidationError.

End ChatRequest.

(** The values stored in [metadata]: an [int], a [float] or a list of
    strings. *)
Inductive MetaValue : Type :=
| MInt (z : Z)
| MFloat (x : float)
| MStrList (l : list str).

(** [class ChatResponse(BaseModel)] *)
Module ChatResponse.

Record t : Type := mk {
  answer : str;
  reviewIdsUsed : list str;
  window : str;
  metadata : list (string * MetaValue)
}.

End ChatResponse.

#[export] Instance float_eq_dec : EqDecision float.
Proof. solve_decision. Defined.

#[export] Instance MetaValue_eq_dec : EqDecision MetaValue.
Proof. solve_decision. Defined.

#[export] Instance ChatResponse_eq_dec : EqDecision ChatResponse.t.
Proof. solve_decision. Defined.

(** ** Reviews up to the fields a reader looks at *)

(** Two reviews with the same rating and the same text. *)
Definition same_words (r1 r2 : ReviewData.t) : Prop :=
  ReviewData.rating r1 = ReviewData.rating r2 ∧
  ReviewData.text r1 = ReviewData.text r2.

(** Two reviews that differ in [createdAt] at most. *)
Definition same_content (r1 r2 : ReviewData.t) : Prop :=
  ReviewData.id r1 = ReviewData.id r2 ∧ same_words r1 r2.

(** The review without its date, and without its identifier either. *)
Definition undated (r : ReviewData.t) : ReviewData.t :=
  ReviewData.mk (ReviewData.id r) (ReviewData.rating r) (ReviewData.text r) [].

Definition anonymous (r : ReviewData.t) : ReviewData.t :=
  ReviewData.mk [] (ReviewData.rating r) (ReviewData.text r) [].

(** ** Sample data for the examples of the development *)

Module Sample.

Definition review (i : string) (stars : Z) (t : string) : ReviewData.t :=
  ReviewData.mk (lit i) stars (lit t) (lit "2024-05-01T12:00:00Z").

(** Ratings 5, 4, 2: mean 3.67. *)
Definition mixed : list ReviewData.t := [
  review "r1" 5 "Loved the biryani, perfectly Spicy and fresh";
  review "r2" 4 "Good portion, rice was a bit dry";
  review "r3" 2 "Too oily and the delivery was slow"
].

(** Ratings 4, 5, 5, 4: spread 1. *)
Definition steady : list ReviewData.t := [
  review "s1" 4 "Tasty"; review "s2" 5 "Great masala";
  review "s3" 5 "Best curry in town"; review "s4" 4 "Nice and warm"
].

(** Ratings 2, 5, 3, 4: spread 3. *)
Definition uneven : list ReviewData.t := [
  review "u1" 2 "Cold and soggy"; review "u2" 5 "Amazing";
  review "u3" 3 "Average taste"; review "u4" 4 "Pretty good"
].

(** Twelve reviews, to exercise the cap on [reviewIdsUsed]. *)
Definition many : list ReviewData.t :=
  (λ n : nat, review (pretty n) 4 "Fine") <$> seq 0 12.

End Sample.

(** ** Validation *)

Section validation.
Import ChatRequest.
Implicit Types (d q : str) (w n : option str)
  (rs : option (list ReviewData.t)).

Lemma constraints_spec d q :
  constraints d q ↔ d ≠ [] ∧ q ≠ [] ∧ length q ≤ 500.
Proof.
  unfold constraints, min_length, max_length.
  rewrite !andb_True, !bool_decide_spec.
  destruct d, q; simpl; naive_solver lia.
Qed.

(** A body is accepted exactly when the identifier is not empty and the
    question has between 1 and 500 code points. *)
Lemma make_returns d q w n rs :
  returns (make d q w n rs) ↔ d ≠ [] ∧ q ≠ [] ∧ length q ≤ 500.
Proof.
  rewrite <-constraints_spec. unfold make.
  destruct (constraints d q); simpl; [|split; [by intros [? ?]|done]].
  split; [done|intros _; apply returns_Ok].
Qed.

(** The same with the bounds of the question as one interval. *)
Lemma make_returns_bounds d q w n rs :
  returns (make d q w n rs) ↔ d ≠ [] ∧ 1 ≤ length q ≤ 500.
Proof.
  rewrite make_returns. destruct q; simpl; [naive_solver lia|].
  split; [intros (? & _ & ?)|intros (? & _ & ?)]; split_and!; done || lia.
Qed.

Lemma make_raises d q w n rs e :
  make d q w n rs = Raise e → e = ValidationError.
Proof. unfold make. destruct (constraints d q); naive_solver. Qed.

(** The accepted request carries the two required fields unchanged and the
    defaults for the absent ones. *)
Lemma make_Ok d q w n rs r :
  make d q w n rs = Ok r →
  dishAtRestaurantId r = d ∧ question r = q ∧
  window r = default (lit "24h") w ∧
  dishName r = default (lit "this dish") n ∧
  reviews r = default [] rs.
Proof. unfold make. destruct (constraints d q); naive_solver. Qed.

Lemma make_Ok_question_bounds d q w n rs r :
  make d q w n rs = Ok r → 1 ≤ length (question r) ≤ 500.
Proof.
  intros Hr. assert (returns (make d q w n rs)) as Hret by (by exists r).
  apply make_returns in Hret as (_ & ? & ?). apply make_Ok in Hr as (_ & -> & _).
  destruct q; simpl in *; [done|lia].
Qed.

(** A request body is accepted exactly when the dish identifier is not
    empty and the question has between 1 and 500 code points; the accepted
    request has the two required fields unchanged and ["24h"], ["this dish"]
    and the empty list for the fields the body leaves out; a rejected body
    raises [ValidationError]. *)
Theorem make_correct d q w n rs :
  make d q w n rs =
  if decide (d ≠ [] ∧ 1 ≤ length q ≤ 500)
  then Ok (mk d q (default (lit "24h") w) (default (lit "this dish") n)
             (default [] rs))
  else Raise ValidationError.
Proof.
  unfold make. destruct (constraints d q) eqn:Hc.
  - rewrite decide_True; [done|].
    apply Is_true_true_2, constraints_spec in Hc as (? & ? & ?).
    split; [done|]. destruct q; [done|simpl in *; lia].
  - rewrite decide_False; [done|]. intros [? [? ?]].
    apply Is_true_false_2 in Hc. apply Hc, constraints_spec.
    split_and!; [done| |done]. intros ->. simpl in *. lia.
Qed.

End validation.

(** ** Reviews up to their date and identifier *)

#[export] Instance same_words_equiv : Equivalence same_words.
Proof. unfold same_words. split; repeat intro; naive_solver congruence. Qed.

#[export] Instance same_content_equiv : Equivalence same_content.
Proof.
  unfold same_content, same_words. split; repeat intro; naive_solver congruence.
Qed.

#[export] Instance same_words_dec r1 r2 : Decision (same_words r1 r2).
Proof. unfold same_words. apply _. Defined.

#[export] Instance same_content_dec r1 r2 : Decision (same_content r1 r2).
Proof. unfold same_content. apply _. Defined.

(** Lists of reviews are alike exactly when their images are equal. *)
Lemma same_words_anonymous (l1 l2 : list ReviewData.t) :
  Forall2 same_words l1 l2 ↔ anonymous <$> l1 = anonymous <$> l2.
Proof.
  split.
  - induction 1 as [|r1 r2 l1 l2 [Hr Ht] _ IH]; [done|].
    rewrite !fmap_cons, IH. unfold anonymous. by rewrite Hr, Ht.
  - revert l2. induction l1 as [|r1 l1 IH]; intros [|r2 l2] Heq; try done.
    rewrite !fmap_cons in Heq. injection Heq as Hr Ht Hl.
    constructor; [done|by apply IH].
Qed.

Lemma same_content_undated (l1 l2 : list ReviewData.t) :
  Forall2 same_content l1 l2 ↔ undated <$> l1 = undated <$> l2.
Proof.
  split.
  - induction 1 as [|r1 r2 l1 l2 (Hi & Hr & Ht) _ IH]; [done|].
    rewrite !fmap_cons, IH. unfold undated. by rewrite Hi, Hr, Ht.
  - revert l2. induction l1 as [|r1 l1 IH]; intros [|r2 l2] Heq; try done.
    rewrite !fmap_cons in Heq. injection Heq as Hi Hr Ht Hl.
    constructor; [done|by apply IH].
Qed.
