(* ===== verification/Stats.v ===== *)
(** * Stats: the rating statistics of [analyze_reviews]

    Lines 39-45 of [src/llm-service/main.py] compute, from the non-empty list
    of reviews, their number, the mean rating as a float, the number of
    5-, 4- and 3-star reviews and the lists of low (at most 2) and high (at
    least 4) reviews; lines 118-119 compute the smallest and the largest
    rating.  Ratings are Python integers: nothing in the code bounds them, so
    the definitions take any [Z] and the theorems say which of them need the
    ratings to be star ratings. *)

From stdpp Require Import strings.
From S2P Require Import Prelude PySeq PyStr PyFloat PyDecimal Schema.
Import ReviewData.

Local Open Scope Z_scope.

Implicit Types (reviews : list ReviewData.t) (r : ReviewData.t).

(** [total = len(reviews)] *)
Definition total reviews : Z := py_len reviews.

(** [sum(r.rating for r in reviews)] *)
Definition rating_sum reviews : Z := py_sum (rating <$> reviews).

(** [avg_rating = sum(r.rating for r in reviews) / total] *)
Definition avg_rating reviews : result float :=
  truediv (rating_sum reviews) (total reviews).

(** [sum(1 for r in reviews if r.rating == k)] *)
Definition star_count (k : Z) reviews : Z :=
  py_sum ((λ _, 1) <$> filter (λ r, rating r = k) reviews).

Definition five_star reviews : Z := star_count 5 reviews.
Definition four_star reviews : Z := star_count 4 reviews.
Definition three_star reviews : Z := star_count 3 reviews.

(** [[r for r in reviews if r.rating <= 2]] *)
Definition low_reviews reviews : list ReviewData.t :=
  filter (λ r, rating r ≤ 2) reviews.

(** [[r for r in reviews if r.rating >= 4]] *)
Definition high_reviews reviews : list ReviewData.t :=
  filter (λ r, 4 ≤ rating r) reviews.

(** [ratings = [r.rating for r in reviews]] *)
Definition ratings reviews : list Z := rating <$> reviews.

(** [min_r, max_r = min(ratings), max(ratings)] *)
Definition min_max reviews : result (Z * Z) :=
  lo ← py_min (ratings reviews); hi ← py_max (ratings reviews); mret (lo, hi).

(** Ratings on the five-star scale, the range the product means them to
    have. *)
Definition star_ratings reviews : Prop :=
  Forall (λ r, 1 ≤ rating r ≤ 5) reviews.

#[export] Instance star_ratings_dec reviews : Decision (star_ratings reviews).
Proof. unfold star_ratings. apply _. Defined.

(** ** Counts *)

Lemma total_pos reviews : reviews ≠ [] → 0 < total reviews.
Proof. apply py_len_pos. Qed.

Lemma total_nonneg reviews : 0 ≤ total reviews.
Proof. apply py_len_nonneg. Qed.

(** The generator [sum(1 for ...)] counts the reviews with that rating. *)
Lemma star_count_length k reviews :
  star_count k reviews = py_len (filter (λ r, rating r = k) reviews).
Proof. apply py_sum_ones. Qed.

Lemma star_count_nil k : star_count k [] = 0.
Proof. done. Qed.

Lemma star_count_cons k r reviews :
  star_count k (r :: reviews) =
  (if decide (rating r = k) then 1 else 0) + star_count k reviews.
Proof.
  rewrite !star_count_length, filter_cons. unfold py_len.
  destruct (decide (rating r = k)); simpl length; lia.
Qed.

Lemma star_count_bounds k reviews : 0 ≤ star_count k reviews ≤ total reviews.
Proof.
  rewrite star_count_length. split; [apply py_len_nonneg|apply py_len_filter_le].
Qed.

Lemma star_count_pos k reviews :
  0 < star_count k reviews ↔ ∃ r, r ∈ reviews ∧ rating r = k.
Proof.
  rewrite star_count_length. unfold py_len.
  destruct (filter _ reviews) as [|r l] eqn:Hf; simpl length.
  - split; [lia|]. intros (r & Hr & Hk).
    assert (r ∈ filter (λ r, rating r = k) reviews) as Hin
      by (by apply list_elem_of_filter).
    rewrite Hf in Hin. by apply elem_of_nil in Hin.
  - split; [intros _|lia]. exists r.
    assert (r ∈ filter (λ r, rating r = k) reviews) as Hin by (rewrite Hf; left).
    apply list_elem_of_filter in Hin. tauto.
Qed.

Lemma low_reviews_cons r reviews :
  low_reviews (r :: reviews) =
  if decide (rating r ≤ 2) then r :: low_reviews reviews else low_reviews reviews.
Proof. unfold low_reviews. by rewrite filter_cons. Qed.

Lemma high_reviews_cons r reviews :
  high_reviews (r :: reviews) =
  if decide (4 ≤ rating r) then r :: high_reviews reviews else high_reviews reviews.
Proof. unfold high_reviews. by rewrite filter_cons. Qed.

Lemma elem_of_low_reviews r reviews :
  r ∈ low_reviews reviews ↔ rating r ≤ 2 ∧ r ∈ reviews.
Proof. apply (list_elem_of_filter (λ r, rating r ≤ 2)). Qed.

Lemma elem_of_high_reviews r reviews :
  r ∈ high_reviews reviews ↔ 4 ≤ rating r ∧ r ∈ reviews.
Proof. apply (list_elem_of_filter (λ r, 4 ≤ rating r)). Qed.

Lemma low_reviews_sublist reviews : low_reviews reviews `sublist_of` reviews.
Proof. apply sublist_filter. Qed.

Lemma high_reviews_sublist reviews : high_reviews reviews `sublist_of` reviews.
Proof. apply sublist_filter. Qed.

(** C35: when every rating is between 1 and 5, each review is counted in
    exactly one of the four buckets of the breakdown line (5 stars, 4 stars,
    3 stars, 1-2 stars): the four counts add up to the number of reviews. *)
Theorem star_buckets_total reviews :
  star_ratings reviews →
  five_star reviews + four_star reviews + three_star reviews +
    py_len (low_reviews reviews) = total reviews.
Proof.
  unfold five_star, four_star, three_star, total.
  induction 1 as [|r reviews Hr _ IH]; [done|].
  rewrite !star_count_cons, low_reviews_cons.
  unfold py_len in *. simpl length.
  repeat case_decide; simpl length; lia.
Qed.

Lemma star_buckets_total_witness :
  five_star Sample.mixed + four_star Sample.mixed + three_star Sample.mixed +
    py_len (low_reviews Sample.mixed) = total Sample.mixed.
Proof. apply star_buckets_total. by_compute. Defined.

(** C40: the code accepts any integer as a rating, and a review rated above
    5 is counted in none of the four buckets of the breakdown line. *)
Theorem star_buckets_miss r :
  5 < rating r →
  five_star [r] + four_star [r] + three_star [r] + py_len (low_reviews [r]) = 0.
Proof.
  intros Hr. unfold five_star, four_star, three_star.
  rewrite !star_count_cons, low_reviews_cons, !star_count_nil.
  repeat case_decide; try lia. done.
Qed.

Lemma star_buckets_miss_witness :
  five_star [Sample.review "x" 6 "Superb"] +
  four_star [Sample.review "x" 6 "Superb"] +
  three_star [Sample.review "x" 6 "Superb"] +
  py_len (low_reviews [Sample.review "x" 6 "Superb"]) = 0.
Proof. apply star_buckets_miss. by vm_compute. Defined.

(** ** The mean *)

Lemma rating_sum_cons r reviews :
  rating_sum (r :: reviews) = rating r + rating_sum reviews.
Proof. unfold rating_sum. by rewrite fmap_cons, py_sum_cons. Qed.

Lemma rating_sum_le hi reviews :
  Forall (λ r, rating r ≤ hi) reviews → rating_sum reviews ≤ hi * total reviews.
Proof.
  unfold total, py_len.
  induction 1 as [|r reviews Hr _ IH]; [cbn; lia|].
  rewrite rating_sum_cons. simpl length. lia.
Qed.

Lemma rating_sum_ge lo reviews :
  Forall (λ r, lo ≤ rating r) reviews → lo * total reviews ≤ rating_sum reviews.
Proof.
  unfold total, py_len.
  induction 1 as [|r reviews Hr _ IH]; [cbn; lia|].
  rewrite rating_sum_cons. simpl length. lia.
Qed.

Lemma rating_sum_bounds lo hi reviews :
  Forall (λ r, lo ≤ rating r ≤ hi) reviews →
  lo * total reviews ≤ rating_sum reviews ≤ hi * total reviews.
Proof.
  intros Hall. split; [apply rating_sum_ge|apply rating_sum_le];
    (eapply Forall_impl; [exact Hall|]; simpl; lia).
Qed.

(** The division never divides by zero once the empty case has returned, so
    the only exception left is [OverflowError]. *)
Lemma avg_rating_raises reviews e :
  reviews ≠ [] → avg_rating reviews = Raise e → e = OverflowError.
Proof.
  intros Hne. apply truediv_no_zero_division.
  pose proof (total_pos reviews Hne). lia.
Qed.

Lemma avg_rating_returns reviews :
  reviews ≠ [] → Z.abs (rating_sum reviews) < 2 ^ 1023 →
  returns (avg_rating reviews).
Proof.
  intros Hne Hsum. apply truediv_returns; [|done].
  pose proof (total_pos reviews Hne). lia.
Qed.

(** The mean exists exactly when there is a review and the sum of the
    ratings is below the overflow threshold of the division. *)
Lemma avg_rating_returns_iff reviews :
  returns (avg_rating reviews) ↔
  reviews ≠ [] ∧ Z.abs (rating_sum reviews) < overflow_threshold * total reviews.
Proof.
  unfold avg_rating. rewrite truediv_returns_iff.
  pose proof (total_nonneg reviews). rewrite (Z.abs_eq (total reviews)) by done.
  split; intros [Hne ?]; (split; [|done]).
  - intros ->. by apply Hne.
  - pose proof (total_pos reviews Hne). lia.
Qed.

(** With star ratings and fewer than [2^1020] reviews the mean exists. *)
Lemma avg_rating_returns_stars reviews :
  reviews ≠ [] → star_ratings reviews → total reviews < 2 ^ 1020 →
  returns (avg_rating reviews).
Proof.
  intros Hne Hstars Hlen. apply avg_rating_returns; [done|].
  pose proof (rating_sum_bounds 1 5 reviews Hstars).
  pose proof (total_pos reviews Hne).
  change (2 ^ 1023) with (8 * 2 ^ 1020). lia.
Qed.

(** The float mean is on the same side of the thresholds [4.0] and [3.0] as
    the exact mean. *)
Lemma avg_rating_ge_iff reviews avg k :
  1 ≤ k → k * total reviews < 2 ^ 53 → avg_rating reviews = Ok avg →
  fle (float_of_int k) avg ↔ k * total reviews ≤ rating_sum reviews.
Proof.
  intros Hk Hlen Havg.
  destruct (decide (reviews = [])) as [->|Hne]; [done|].
  apply truediv_ge_int_iff; auto using total_pos.
Qed.

(** A mean of at least [4.0] needs a review of at least 4 stars. *)
Lemma avg_rating_high reviews avg :
  reviews ≠ [] → avg_rating reviews = Ok avg →
  fle (float_of_int 4) avg → high_reviews reviews ≠ [].
Proof.
  intros Hne Havg Hle Hhigh.
  apply (truediv_ge_int_inv _ _ 4) in Havg; [|by apply total_pos|done|done].
  apply filter_nil_Forall in Hhigh.
  assert (rating_sum reviews ≤ 3 * total reviews); [|lia].
  apply rating_sum_le. eapply Forall_impl; [exact Hhigh|]. simpl. lia.
Qed.

(** ** Extremes *)

Lemma min_max_returns reviews : reviews ≠ [] → returns (min_max reviews).
Proof.
  intros Hne. unfold min_max, ratings.
  destruct reviews as [|r reviews]; [done|]. apply returns_Ok.
Qed.

Lemma min_max_spec reviews lo hi :
  min_max reviews = Ok (lo, hi) →
  (∃ r, r ∈ reviews ∧ rating r = lo) ∧ (∃ r, r ∈ reviews ∧ rating r = hi) ∧
  Forall (λ r, lo ≤ rating r ≤ hi) reviews.
Proof.
  unfold min_max, ratings. intros Hmm. simplify_result.
  repeat match goal with
  | H : py_min _ = Ok _ |- _ => apply py_min_spec in H as [Hlo Hle]
  | H : py_max _ = Ok _ |- _ => apply py_max_spec in H as [Hhi Hge]
  end.
  apply list_elem_of_fmap in Hlo as (r1 & -> & ?).
  apply list_elem_of_fmap in Hhi as (r2 & -> & ?).
  split_and!; [by exists r1|by exists r2|].
  rewrite Forall_fmap in Hle, Hge. rewrite Forall_forall in *.
  intros r Hr. specialize (Hle r Hr). specialize (Hge r Hr). simpl in *. lia.
Qed.

Lemma min_max_le reviews lo hi : min_max reviews = Ok (lo, hi) → lo ≤ hi.
Proof.
  intros ((r & Hr & <-) & _ & Hall)%min_max_spec.
  rewrite Forall_forall in Hall. specialize (Hall r Hr). lia.
Qed.

(** A mean exists only for a non-empty list. *)
Lemma avg_rating_Ok_nonempty reviews avg :
  avg_rating reviews = Ok avg → reviews ≠ [].
Proof. by intros Havg ->. Qed.

(** The mean of star ratings is a float between [1.0] and [5.0]. *)
Lemma avg_rating_between reviews avg :
  star_ratings reviews → avg_rating reviews = Ok avg →
  fle (float_of_int 1) avg ∧ fle avg (float_of_int 5).
Proof.
  intros Hstars Havg. pose proof (avg_rating_Ok_nonempty _ _ Havg) as Hne.
  apply (truediv_between (rating_sum reviews) (total reviews)); try done.
  - by apply total_pos.
  - by apply rating_sum_bounds.
Qed.

(** ... so rounding it to one decimal cannot overflow. *)
Lemma avg_rating_round_returns reviews avg :
  star_ratings reviews → avg_rating reviews = Ok avg → returns (py_round1 avg).
Proof.
  intros Hstars Havg. destruct (avg_rating_between _ _ Hstars Havg) as [Hlo Hhi].
  apply (py_round1_returns avg 5); [by eapply truediv_mant_nonneg|done| |done].
  etrans; [|exact Hlo]. by apply fle_float_of_int.
Qed.

(** The mean of star ratings has at most 50 tenths, and the rounded mean
    stored in the metadata prints as the mean shown in the answer. *)
Lemma avg_rating_tenths_le reviews avg :
  star_ratings reviews → avg_rating reviews = Ok avg → tenths avg ≤ 50.
Proof.
  intros Hstars Havg. destruct (avg_rating_between _ _ Hstars Havg) as [Hlo Hhi].
  apply (tenths_le avg 5); [by eapply truediv_mant_nonneg| |done].
  etrans; [|exact Hlo]. by apply fle_float_of_int.
Qed.

Lemma avg_rating_round_reading reviews avg rounded :
  star_ratings reviews → avg_rating reviews = Ok avg →
  py_round1 avg = Ok rounded →
  format_f1 rounded = format_f1 avg ∧ py_round1 rounded = Ok rounded.
Proof.
  intros Hstars Havg Hr. pose proof (avg_rating_tenths_le _ _ Hstars Havg).
  pose proof (truediv_mant_nonneg _ _ _ Havg) as Hm.
  assert (tenths avg < 10 * 2 ^ 46) as Ht by (assert (50 < 10 * 2 ^ 46) by done; lia).
  destruct (py_round1_tenths avg rounded Hm Ht Hr) as [Hs Hd].
  split; [|by eapply py_round1_fixed]. unfold format_f1. by rewrite Hs, Hd.
Qed.

(** ** The order of the reviews

    The statistics do not depend on the order of the reviews; the lists of
    low and high reviews keep it. *)

#[export] Instance total_perm : Proper ((≡ₚ) ==> (=)) total.
Proof. apply py_len_perm. Qed.

#[export] Instance ratings_perm : Proper ((≡ₚ) ==> (≡ₚ)) ratings.
Proof. intros l k Hl. unfold ratings. by rewrite Hl. Qed.

#[export] Instance rating_sum_perm : Proper ((≡ₚ) ==> (=)) rating_sum.
Proof. intros l k Hl. apply py_sum_perm, ratings_perm, Hl. Qed.

#[export] Instance avg_rating_perm : Proper ((≡ₚ) ==> (=)) avg_rating.
Proof. intros l k Hl. unfold avg_rating. by rewrite Hl. Qed.

#[export] Instance star_count_perm n : Proper ((≡ₚ) ==> (=)) (star_count n).
Proof. intros l k Hl. rewrite !star_count_length. by rewrite Hl. Qed.

#[export] Instance low_reviews_perm : Proper ((≡ₚ) ==> (≡ₚ)) low_reviews.
Proof. intros l k Hl. unfold low_reviews. by rewrite Hl. Qed.

#[export] Instance high_reviews_perm : Proper ((≡ₚ) ==> (≡ₚ)) high_reviews.
Proof. intros l k Hl. unfold high_reviews. by rewrite Hl. Qed.

#[export] Instance min_max_perm : Proper ((≡ₚ) ==> (=)) min_max.
Proof.
  intros l k Hl. unfold min_max.
  by rewrite (py_min_perm _ _ (ratings_perm _ _ Hl)),
    (py_max_perm _ _ (ratings_perm _ _ Hl)).
Qed.

(** ** What the statistics read of a review

    The statistics read the ratings only: a map of the reviews that keeps
    every rating changes none of them. *)

Section stats_relabel.
Context (h : ReviewData.t → ReviewData.t).
Context (h_rating : ∀ r, rating (h r) = rating r).

Lemma total_relabel reviews : total (h <$> reviews) = total reviews.
Proof. unfold total, py_len. by rewrite length_fmap. Qed.

Lemma ratings_relabel reviews : ratings (h <$> reviews) = ratings reviews.
Proof.
  unfold ratings. rewrite <-list_fmap_compose. apply list_fmap_ext.
  intros. apply h_rating.
Qed.

Lemma rating_sum_relabel reviews : rating_sum (h <$> reviews) = rating_sum reviews.
Proof. apply (f_equal py_sum), ratings_relabel. Qed.

Lemma avg_rating_relabel reviews : avg_rating (h <$> reviews) = avg_rating reviews.
Proof. unfold avg_rating. by rewrite rating_sum_relabel, total_relabel. Qed.

Lemma star_count_relabel k reviews :
  star_count k (h <$> reviews) = star_count k reviews.
Proof.
  rewrite !star_count_length.
  rewrite (filter_fmap_comm _ (λ r, rating r = k)) by (intros; by rewrite h_rating).
  apply total_relabel.
Qed.

Lemma low_reviews_relabel reviews :
  low_reviews (h <$> reviews) = h <$> low_reviews reviews.
Proof. apply filter_fmap_comm. intros. by rewrite h_rating. Qed.

Lemma high_reviews_relabel reviews :
  high_reviews (h <$> reviews) = h <$> high_reviews reviews.
Proof. apply filter_fmap_comm. intros. by rewrite h_rating. Qed.

Lemma min_max_relabel reviews : min_max (h <$> reviews) = min_max reviews.
Proof. unfold min_max. by rewrite ratings_relabel. Qed.

End stats_relabel.

(** ** Main results *)

(** On a non-empty list [min] and [max] return: the two numbers are
    ratings of input reviews and every rating lies between them. *)
Theorem min_max_correct reviews :
  reviews ≠ [] →
  ∃ lo hi, min_max reviews = Ok (lo, hi) ∧
    lo ∈ ratings reviews ∧ hi ∈ ratings reviews ∧
    Forall (λ x, lo ≤ x ≤ hi) (ratings reviews).
Proof.
  intros [[lo hi] Hmm]%min_max_returns. exists lo, hi. split; [done|].
  apply min_max_spec in Hmm as ((r1 & ? & <-) & (r2 & ? & <-) & Hall).
  unfold ratings. split_and!; [by apply list_elem_of_fmap_2..|].
  by apply Forall_fmap.
Qed.

Lemma min_max_correct_witness :
  ∃ lo hi, min_max Sample.uneven = Ok (lo, hi) ∧
    lo ∈ ratings Sample.uneven ∧ hi ∈ ratings Sample.uneven ∧
    Forall (λ x, lo ≤ x ≤ hi) (ratings Sample.uneven).
Proof. apply min_max_correct. by vm_compute. Defined.

(** The first decimal of the float mean is that of the exact mean, ties
    apart. *)
Lemma avg_rating_tenths_eq reviews avg :
  star_ratings reviews → 10 * total reviews < 2 ^ 50 →
  avg_rating reviews = Ok avg →
  (20 * rating_sum reviews) mod (2 * total reviews) ≠ total reviews →
  fneg avg = false ∧
  tenths avg = round_half_even (10 * rating_sum reviews) (total reviews).
Proof.
  intros Hstars Hlen Havg Htie. pose proof (avg_rating_Ok_nonempty _ _ Havg) as Hne.
  pose proof (total_pos reviews Hne) as Hpos.
  pose proof (rating_sum_bounds 1 5 reviews Hstars) as [Hlo Hhi]. split.
  - apply (truediv_pos_sign (rating_sum reviews) (total reviews)); done || lia.
  - apply (truediv_tenths (rating_sum reviews) (total reviews)); try done; [lia..|].
    apply round_half_even_strict; [done|].
    by replace (2 * (10 * rating_sum reviews)) with (20 * rating_sum reviews)
      by lia.
Qed.

(** C25: with star ratings and fewer than [2^46] reviews, the mean printed
    with one decimal is the exact mean rounded to one decimal, unless the
    exact mean is half way between two one-decimal values: the rounding
    error of the float division never changes the digit. *)
Theorem avg_rating_tenths reviews avg :
  star_ratings reviews → 10 * total reviews < 2 ^ 50 →
  avg_rating reviews = Ok avg →
  (20 * rating_sum reviews) mod (2 * total reviews) ≠ total reviews →
  let t := round_half_even (10 * rating_sum reviews) (total reviews) in
  tenths avg = t ∧
  format_f1 avg = str_of_int (t / 10) ++ lit "." ++ str_of_int (t mod 10).
Proof.
  intros Hstars Hlen Havg Htie.
  destruct (avg_rating_tenths_eq reviews avg Hstars Hlen Havg Htie) as [Hs Ht].
  simpl. split; [done|]. unfold format_f1. by rewrite Hs, Ht.
Qed.

Lemma avg_rating_tenths_witness :
  let t := round_half_even (10 * rating_sum Sample.mixed) (total Sample.mixed) in
  tenths (mkfloat false 8256599316845909 (-51)) = t ∧
  format_f1 (mkfloat false 8256599316845909 (-51)) =
    str_of_int (t / 10) ++ lit "." ++ str_of_int (t mod 10).
Proof. apply (avg_rating_tenths Sample.mixed); by_compute || by vm_compute. Defined.
