(* ===== verification/Keywords.v ===== *)
(** * Keywords: the vocabulary scan and the selection of relevant reviews

    Lines 47-76 of [src/llm-service/main.py].  The question is lower-cased
    and scanned for the 57 words of [food_keywords], in the order of the
    list; a review is relevant when its lower-cased text contains one of the
    words found, and every review is relevant when no word was found.  The
    two loops are modelled as the loops they are, appending to their
    accumulators, and proved equal to a [filter]. *)

From stdpp Require Import strings.
From S2P Require Import Prelude PySeq PyStr Schema.
Import ReviewData.

Implicit Types (question word kw : str) (kws : list str)
  (reviews : list ReviewData.t) (review : ReviewData.t).

(** [food_keywords], lines 50-60. *)
Definition food_keywords : list str := lit <$> [
  "spice"; "spicy"; "hot"; "mild"; "flavor"; "taste"; "fresh"; "portion";
  "chicken"; "rice"; "sauce"; "tender"; "dry"; "overcooked"; "undercooked";
  "salty"; "sweet"; "oily"; "greasy"; "crispy"; "soggy"; "cold"; "warm";
  "biryani"; "curry"; "naan"; "tandoori"; "masala"; "paneer"; "tikka";
  "price"; "worth"; "expensive"; "cheap"; "value"; "cost";
  "wait"; "time"; "slow"; "fast"; "quick"; "delivery";
  "service"; "staff"; "waiter"; "ambiance"; "clean";
  "best"; "great"; "good"; "bad"; "worst"; "amazing"; "terrible";
  "recommend"; "consistent"; "quality"
]%string.

Section keywords.
Context `{Lowering}.

(** One iteration of the loop of lines 63-65. *)
Definition keyword_step (question_lower : str) (acc : list str) word : list str :=
  if contains word question_lower then acc ++ [word] else acc.

(** [keywords_to_search], lines 62-65. *)
Definition keywords_to_search question : list str :=
  foldl (keyword_step (lower question)) [] food_keywords.

(** [any(kw in text_lower for kw in keywords_to_search)], lines 70-71. *)
Definition mentions kws review : bool :=
  py_any (λ kw, contains kw (lower (text review))) kws.

(** One iteration of the loop of lines 69-73; the accumulator is the pair
    [(relevant_reviews, used_ids)]. *)
Definition select_step kws (acc : list ReviewData.t * list str) review :
    list ReviewData.t * list str :=
  if mentions kws review then (acc.1 ++ [review], acc.2 ++ [id review])
  else acc.

(** [relevant_reviews] and [used_ids], lines 67-76. *)
Definition select_reviews kws reviews : list ReviewData.t * list str :=
  if truthy kws then foldl (select_step kws) ([], []) reviews
  else (reviews, id <$> reviews).

End keywords.

(** ** The vocabulary *)

Lemma food_keywords_length : length food_keywords = 57.
Proof. done. Qed.

Lemma food_keywords_NoDup : NoDup food_keywords.
Proof. by_compute. Qed.

(** Every word of the vocabulary is a non-empty lower-case ASCII word. *)
Lemma food_keywords_ascii : Forall ascii_word food_keywords.
Proof.
  apply Forall_forall. intros kw Hkw. split.
  - intros ->. revert Hkw. by_compute.
  - revert kw Hkw. apply Forall_forall. by_compute.
Qed.

Lemma food_keywords_lower : Forall (λ kw, ascii_lower kw = kw) food_keywords.
Proof. by_compute. Qed.

(** ** The scan is a filter *)

Section keywords_lemmas.
Context `{Lowering}.

Lemma foldl_keyword_step ql acc words :
  foldl (keyword_step ql) acc words =
  acc ++ filter (λ word, contains word ql) words.
Proof.
  revert acc. induction words as [|w words IH]; intros acc; simpl.
  { by rewrite app_nil_r. }
  rewrite IH. unfold keyword_step. destruct (contains w ql) eqn:Hc.
  - rewrite filter_cons_True by (by apply Is_true_true_2). by rewrite <-app_assoc.
  - rewrite filter_cons_False by (by apply Is_true_false_2). done.
Qed.

Lemma keywords_to_search_filter question :
  keywords_to_search question =
  filter (λ word, contains word (lower question)) food_keywords.
Proof. unfold keywords_to_search. by rewrite foldl_keyword_step. Qed.

Lemma foldl_select_step kws acc reviews :
  foldl (select_step kws) acc reviews =
  (acc.1 ++ filter (λ r, mentions kws r) reviews,
   acc.2 ++ (id <$> filter (λ r, mentions kws r) reviews)).
Proof.
  revert acc. induction reviews as [|r reviews IH]; intros [rel ids]; simpl.
  { by rewrite !app_nil_r. }
  rewrite IH. unfold select_step. destruct (mentions kws r) eqn:Hm; simpl.
  - rewrite filter_cons_True by (by apply Is_true_true_2). by rewrite <-!app_assoc.
  - rewrite filter_cons_False by (by apply Is_true_false_2). done.
Qed.

(** The two accumulators of the selection loop: the reviews that mention a
    keyword, in input order, and their identifiers. *)
Lemma select_reviews_filter kws reviews :
  kws ≠ [] →
  select_reviews kws reviews =
  (filter (λ r, mentions kws r) reviews,
   id <$> filter (λ r, mentions kws r) reviews).
Proof.
  intros Hk%truthy_spec. unfold select_reviews.
  destruct (truthy kws); [|done]. by rewrite foldl_select_step.
Qed.

Lemma select_reviews_nil reviews :
  select_reviews [] reviews = (reviews, id <$> reviews).
Proof. done. Qed.

Lemma select_reviews_empty kws : select_reviews kws [] = ([], []).
Proof. unfold select_reviews. by destruct (truthy kws). Qed.

(** [used_ids] always lists the identifiers of [relevant_reviews]. *)
Lemma select_reviews_ids kws reviews :
  (select_reviews kws reviews).2 = id <$> (select_reviews kws reviews).1.
Proof.
  destruct kws as [|kw kws]; [done|]. by rewrite select_reviews_filter.
Qed.

Lemma select_reviews_sublist kws reviews :
  (select_reviews kws reviews).1 `sublist_of` reviews.
Proof.
  destruct kws as [|kw kws]; [done|].
  rewrite select_reviews_filter by done. apply sublist_filter.
Qed.

Lemma elem_of_select_reviews kws reviews r :
  kws ≠ [] →
  r ∈ (select_reviews kws reviews).1 ↔ r ∈ reviews ∧ mentions kws r.
Proof.
  intros Hk. rewrite select_reviews_filter by done. simpl.
  rewrite (list_elem_of_filter (λ r, mentions kws r)). tauto.
Qed.

(** ** What the scan finds *)

Lemma keywords_to_search_sublist question :
  keywords_to_search question `sublist_of` food_keywords.
Proof. rewrite keywords_to_search_filter. apply sublist_filter. Qed.

Lemma keywords_to_search_NoDup question : NoDup (keywords_to_search question).
Proof.
  eauto using sublist_NoDup, keywords_to_search_sublist, food_keywords_NoDup.
Qed.

(** The test of one vocabulary word does not depend on how the platform
    lower-cases non-ASCII text. *)
Lemma contains_food_keyword kw s :
  kw ∈ food_keywords → contains kw (lower s) = contains kw (ascii_lower s).
Proof.
  intros Hkw. apply contains_lower.
  pose proof food_keywords_ascii as Hall. rewrite Forall_forall in Hall.
  by apply Hall.
Qed.

(** A word is found exactly when it is in the vocabulary and occurs in the
    question once its ASCII letters are lower-cased. *)
Lemma elem_of_keywords_to_search question word :
  word ∈ keywords_to_search question ↔
  word ∈ food_keywords ∧ substring word (ascii_lower question).
Proof.
  rewrite keywords_to_search_filter.
  rewrite (list_elem_of_filter (λ word, contains word (lower question))).
  rewrite <-contains_spec. split; intros [Hc Hin]; split; try done.
  - by rewrite <-contains_food_keyword.
  - by rewrite contains_food_keyword.
Qed.

(** The keywords found do not depend on the [Lowering] instance ... *)
Lemma keywords_to_search_ascii question :
  keywords_to_search question =
  filter (λ word, contains word (ascii_lower question)) food_keywords.
Proof.
  rewrite keywords_to_search_filter. apply filter_ext_elem_of.
  intros kw Hkw. by rewrite contains_food_keyword.
Qed.

(** ... nor on the case of the ASCII letters of the question. *)
Lemma keywords_to_search_case question question' :
  ascii_lower question = ascii_lower question' →
  keywords_to_search question = keywords_to_search question'.
Proof. intros Heq. by rewrite !keywords_to_search_ascii, Heq. Qed.

Lemma mentions_ascii kws review :
  kws `sublist_of` food_keywords →
  mentions kws review =
  py_any (λ kw, contains kw (ascii_lower (text review))) kws.
Proof.
  intros Hsub. apply py_any_ext. intros kw Hkw.
  apply contains_food_keyword. by eapply elem_of_sublist.
Qed.

Lemma mentions_spec kws review :
  kws `sublist_of` food_keywords →
  mentions kws review ↔
  ∃ kw, kw ∈ kws ∧ substring kw (ascii_lower (text review)).
Proof.
  intros Hsub. rewrite mentions_ascii, py_any_elem_of by done.
  by setoid_rewrite contains_spec.
Qed.

End keywords_lemmas.

(** ** Independence of the lower-casing tables

    Two implementations of [str.lower] that satisfy the [Lowering] interface
    find the same keywords and select the same reviews. *)

Lemma keywords_to_search_lowering (L1 L2 : Lowering) question :
  @keywords_to_search L1 question = @keywords_to_search L2 question.
Proof. by rewrite !keywords_to_search_ascii. Qed.

Lemma mentions_lowering (L1 L2 : Lowering) kws review :
  kws `sublist_of` food_keywords →
  @mentions L1 kws review = @mentions L2 kws review.
Proof. intros Hsub. by rewrite !mentions_ascii. Qed.

Lemma select_reviews_lowering (L1 L2 : Lowering) kws reviews :
  kws `sublist_of` food_keywords →
  @select_reviews L1 kws reviews = @select_reviews L2 kws reviews.
Proof.
  intros Hsub. destruct (decide (kws = [])) as [->|Hne]; [done|].
  rewrite !select_reviews_filter by done.
  rewrite (filter_ext_elem_of _ (λ r, @mentions L2 kws r)); [done|].
  intros r _. by rewrite (mentions_lowering L1 L2).
Qed.

(** ** What the selection reads of a review

    The selection reads the texts only: it commutes with a map of the
    reviews that keeps every text. *)

Section keywords_relabel.
Context `{Lowering} (h : ReviewData.t → ReviewData.t).
Context (h_text : ∀ r, text (h r) = text r).

Lemma mentions_relabel kws review : mentions kws (h review) = mentions kws review.
Proof. unfold mentions. by rewrite h_text. Qed.

Lemma select_reviews_relabel kws reviews :
  (select_reviews kws (h <$> reviews)).1 = h <$> (select_reviews kws reviews).1.
Proof.
  destruct kws as [|kw kws]; [done|]. rewrite !select_reviews_filter by done.
  apply filter_fmap_comm. intros. by rewrite mentions_relabel.
Qed.

End keywords_relabel.

(** The selection keeps the order of the reviews, so it maps a
    rearrangement of the reviews to a rearrangement of the selection. *)
Lemma select_reviews_perm `{Lowering} kws l1 l2 :
  l1 ≡ₚ l2 → (select_reviews kws l1).1 ≡ₚ (select_reviews kws l2).1.
Proof.
  intros Hl. destruct kws as [|kw kws]; [done|].
  rewrite !select_reviews_filter by done. simpl. by rewrite Hl.
Qed.

(** ** The loops in terms of substrings *)

Lemma keywords_to_search_substring `{Lowering} question :
  keywords_to_search question =
  filter (λ word, substring word (ascii_lower question)) food_keywords.
Proof.
  rewrite keywords_to_search_ascii. apply filter_ext_elem_of.
  intros word _. apply contains_spec.
Qed.

Lemma select_reviews_substring `{Lowering} kws reviews :
  kws `sublist_of` food_keywords → kws ≠ [] →
  (select_reviews kws reviews).1 =
  filter (λ r, Exists (λ kw, substring kw (ascii_lower (text r))) kws) reviews.
Proof.
  intros Hsub Hne. rewrite select_reviews_filter by done. simpl.
  apply filter_ext_elem_of. intros r _. by rewrite mentions_spec, Exists_exists.
Qed.

(** ** Main results *)

(** C32: the keywords found in a question are the words of the vocabulary
    that occur in the question once its ASCII letters are lower-cased, in
    the order of the vocabulary and without repetition. *)
Theorem keywords_scan_correct `{Lowering} question :
  keywords_to_search question =
    filter (λ word, substring word (ascii_lower question)) food_keywords ∧
  NoDup (keywords_to_search question).
Proof.
  split; [apply keywords_to_search_substring|apply keywords_to_search_NoDup].
Qed.

(** C33: with keywords, the selection loop returns the reviews whose
    lower-cased text holds one of them, in input order, together with their
    identifiers; without keywords it returns every review. *)
Theorem select_reviews_correct `{Lowering} kws reviews :
  kws `sublist_of` food_keywords →
  select_reviews kws reviews =
  let relevant :=
    if decide (kws = []) then reviews
    else filter (λ r, Exists (λ kw, substring kw (ascii_lower (text r))) kws)
           reviews in
  (relevant, id <$> relevant).
Proof.
  intros Hsub. simpl. destruct (decide (kws = [])) as [->|Hne]; [done|].
  rewrite <-select_reviews_substring, <-select_reviews_ids by done.
  by destruct (select_reviews kws reviews).
Qed.

Lemma select_reviews_correct_witness :
  select_reviews [lit "spicy"] Sample.mixed =
  ([Sample.review "r1" 5 "Loved the biryani, perfectly Spicy and fresh"],
   [lit "r1"]).
Proof.
  apply (select_reviews_correct [lit "spicy"] Sample.mixed).
  apply singleton_sublist_l. by_compute.
Defined.

(** The scan is by substring, not by word: a question about the
    "price" also matches "rice", one about the "waiter" also matches "wait",
    and the phrase "every time" matches "time". *)
Example keywords_overlap :
  keywords_to_search (lit "What is the price?") = [lit "rice"; lit "price"] ∧
  keywords_to_search (lit "Was the waiter rude?") = [lit "wait"; lit "waiter"] ∧
  keywords_to_search (lit "Is it like this every time?") = [lit "time"].
Proof. by vm_compute. Qed.
