(* ===== verification/Intent.v ===== *)
(** * Intent: which kind of answer a question gets

    Lines 80-82 of [src/llm-service/main.py] test the lower-cased question
    against three lists of words; the [if]/[elif] chain of lines 84, 106, 117,
    131 and 140 then picks one of five answers, the first test that holds
    winning.  [Intent] names the five answers and [intent] is the chain. *)

From stdpp Require Import strings.
From S2P Require Import Prelude PySeq PyStr Schema Keywords.

Implicit Types (question w kw : str) (kws : list str)
  (relevant : list ReviewData.t).

(** The word lists of lines 80, 81 and 82. *)
Definition recommendation_words : list str := lit <$> [
  "best"; "great"; "recommend"; "good"; "worth"; "should"; "how is"; "how's"
]%string.

Definition negative_words : list str := lit <$> [
  "bad"; "worst"; "avoid"; "problem"; "issue"; "complaint"; "risky"
]%string.

Definition consistency_words : list str := lit <$> [
  "consistent"; "always"; "every time"; "reliability"; "reliable"
]%string.

(** The five branches of the chain. *)
Inductive Intent : Set :=
| Recommendation
| NegativeCheck
| Consistency
| KeywordSearch
| Summary.

#[export] Instance Intent_eq_dec : EqDecision Intent.
Proof. solve_decision. Defined.

Section intent.
Context `{Lowering}.

(** [any(w in question_lower for w in words)] *)
Definition asks (words : list str) question : bool :=
  py_any (λ w, contains w (lower question)) words.

Definition is_recommendation question : bool := asks recommendation_words question.
Definition is_negative_check question : bool := asks negative_words question.
Definition is_consistency question : bool := asks consistency_words question.

(** The chain [if is_recommendation ... elif is_negative_check ... elif
    is_consistency ... elif keywords_to_search and relevant_reviews ...
    else]. *)
Definition intent question kws relevant : Intent :=
  if is_recommendation question then Recommendation
  else if is_negative_check question then NegativeCheck
  else if is_consistency question then Consistency
  else if truthy kws && truthy relevant then KeywordSearch
  else Summary.

End intent.

(** ** The word lists *)

Lemma intent_words_ascii :
  Forall ascii_word (recommendation_words ++ negative_words ++ consistency_words).
Proof.
  apply Forall_forall. intros w Hw. split.
  - intros ->. revert Hw. by_compute.
  - revert w Hw. apply Forall_forall. by_compute.
Qed.

(** The vocabulary words that are also intent words: a question that holds
    one of them never reaches the keyword branch. *)
Lemma intent_words_in_vocabulary :
  filter (λ w, w ∈ recommendation_words ++ negative_words ++ consistency_words)
    food_keywords =
  lit <$> ["worth"; "best"; "great"; "good"; "bad"; "worst"; "recommend";
           "consistent"]%string.
Proof. by vm_compute. Qed.

Section intent_lemmas.
Context `{Lowering}.

(** The intent tests do not depend on how non-ASCII text is lower-cased. *)
Lemma asks_ascii words question :
  Forall ascii_word words →
  asks words question = py_any (λ w, contains w (ascii_lower question)) words.
Proof.
  intros Hall. apply py_any_ext. intros w Hw. apply contains_lower.
  rewrite Forall_forall in Hall. by apply Hall.
Qed.

Lemma asks_spec words question :
  Forall ascii_word words →
  asks words question ↔ ∃ w, w ∈ words ∧ substring w (ascii_lower question).
Proof.
  intros Hall. rewrite asks_ascii, py_any_elem_of by done.
  by setoid_rewrite contains_spec.
Qed.

Lemma recommendation_words_ascii : Forall ascii_word recommendation_words.
Proof. pose proof intent_words_ascii as Hall. by apply Forall_app in Hall as [? _]. Qed.

Lemma negative_words_ascii : Forall ascii_word negative_words.
Proof.
  pose proof intent_words_ascii as Hall.
  by apply Forall_app in Hall as [_ [? _]%Forall_app].
Qed.

Lemma consistency_words_ascii : Forall ascii_word consistency_words.
Proof.
  pose proof intent_words_ascii as Hall.
  by apply Forall_app in Hall as [_ [_ ?]%Forall_app].
Qed.

Lemma is_recommendation_spec question :
  is_recommendation question ↔
  ∃ w, w ∈ recommendation_words ∧ substring w (ascii_lower question).
Proof. apply asks_spec, recommendation_words_ascii. Qed.

Lemma is_negative_check_spec question :
  is_negative_check question ↔
  ∃ w, w ∈ negative_words ∧ substring w (ascii_lower question).
Proof. apply asks_spec, negative_words_ascii. Qed.

Lemma is_consistency_spec question :
  is_consistency question ↔
  ∃ w, w ∈ consistency_words ∧ substring w (ascii_lower question).
Proof. apply asks_spec, consistency_words_ascii. Qed.

(** A question in which a vocabulary word was found that is also in a word
    list passes the test of that list. *)
Lemma asks_keyword words question kw :
  Forall ascii_word words → kw ∈ words → kw ∈ keywords_to_search question →
  asks words question.
Proof.
  intros Hall Hw [_ Hsub]%elem_of_keywords_to_search.
  apply asks_spec; [done|]. by exists kw.
Qed.

(** ** The chain *)

Lemma intent_recommendation question kws relevant :
  intent question kws relevant = Recommendation ↔ is_recommendation question.
Proof. unfold intent. repeat case_match; naive_solver. Qed.

Lemma intent_negative_check question kws relevant :
  intent question kws relevant = NegativeCheck ↔
  ¬ is_recommendation question ∧ is_negative_check question.
Proof. unfold intent. repeat case_match; naive_solver. Qed.

Lemma intent_consistency question kws relevant :
  intent question kws relevant = Consistency ↔
  ¬ is_recommendation question ∧ ¬ is_negative_check question ∧
  is_consistency question.
Proof. unfold intent. repeat case_match; naive_solver. Qed.

Lemma intent_keyword_search question kws relevant :
  intent question kws relevant = KeywordSearch ↔
  ¬ is_recommendation question ∧ ¬ is_negative_check question ∧
  ¬ is_consistency question ∧ kws ≠ [] ∧ relevant ≠ [].
Proof.
  unfold intent. rewrite <-!truthy_spec.
  destruct (is_recommendation _), (is_negative_check _), (is_consistency _),
    (truthy kws), (truthy relevant); simpl; naive_solver.
Qed.

Lemma intent_summary question kws relevant :
  intent question kws relevant = Summary ↔
  ¬ is_recommendation question ∧ ¬ is_negative_check question ∧
  ¬ is_consistency question ∧ (kws = [] ∨ relevant = []).
Proof.
  unfold intent. rewrite <-!truthy_false.
  destruct (is_recommendation _), (is_negative_check _), (is_consistency _),
    (truthy kws), (truthy relevant); simpl; naive_solver.
Qed.

(** C34: when the chain reaches the keyword branch, none of the keywords
    found in the question is a word of the three intent lists: the eight
    vocabulary words that are also intent words never head a keyword
    answer. *)
Theorem intent_keyword_search_words question relevant kw :
  intent question (keywords_to_search question) relevant = KeywordSearch →
  kw ∈ keywords_to_search question →
  kw ∉ recommendation_words ++ negative_words ++ consistency_words.
Proof.
  intros (Hr & Hn & Hc & _)%intent_keyword_search Hkw.
  rewrite !elem_of_app. intros [Hw|[Hw|Hw]].
  - apply Hr. eapply asks_keyword; eauto using recommendation_words_ascii.
  - apply Hn. eapply asks_keyword; eauto using negative_words_ascii.
  - apply Hc. eapply asks_keyword; eauto using consistency_words_ascii.
Qed.

End intent_lemmas.

Lemma intent_keyword_search_words_witness :
  lit "spicy" ∉ recommendation_words ++ negative_words ++ consistency_words.
Proof.
  apply (intent_keyword_search_words (lit "Is it too Spicy?")
           [Sample.review "r1" 5 "Spicy"]); [by vm_compute|by_compute].
Defined.

(** ** Independence of the lower-casing tables and of the case *)

Lemma asks_lowering (L1 L2 : Lowering) words question :
  Forall ascii_word words → @asks L1 words question = @asks L2 words question.
Proof. intros Hall. by rewrite !asks_ascii. Qed.

Lemma asks_case `{Lowering} words question question' :
  Forall ascii_word words → ascii_lower question = ascii_lower question' →
  asks words question = asks words question'.
Proof. intros Hall Heq. by rewrite !asks_ascii, Heq. Qed.

Lemma intent_lowering (L1 L2 : Lowering) question kws relevant :
  @intent L1 question kws relevant = @intent L2 question kws relevant.
Proof.
  unfold intent, is_recommendation, is_negative_check, is_consistency.
  by rewrite (asks_lowering L1 L2 recommendation_words),
    (asks_lowering L1 L2 negative_words), (asks_lowering L1 L2 consistency_words)
    by eauto using recommendation_words_ascii, negative_words_ascii,
      consistency_words_ascii.
Qed.

Lemma intent_case `{Lowering} question question' kws relevant :
  ascii_lower question = ascii_lower question' →
  intent question kws relevant = intent question' kws relevant.
Proof.
  intros Heq. unfold intent, is_recommendation, is_negative_check, is_consistency.
  by rewrite (asks_case recommendation_words question question'),
    (asks_case negative_words question question'),
    (asks_case consistency_words question question')
    by eauto using recommendation_words_ascii, negative_words_ascii,
      consistency_words_ascii.
Qed.
