(* ===== verification/Render.v ===== *)
(** * Render: the text of the five answers

    Lines 84-146 of [src/llm-service/main.py]: each branch of the chain
    appends formatted lines to [parts].  Every f-string is a definition of
    its own, a concatenation of literals, decimal integers ([str_of_int]),
    the mean to one decimal ([format_f1]) and slices of review texts; one
    definition per branch returns the lines that branch appends, in order.
    [max] and [min] can raise, so the two branches that call them return a
    [result] and the theorems show that they never do. *)

From stdpp Require Import strings.
From S2P Require Import Prelude PySeq PyStr PyFloat PyDecimal Schema Stats.
Import ReviewData.

Local Open Scope Z_scope.

Implicit Types (dish_name window : str) (reviews relevant : list ReviewData.t)
  (r : ReviewData.t) (avg : float) (kws : list str) (min_r max_r : Z).

(** Line 33: the answer for an empty list of reviews. *)
Definition empty_answer dish_name window : str :=
  lit "No reviews found for " ++ dish_name ++ lit " in the last " ++ window ++
  lit ". Be the first to leave a review!".

(** Lines 94, 110 and 138: a quoted excerpt of at most [n] code points with
    the rating of the review. *)
Definition quote_line (n : nat) r : str :=
  newline ++ lit "> *" ++ dquote ++ slice_to n (text r) ++ dquote ++
  lit "* — ⭐" ++ str_of_int (rating r) ++ lit "/5".

(** Line 146. *)
Definition latest_line r : str :=
  newline ++ lit "> Latest positive: *" ++ dquote ++ slice_to 120 (text r) ++
  dquote ++ lit "* — ⭐" ++ str_of_int (rating r) ++ lit "/5".

(** Lines 87-88. *)
Definition highly_rated_line dish_name window reviews avg : str :=
  lit "**" ++ dish_name ++ lit " is highly rated!** Based on " ++
  str_of_int (total reviews) ++ lit " recent reviews " ++
  lit "(last " ++ window ++ lit "), it has an average rating of " ++
  format_f1 avg ++ lit "/5.".

(** Line 91. *)
Definition five_star_line reviews : str :=
  str_of_int (five_star reviews) ++ lit " out of " ++
  str_of_int (total reviews) ++ lit " reviewers gave it 5 stars.".

(** Lines 97-98. *)
Definition mixed_line dish_name window reviews avg : str :=
  lit "**" ++ dish_name ++ lit " has mixed reviews.** Average rating: " ++
  format_f1 avg ++ lit "/5 " ++
  lit "from " ++ str_of_int (total reviews) ++ lit " reviews in the last " ++
  window ++ lit ".".

(** Lines 102-103. *)
Definition low_ratings_line dish_name reviews avg : str :=
  lit "**Heads up — " ++ dish_name ++ lit " has low ratings recently.** " ++
  lit "Average: " ++ format_f1 avg ++ lit "/5 from " ++
  str_of_int (total reviews) ++ lit " reviews.".

(** Lines 85-104: the recommendation answer. *)
Definition recommendation_parts dish_name window reviews avg : result (list str) :=
  if fle (float_of_int 4) avg then
    let parts := [highly_rated_line dish_name window reviews avg] in
    let parts :=
      if 0 <? five_star reviews then parts ++ [five_star_line reviews]
      else parts in
    if truthy (high_reviews reviews) then
      top ← py_max_key rating (high_reviews reviews);
      mret (parts ++ [quote_line 150 top])
    else mret parts
  else if fle (float_of_int 3) avg then
    mret [mixed_line dish_name window reviews avg]
  else
    mret [low_ratings_line dish_name reviews avg].

(** Line 108. *)
Definition negative_header window reviews : str :=
  lit "Found " ++ str_of_int (py_len (low_reviews reviews)) ++
  lit " negative review(s) out of " ++ str_of_int (total reviews) ++
  lit " in the last " ++ window ++ lit ":".

(** Lines 113-114. *)
Definition no_negative_line dish_name window reviews avg : str :=
  lit "No negative reviews found for " ++ dish_name ++ lit " in the last " ++
  window ++ lit ". " ++
  lit "All " ++ str_of_int (total reviews) ++ lit " reviews are positive (avg " ++
  format_f1 avg ++ lit "/5)! 🎉".

(** Lines 107-115: the answer to a question about problems. *)
Definition negative_parts dish_name window reviews avg : list str :=
  if truthy (low_reviews reviews) then
    [negative_header window reviews] ++
    (quote_line 120 <$> slice_to 3 (low_reviews reviews))
  else
    [no_negative_line dish_name window reviews avg].

(** Lines 122-123. *)
Definition consistent_line dish_name reviews avg min_r max_r : str :=
  lit "**" ++ dish_name ++ lit " is very consistent!** All " ++
  str_of_int (total reviews) ++ lit " recent ratings are " ++
  lit "between " ++ str_of_int min_r ++ lit " and " ++ str_of_int max_r ++
  lit " stars (avg " ++ format_f1 avg ++ lit "/5).".

(** Lines 127-128. *)
Definition varies_line reviews avg min_r max_r : str :=
  lit "**Quality varies.** Ratings range from " ++ str_of_int min_r ++
  lit " to " ++ str_of_int max_r ++ lit " stars " ++
  lit "(avg " ++ format_f1 avg ++ lit "/5) across " ++
  str_of_int (total reviews) ++ lit " reviews.".

(** Lines 118-129: the answer to a question about consistency. *)
Definition consistency_parts dish_name reviews avg : result (list str) :=
  '(min_r, max_r) ← min_max reviews;
  if max_r - min_r <=? 1 then
    mret [consistent_line dish_name reviews avg min_r max_r]
  else
    mret [varies_line reviews avg min_r max_r].

(** Lines 134-135, with [kw_str] of line 132. *)
Definition keyword_header window reviews kws relevant : str :=
  let kw_str := join (lit ", ") kws in
  lit "Found " ++ str_of_int (py_len relevant) ++ lit " review(s) mentioning **" ++
  kw_str ++ lit "** " ++
  lit "out of " ++ str_of_int (total reviews) ++ lit " total (last " ++ window ++
  lit "):".

(** Lines 132-138: the answer that quotes the reviews mentioning the
    keywords of the question. *)
Definition keyword_parts window reviews kws relevant : list str :=
  [keyword_header window reviews kws relevant] ++
  (quote_line 150 <$> slice_to 4 relevant).

(** Line 141. *)
Definition summary_header dish_name window reviews : str :=
  lit "Here's a summary of **" ++ dish_name ++ lit "** (" ++
  str_of_int (total reviews) ++ lit " reviews, last " ++ window ++ lit "):".

(** Line 142. *)
Definition average_line avg : str :=
  lit "- Average rating: **" ++ format_f1 avg ++ lit "/5**".

(** Line 143. *)
Definition breakdown_line reviews : str :=
  lit "- ⭐5: " ++ str_of_int (five_star reviews) ++
  lit " | ⭐4: " ++ str_of_int (four_star reviews) ++
  lit " | ⭐3: " ++ str_of_int (three_star reviews) ++
  lit " | ⭐1-2: " ++ str_of_int (py_len (low_reviews reviews)).

(** Lines 141-146: the default summary. *)
Definition summary_parts dish_name window reviews avg : list str :=
  let parts := [summary_header dish_name window reviews; average_line avg;
                breakdown_line reviews] in
  match high_reviews reviews with
  | [] => parts
  | latest :: _ => parts ++ [latest_line latest]
  end.

(** The lines of an answer open with a line that is not empty. *)
Definition opens (parts : list str) : bool :=
  match parts with
  | (_ :: _) :: _ => true
  | _ => false
  end.

(** Two floats that print alike with one decimal and lie on the same side
    of the thresholds [4.0] and [3.0]. *)
Definition same_reading (x y : float) : Prop :=
  format_f1 x = format_f1 y ∧
  fle (float_of_int 4) x = fle (float_of_int 4) y ∧
  fle (float_of_int 3) x = fle (float_of_int 3) y.

Arguments quote_line : simpl never.
Arguments latest_line : simpl never.
Arguments empty_answer : simpl never.
Arguments highly_rated_line : simpl never.
Arguments five_star_line : simpl never.
Arguments mixed_line : simpl never.
Arguments low_ratings_line : simpl never.
Arguments negative_header : simpl never.
Arguments no_negative_line : simpl never.
Arguments consistent_line : simpl never.
Arguments varies_line : simpl never.
Arguments keyword_header : simpl never.
Arguments summary_header : simpl never.
Arguments average_line : simpl never.
Arguments breakdown_line : simpl never.

(** ** The branches that call [max] and [min] never raise *)

Lemma recommendation_parts_returns dish_name window reviews avg :
  returns (recommendation_parts dish_name window reviews avg).
Proof.
  unfold recommendation_parts.
  destruct (truthy (high_reviews reviews)) eqn:Hh.
  - destruct (py_max_key_returns rating (high_reviews reviews)) as [top ->].
    { by apply truthy_spec, Is_true_true_2. }
    simpl. repeat case_match; apply returns_Ok.
  - repeat case_match; apply returns_Ok.
Qed.

Lemma consistency_parts_returns dish_name reviews avg :
  reviews ≠ [] → returns (consistency_parts dish_name reviews avg).
Proof.
  intros [[lo hi] Hmm]%min_max_returns. unfold consistency_parts.
  rewrite Hmm. simpl. destruct (hi - lo <=? 1); apply returns_Ok.
Qed.

(** ** Sizes *)

Lemma negative_parts_length dish_name window reviews avg :
  (1 ≤ length (negative_parts dish_name window reviews avg) ≤ 4)%nat.
Proof.
  unfold negative_parts. destruct (truthy _); [|simpl; lia].
  rewrite length_app, length_fmap. cbn [length].
  pose proof (length_slice_to 3 (low_reviews reviews)). lia.
Qed.

Lemma keyword_parts_length window reviews kws relevant :
  length (keyword_parts window reviews kws relevant) =
  S (length relevant `min` 4).
Proof.
  unfold keyword_parts, slice_to. rewrite length_app, length_fmap, length_take.
  cbn [length]. lia.
Qed.

Lemma summary_parts_length dish_name window reviews avg :
  length (summary_parts dish_name window reviews avg) =
  if truthy (high_reviews reviews) then 4%nat else 3%nat.
Proof. unfold summary_parts. by destruct (high_reviews reviews). Qed.

(** An excerpt never has more than [n] code points. *)
Lemma quote_line_length n r :
  (length (quote_line n r) ≤ n + 14 + length (str_of_int (rating r)))%nat.
Proof.
  unfold quote_line. rewrite !length_app.
  pose proof (length_slice_to n (text r)).
  change (length newline) with 1%nat. change (length dquote) with 1%nat.
  change (length (lit "> *")) with 3%nat.
  change (length (lit "* — ⭐")) with 5%nat.
  change (length (lit "/5")) with 2%nat. lia.
Qed.

(** ** Every answer opens with a line of text *)

Lemma opens_cons (l : str) parts : l ≠ [] → opens (l :: parts).
Proof. by destruct l. Qed.

Lemma opens_app parts parts' : opens parts → opens (parts ++ parts').
Proof. by destruct parts as [|[|??] ?]. Qed.

Lemma lit_app_nonempty (s : string) (t : str) : lit s ≠ [] → lit s ++ t ≠ [].
Proof. by destruct (lit s). Qed.

Lemma join_opens sep parts : opens parts → join sep parts ≠ [].
Proof. by destruct parts as [|[|??] [|??]]. Qed.

(** [solve_opens] proves that lines headed by a template open: every
    template starts with a literal. *)
Ltac solve_opens :=
  try done; repeat (apply opens_app); apply opens_cons;
  match goal with
  | |- ?line _ ≠ [] => unfold line
  | |- ?line _ _ ≠ [] => unfold line
  | |- ?line _ _ _ ≠ [] => unfold line
  | |- ?line _ _ _ _ ≠ [] => unfold line
  | |- ?line _ _ _ _ _ ≠ [] => unfold line
  end;
  apply lit_app_nonempty; by vm_compute.

Lemma recommendation_parts_opens dish_name window reviews avg parts :
  recommendation_parts dish_name window reviews avg = Ok parts → opens parts.
Proof.
  unfold recommendation_parts. intros Hp.
  repeat case_match; simplify_result; solve_opens.
Qed.

Lemma negative_parts_opens dish_name window reviews avg :
  opens (negative_parts dish_name window reviews avg).
Proof. unfold negative_parts. case_match; solve_opens. Qed.

Lemma consistency_parts_opens dish_name reviews avg parts :
  consistency_parts dish_name reviews avg = Ok parts → opens parts.
Proof.
  unfold consistency_parts. intros Hp. simplify_result.
  repeat case_match; simplify_result; solve_opens.
Qed.

Lemma keyword_parts_opens window reviews kws relevant :
  opens (keyword_parts window reviews kws relevant).
Proof. unfold keyword_parts. solve_opens. Qed.

Lemma summary_parts_opens dish_name window reviews avg :
  opens (summary_parts dish_name window reviews avg).
Proof. unfold summary_parts. case_match; solve_opens. Qed.

(** ** What each branch says *)

(** C14: with fewer than [2^51] reviews, the recommendation answer opens with
    the "highly rated" line exactly when the exact mean of the ratings is at
    least 4, with the "mixed reviews" line when it is at least 3 and below
    4, and with the "low ratings" line otherwise: the float comparison of
    the code decides as the rational mean does. *)
Theorem recommendation_parts_threshold dish_name window reviews avg parts :
  avg_rating reviews = Ok avg → 4 * total reviews < 2 ^ 53 →
  recommendation_parts dish_name window reviews avg = Ok parts →
  head parts = Some (
    if decide (4 * total reviews ≤ rating_sum reviews)
    then highly_rated_line dish_name window reviews avg
    else if decide (3 * total reviews ≤ rating_sum reviews)
    then mixed_line dish_name window reviews avg
    else low_ratings_line dish_name reviews avg).
Proof.
  intros Havg Hlen. pose proof (total_nonneg reviews).
  pose proof (avg_rating_ge_iff reviews avg 4 ltac:(lia) Hlen Havg) as H4.
  pose proof (avg_rating_ge_iff reviews avg 3 ltac:(lia) ltac:(lia) Havg) as H3.
  unfold recommendation_parts.
  destruct (fle (float_of_int 4) avg) eqn:Hf4.
  - rewrite decide_True by (by apply H4, Is_true_true_2). intros Hparts.
    destruct (truthy (high_reviews reviews)), (0 <? five_star reviews);
      by simplify_result.
  - rewrite decide_False by (rewrite <-H4; by apply Is_true_false_2).
    destruct (fle (float_of_int 3) avg) eqn:Hf3; intros [= <-]; simpl.
    + by rewrite decide_True by (by apply H3, Is_true_true_2).
    + by rewrite decide_False by (rewrite <-H3; by apply Is_true_false_2).
Qed.

Lemma recommendation_parts_threshold_witness :
  head [mixed_line (lit "Biryani") (lit "24h") Sample.mixed
          (mkfloat false 8256599316845909 (-51))] =
  Some (mixed_line (lit "Biryani") (lit "24h") Sample.mixed
          (mkfloat false 8256599316845909 (-51))).
Proof.
  apply (recommendation_parts_threshold (lit "Biryani") (lit "24h") Sample.mixed
           (mkfloat false 8256599316845909 (-51))); by vm_compute.
Defined.

(** C27: when the mean is at least [4.0] the recommendation answer always
    ends with a quotation (the test [if high_reviews] of the code cannot
    fail there), and the review quoted is the first one of maximal rating
    among those with at least 4 stars. *)
Theorem recommendation_parts_top dish_name window reviews avg parts :
  avg_rating reviews = Ok avg → fle (float_of_int 4) avg →
  recommendation_parts dish_name window reviews avg = Ok parts →
  ∃ top k1 k2, last parts = Some (quote_line 150 top) ∧
    high_reviews reviews = k1 ++ top :: k2 ∧ 4 ≤ rating top ∧
    Forall (λ r, rating r < rating top) k1 ∧
    Forall (λ r, rating r ≤ rating top) k2.
Proof.
  intros Havg Hle.
  pose proof (avg_rating_high reviews avg
    (avg_rating_Ok_nonempty _ _ Havg) Havg Hle) as Hh%truthy_spec.
  unfold recommendation_parts.
  destruct (fle (float_of_int 4) avg); [|done].
  destruct (truthy (high_reviews reviews)); [|done].
  intros Hparts. simplify_result.
  match goal with
  | Hm : py_max_key _ _ = Ok ?t |- _ =>
      pose proof (py_max_key_elem_of _ _ _ Hm) as Hin;
      apply py_max_key_spec in Hm as (k1 & k2 & Heq & ? & ?);
      exists t, k1, k2
  end.
  apply elem_of_high_reviews in Hin as [? _].
  split_and!; [apply last_snoc|done..].
Qed.

Lemma recommendation_parts_top_witness :
  ∃ top k1 k2,
    last [highly_rated_line (lit "Biryani") (lit "24h") Sample.steady
            (mkfloat false 5066549580791808 (-50));
          five_star_line Sample.steady;
          quote_line 150 (Sample.review "s2" 5 "Great masala")] =
      Some (quote_line 150 top) ∧
    high_reviews Sample.steady = k1 ++ top :: k2 ∧ 4 ≤ rating top ∧
    Forall (λ r, rating r < rating top) k1 ∧
    Forall (λ r, rating r ≤ rating top) k2.
Proof.
  apply (recommendation_parts_top (lit "Biryani") (lit "24h") Sample.steady
           (mkfloat false 5066549580791808 (-50))); by vm_compute.
Defined.

(** C28: the consistency answer is the "very consistent" line when the
    largest and the smallest rating differ by at most one star and the
    "quality varies" line otherwise; the two numbers it prints are the
    smallest and the largest rating of the input. *)
Theorem consistency_parts_spread dish_name reviews avg parts :
  consistency_parts dish_name reviews avg = Ok parts →
  ∃ lo hi,
    (∃ r, r ∈ reviews ∧ rating r = lo) ∧ (∃ r, r ∈ reviews ∧ rating r = hi) ∧
    Forall (λ r, lo ≤ rating r ≤ hi) reviews ∧
    parts = [if decide (hi - lo ≤ 1)
             then consistent_line dish_name reviews avg lo hi
             else varies_line reviews avg lo hi].
Proof.
  unfold consistency_parts. intros Hparts.
  apply bind_Ok in Hparts as ([lo hi] & Hmm & Hparts). exists lo, hi.
  apply min_max_spec in Hmm as (? & ? & ?). split_and!; [done..|].
  simpl in Hparts. destruct (Z.leb_spec (hi - lo) 1); simplify_result.
  - by rewrite decide_True.
  - by rewrite decide_False by lia.
Qed.

Lemma consistency_parts_spread_witness :
  ∃ lo hi,
    (∃ r, r ∈ Sample.uneven ∧ rating r = lo) ∧
    (∃ r, r ∈ Sample.uneven ∧ rating r = hi) ∧
    Forall (λ r, lo ≤ rating r ≤ hi) Sample.uneven ∧
    [varies_line Sample.uneven (float_of_int 3) 2 5] =
    [if decide (hi - lo ≤ 1)
     then consistent_line (lit "Biryani") Sample.uneven (float_of_int 3) lo hi
     else varies_line Sample.uneven (float_of_int 3) lo hi].
Proof.
  apply (consistency_parts_spread (lit "Biryani") Sample.uneven (float_of_int 3)).
  by vm_compute.
Defined.

(** C29: the answer about problems has between one and four lines; after the
    first, each line quotes, cut to 120 code points, one of the first three
    input reviews rated 2 or less, in input order. *)
Theorem negative_parts_quotes dish_name window reviews avg :
  (1 ≤ length (negative_parts dish_name window reviews avg) ≤ 4)%nat ∧
  tail (negative_parts dish_name window reviews avg) =
    quote_line 120 <$> take 3 (filter (λ r, rating r ≤ 2) reviews) ∧
  ∀ line, line ∈ tail (negative_parts dish_name window reviews avg) →
    ∃ r, r ∈ reviews ∧ rating r ≤ 2 ∧ line = quote_line 120 r.
Proof.
  split; [apply negative_parts_length|].
  assert (tail (negative_parts dish_name window reviews avg) =
    quote_line 120 <$> take 3 (low_reviews reviews)) as Htail.
  { unfold negative_parts. by destruct (low_reviews reviews). }
  split; [done|]. rewrite Htail. intros line (r & -> & Hr)%list_elem_of_fmap.
  apply elem_of_take in Hr as (i & Hr & _).
  apply list_elem_of_lookup_2, elem_of_low_reviews in Hr as [? ?]. by exists r.
Qed.

(** C31: the default summary is the header, the average line and the
    breakdown line, followed, when some review is rated 4 or more, by the
    "latest positive" line, which quotes the first such review in input
    order: whatever its date, no review before it is rated 4 or more. *)
Theorem summary_parts_latest dish_name window reviews avg :
  ∃ latest : option ReviewData.t,
    summary_parts dish_name window reviews avg =
      [summary_header dish_name window reviews; average_line avg;
       breakdown_line reviews] ++ (latest_line <$> option_list latest) ∧
    match latest with
    | Some r => ∃ l1 l2, reviews = l1 ++ r :: l2 ∧
        Forall (λ x, rating x < 4) l1 ∧ 4 ≤ rating r
    | None => Forall (λ x, rating x < 4) reviews
    end.
Proof.
  exists (head (high_reviews reviews)). split.
  { unfold summary_parts. by destruct (high_reviews reviews). }
  pose proof (head_filter_split (λ r, 4 ≤ rating r) reviews) as Hh.
  unfold high_reviews. destruct (head _) as [r|].
  - destruct Hh as (l1 & l2 & -> & Hl1 & ?). exists l1, l2. split_and!; [done| |done].
    eapply Forall_impl; [exact Hl1|]. simpl. lia.
  - eapply Forall_impl; [exact Hh|]. simpl. lia.
Qed.

(** ** What the answers read of the mean

    The templates read the float mean in two ways only: they print it with
    one decimal and they compare it with [4.0] and [3.0].  Two floats with
    the same reading give the same answers. *)

Section reading.
Implicit Types (x y : float).

Lemma same_reading_refl x : same_reading x x.
Proof. done. Qed.

#[export] Instance same_reading_equiv : Equivalence same_reading.
Proof.
  split; [done|by intros x y (? & ? & ?)|].
  intros x y z (? & ? & ?) (? & ? & ?). split_and!; congruence.
Qed.

#[export] Instance format_f1_reading : Proper (same_reading ==> (=)) format_f1.
Proof. by intros x y (? & _). Qed.

#[export] Instance fle_4_reading :
  Proper (same_reading ==> (=)) (fle (float_of_int 4)).
Proof. by intros x y (_ & ? & _). Qed.

#[export] Instance fle_3_reading :
  Proper (same_reading ==> (=)) (fle (float_of_int 3)).
Proof. by intros x y (_ & _ & ?). Qed.

#[export] Instance recommendation_parts_reading dish_name window reviews :
  Proper (same_reading ==> (=)) (recommendation_parts dish_name window reviews).
Proof.
  intros x y Hxy. unfold recommendation_parts, highly_rated_line, mixed_line,
    low_ratings_line.
  by rewrite (fle_4_reading _ _ Hxy), (fle_3_reading _ _ Hxy),
    (format_f1_reading _ _ Hxy).
Qed.

#[export] Instance negative_parts_reading dish_name window reviews :
  Proper (same_reading ==> (=)) (negative_parts dish_name window reviews).
Proof.
  intros x y Hxy. unfold negative_parts, no_negative_line.
  by rewrite (format_f1_reading _ _ Hxy).
Qed.

#[export] Instance consistency_parts_reading dish_name reviews :
  Proper (same_reading ==> (=)) (consistency_parts dish_name reviews).
Proof.
  intros x y Hxy. unfold consistency_parts, consistent_line, varies_line.
  by rewrite (format_f1_reading _ _ Hxy).
Qed.

#[export] Instance summary_parts_reading dish_name window reviews :
  Proper (same_reading ==> (=)) (summary_parts dish_name window reviews).
Proof.
  intros x y Hxy. unfold summary_parts, average_line.
  by rewrite (format_f1_reading _ _ Hxy).
Qed.

End reading.

(** ** What the answers read of a review

    The branches read the ratings and the texts: a map of the reviews that
    keeps both changes no line of any answer. *)

Section render_relabel.
Context (h : ReviewData.t → ReviewData.t).
Context (h_rating : ∀ r, rating (h r) = rating r).
Context (h_text : ∀ r, text (h r) = text r).

Lemma quote_line_relabel n r : quote_line n (h r) = quote_line n r.
Proof. unfold quote_line. by rewrite h_rating, h_text. Qed.

Lemma latest_line_relabel r : latest_line (h r) = latest_line r.
Proof. unfold latest_line. by rewrite h_rating, h_text. Qed.

Lemma quote_lines_relabel n m relevant :
  quote_line n <$> slice_to m (h <$> relevant) =
  quote_line n <$> slice_to m relevant.
Proof.
  unfold slice_to. rewrite <-fmap_take, <-list_fmap_compose.
  apply list_fmap_ext. intros. apply quote_line_relabel.
Qed.

Lemma recommendation_parts_relabel dish_name window reviews avg :
  recommendation_parts dish_name window (h <$> reviews) avg =
  recommendation_parts dish_name window reviews avg.
Proof.
  unfold recommendation_parts, highly_rated_line, five_star_line, mixed_line,
    low_ratings_line, five_star.
  rewrite high_reviews_relabel, truthy_fmap, !total_relabel, star_count_relabel,
    (py_max_key_fmap rating rating h) by done.
  destruct (py_max_key rating (high_reviews reviews)); simpl;
    by rewrite ?quote_line_relabel.
Qed.

Lemma negative_parts_relabel dish_name window reviews avg :
  negative_parts dish_name window (h <$> reviews) avg =
  negative_parts dish_name window reviews avg.
Proof.
  unfold negative_parts, negative_header, no_negative_line.
  by rewrite low_reviews_relabel, truthy_fmap, !total_relabel,
    quote_lines_relabel.
Qed.

Lemma consistency_parts_relabel dish_name reviews avg :
  consistency_parts dish_name (h <$> reviews) avg =
  consistency_parts dish_name reviews avg.
Proof.
  unfold consistency_parts, consistent_line, varies_line.
  by rewrite min_max_relabel, total_relabel.
Qed.

Lemma keyword_parts_relabel window reviews kws relevant :
  keyword_parts window (h <$> reviews) kws (h <$> relevant) =
  keyword_parts window reviews kws relevant.
Proof.
  unfold keyword_parts, keyword_header.
  by rewrite !total_relabel, quote_lines_relabel.
Qed.

Lemma summary_parts_relabel dish_name window reviews avg :
  summary_parts dish_name window (h <$> reviews) avg =
  summary_parts dish_name window reviews avg.
Proof.
  unfold summary_parts, summary_header, breakdown_line, five_star, four_star,
    three_star.
  rewrite high_reviews_relabel, low_reviews_relabel, !total_relabel,
    !star_count_relabel by done.
  destruct (high_reviews reviews); simpl; by rewrite ?latest_line_relabel.
Qed.

End render_relabel.

(** ** The order of the reviews

    The answer on consistency reads the number of reviews and their
    extreme ratings, none of which depends on the order. *)

#[export] Instance consistency_parts_perm dish_name :
  Proper ((≡ₚ) ==> (=) ==> (=)) (consistency_parts dish_name).
Proof.
  intros l k Hl avg ? <-. unfold consistency_parts, consistent_line, varies_line.
  by rewrite (min_max_perm _ _ Hl), (total_perm _ _ Hl).
Qed.
