(* ===== verification/Analyzer.v ===== *)
(** * Analyzer: [analyze_reviews] and the [/chat] endpoint

    [analyze_reviews] (lines 29-159 of [src/llm-service/main.py]) composes
    the statistics, the keyword scan, the selection of relevant reviews, the
    choice of an answer and its rendering into a [ChatResponse]; [chat]
    (lines 163-164) calls it on the fields of a validated request.  The
    function returns a [result]: the division of line 40 is the one call that
    can raise once the guards of the code are taken into account, and the
    theorems of this file say when it does not.  [well_formed] is the
    invariant of the responses: the data model of the specification, proved
    of every response returned.  The last groups of lemmas say what the
    response depends on: not on the dates of the reviews, on their
    identifiers only in the list of identifiers, and on their order only in
    the quotations and the identifiers. *)

From stdpp Require Import strings.
From S2P Require Import Prelude PySeq PyStr PyFloat PyDecimal Schema Stats.
From S2P Require Import Keywords Intent Render.
Import ReviewData.

Local Open Scope Z_scope.

Implicit Types (question dish_name window : str)
  (reviews relevant : list ReviewData.t) (avg rounded : float)
  (kws parts used_ids : list str).

(** Lines 32-37: the response for an empty list of reviews. *)
Definition empty_response dish_name window : ChatResponse.t :=
  ChatResponse.mk (empty_answer dish_name window) [] window
    [("reviewsAnalyzed"%string, MInt 0)].

(** Lines 148-159: the response of the general case, from the lines of the
    answer, the identifiers collected, the number of reviews, the rounded
    mean and the keywords. *)
Definition response window parts used_ids (n : Z) rounded kws : ChatResponse.t :=
  ChatResponse.mk (join newline parts) (slice_to 10 used_ids) window
    [("reviewsAnalyzed"%string, MInt n);
     ("avgRating"%string, MFloat rounded);
     ("keywordsMatched"%string, MStrList kws)].

Section analyzer.
Context `{Lowering}.

(** The chain of lines 84-146: the lines of the answer. *)
Definition answer_parts question dish_name window reviews avg kws relevant :
    result (list str) :=
  if is_recommendation question then
    recommendation_parts dish_name window reviews avg
  else if is_negative_check question then
    mret (negative_parts dish_name window reviews avg)
  else if is_consistency question then
    consistency_parts dish_name reviews avg
  else if truthy kws && truthy relevant then
    mret (keyword_parts window reviews kws relevant)
  else
    mret (summary_parts dish_name window reviews avg).

(** [analyze_reviews(question, reviews, dish_name, window)] *)
Definition analyze_reviews question reviews dish_name window :
    result ChatResponse.t :=
  if negb (truthy reviews) then mret (empty_response dish_name window)
  else
    avg ← avg_rating reviews;
    let kws := keywords_to_search question in
    let '(relevant, used_ids) := select_reviews kws reviews in
    parts ← answer_parts question dish_name window reviews avg kws relevant;
    rounded ← py_round1 avg;
    mret (response window parts used_ids (total reviews) rounded kws).

(** [chat(request)] *)
Definition chat (request : ChatRequest.t) : result ChatResponse.t :=
  analyze_reviews (ChatRequest.question request) (ChatRequest.reviews request)
    (ChatRequest.dishName request) (ChatRequest.window request).

End analyzer.

(** The answer that the chain of [answer_parts] gives to each intent. *)
Definition parts_of_intent (i : Intent) dish_name window reviews avg kws relevant :
    result (list str) :=
  match i with
  | Recommendation => recommendation_parts dish_name window reviews avg
  | NegativeCheck => mret (negative_parts dish_name window reviews avg)
  | Consistency => consistency_parts dish_name reviews avg
  | KeywordSearch => mret (keyword_parts window reviews kws relevant)
  | Summary => mret (summary_parts dish_name window reviews avg)
  end.

(** The responses of the data model: an answer that is not empty, at most
    ten identifiers, and a metadata mapping that is either
    [{reviewsAnalyzed: 0}] with no identifier, or the three entries in
    order with a positive count that bounds the number of identifiers, a
    binary64 mean and keywords taken from the vocabulary in its order. *)
Definition well_formed (resp : ChatResponse.t) : Prop :=
  ChatResponse.answer resp ≠ [] ∧
  (length (ChatResponse.reviewIdsUsed resp) ≤ 10)%nat ∧
  match ChatResponse.metadata resp with
  | [(k, MInt n)] =>
      k = "reviewsAnalyzed"%string ∧ n = 0 ∧ ChatResponse.reviewIdsUsed resp = []
  | [(k1, MInt n); (k2, MFloat x); (k3, MStrList kws)] =>
      k1 = "reviewsAnalyzed"%string ∧ k2 = "avgRating"%string ∧
      k3 = "keywordsMatched"%string ∧
      0 < n ∧ Z.of_nat (length (ChatResponse.reviewIdsUsed resp)) ≤ n ∧
      finite64 x ∧ kws `sublist_of` food_keywords
  | _ => False
  end.

#[export] Instance well_formed_dec resp : Decision (well_formed resp).
Proof. unfold well_formed. repeat case_match; apply _. Defined.

(** The responses to three sample requests, for the examples below. *)
Definition sample_response (question : string) reviews : ChatResponse.t :=
  ok_or (empty_response [] [])
    (analyze_reviews (lit question) reviews (lit "Chicken Biryani") (lit "24h")).

(** What a response says without naming a review: the answer, the number of
    identifiers, the window and the metadata. *)
Definition unattributed (resp : ChatResponse.t) :
    str * nat * str * list (string * MetaValue) :=
  (ChatResponse.answer resp, length (ChatResponse.reviewIdsUsed resp),
   ChatResponse.window resp, ChatResponse.metadata resp).

(** What a response says that does not depend on the order of the reviews:
    the number of identifiers, the window and the metadata. *)
Definition unquoted (resp : ChatResponse.t) :
    nat * str * list (string * MetaValue) :=
  (length (ChatResponse.reviewIdsUsed resp), ChatResponse.window resp,
   ChatResponse.metadata resp).

Arguments keywords_to_search : simpl never.
Arguments select_reviews : simpl never.
Arguments answer_parts : simpl never.
Arguments avg_rating : simpl never.

(** ** The structure of a call *)

Section analyzer_lemmas.
Context `{Lowering}.

(** On a non-empty list the call is the sequence: mean, answer lines,
    rounded mean. *)
Lemma analyze_reviews_cons question reviews dish_name window :
  reviews ≠ [] →
  analyze_reviews question reviews dish_name window =
  avg ← avg_rating reviews;
  parts ← answer_parts question dish_name window reviews avg
    (keywords_to_search question)
    (select_reviews (keywords_to_search question) reviews).1;
  rounded ← py_round1 avg;
  mret (response window parts
          (id <$> (select_reviews (keywords_to_search question) reviews).1)
          (total reviews) rounded (keywords_to_search question)).
Proof.
  intros Hne. unfold analyze_reviews.
  destruct reviews as [|r reviews]; [done|]. simpl negb. cbv iota.
  pose proof (select_reviews_ids (keywords_to_search question) (r :: reviews))
    as Hids.
  destruct (select_reviews _ _) as [relevant used_ids].
  cbn [fst snd] in *. by subst used_ids.
Qed.

Lemma analyze_reviews_Ok question reviews dish_name window resp :
  reviews ≠ [] →
  analyze_reviews question reviews dish_name window = Ok resp →
  ∃ avg parts rounded,
    avg_rating reviews = Ok avg ∧
    answer_parts question dish_name window reviews avg
      (keywords_to_search question)
      (select_reviews (keywords_to_search question) reviews).1 = Ok parts ∧
    py_round1 avg = Ok rounded ∧
    resp = response window parts
      (id <$> (select_reviews (keywords_to_search question) reviews).1)
      (total reviews) rounded (keywords_to_search question).
Proof.
  intros Hne. rewrite analyze_reviews_cons by done. intros Hresp.
  simplify_result. eauto 10.
Qed.

(** The answer lines exist whenever there is a review. *)
Lemma answer_parts_returns question dish_name window reviews avg kws relevant :
  reviews ≠ [] →
  returns (answer_parts question dish_name window reviews avg kws relevant).
Proof.
  intros Hne. unfold answer_parts.
  repeat case_match; auto using returns_Ok, recommendation_parts_returns,
    consistency_parts_returns.
Qed.

(** The identifiers collected are identifiers of input reviews, in input
    order. *)
Lemma used_ids_sublist kws reviews :
  id <$> (select_reviews kws reviews).1 `sublist_of` id <$> reviews.
Proof. apply fmap_sublist, select_reviews_sublist. Qed.

(** The answer of the keyword branch. *)
Lemma answer_parts_keyword question dish_name window reviews avg kws relevant :
  intent question kws relevant = KeywordSearch →
  answer_parts question dish_name window reviews avg kws relevant =
  Ok (keyword_parts window reviews kws relevant).
Proof.
  unfold intent, answer_parts. by repeat case_match.
Qed.

(** ** Every response is well formed *)

Lemma answer_parts_opens question dish_name window reviews avg kws relevant parts :
  answer_parts question dish_name window reviews avg kws relevant = Ok parts →
  opens parts.
Proof.
  unfold answer_parts. intros Hp.
  repeat case_match; simplify_result;
    eauto using recommendation_parts_opens, negative_parts_opens,
      consistency_parts_opens, keyword_parts_opens, summary_parts_opens.
Qed.

Lemma empty_response_well_formed dish_name window :
  well_formed (empty_response dish_name window).
Proof.
  unfold well_formed, empty_response.
  cbn [ChatResponse.answer ChatResponse.reviewIdsUsed ChatResponse.metadata].
  split_and!; [|apply Nat.le_0_l|done..]. unfold empty_answer.
  by apply lit_app_nonempty.
Qed.

Lemma response_well_formed window parts reviews rounded question :
  reviews ≠ [] → opens parts → finite64 rounded →
  well_formed (response window parts
    (id <$> (select_reviews (keywords_to_search question) reviews).1)
    (total reviews) rounded (keywords_to_search question)).
Proof.
  intros Hne Hp Hr. unfold well_formed, response.
  cbn [ChatResponse.answer ChatResponse.reviewIdsUsed ChatResponse.metadata].
  pose proof (length_slice_to 10
    (id <$> (select_reviews (keywords_to_search question) reviews).1)) as Hlen.
  split_and!; try done.
  - by apply join_opens.
  - by apply total_pos.
  - pose proof (sublist_length _ _
      (used_ids_sublist (keywords_to_search question) reviews)) as Hs.
    unfold slice_to. rewrite length_take. rewrite !length_fmap in Hs.
    rewrite length_fmap. unfold total, py_len. lia.
  - apply keywords_to_search_sublist.
Qed.

Lemma analyze_reviews_wf question reviews dish_name window resp :
  analyze_reviews question reviews dish_name window = Ok resp → well_formed resp.
Proof.
  destruct (decide (reviews = [])) as [->|Hne].
  { intros [= <-]. apply empty_response_well_formed. }
  intros (avg & parts & rounded & Havg & Hp & Hr & ->)%analyze_reviews_Ok; [|done].
  apply response_well_formed; [done|by eapply answer_parts_opens|].
  eapply py_round1_finite64; [|done]. by eapply truediv_mant_nonneg.
Qed.

(** The two shapes of the metadata of a well-formed response. *)
Lemma well_formed_metadata resp :
  well_formed resp →
  ChatResponse.metadata resp = [("reviewsAnalyzed"%string, MInt 0)] ∨
  ∃ n x kws, ChatResponse.metadata resp =
    [("reviewsAnalyzed"%string, MInt n); ("avgRating"%string, MFloat x);
     ("keywordsMatched"%string, MStrList kws)].
Proof.
  intros (_ & _ & Hm). repeat case_match; try done; naive_solver.
Qed.

(** ** The outcome of a call

    A call returns unless the division overflows, and raises nothing but
    [OverflowError]. *)
Lemma analyze_reviews_outcome question reviews dish_name window :
  match analyze_reviews question reviews dish_name window with
  | Ok resp =>
      reviews = [] ∨
      Z.abs (rating_sum reviews) < overflow_threshold * total reviews
  | Raise e =>
      e = OverflowError ∧ reviews ≠ [] ∧
      overflow_threshold * total reviews ≤ Z.abs (rating_sum reviews)
  end.
Proof.
  destruct (decide (reviews = [])) as [->|Hne]; [by left|].
  pose proof (avg_rating_returns_iff reviews) as Hret.
  rewrite analyze_reviews_cons by done.
  destruct (avg_rating reviews) as [avg|e] eqn:Havg; simpl.
  - destruct Hret as [[_ Hlt] _]; [apply returns_Ok|].
    destruct (answer_parts_returns question dish_name window reviews avg
      (keywords_to_search question)
      (select_reviews (keywords_to_search question) reviews).1 Hne) as [parts ->].
    destruct (py_round1_truediv _ _ _ Havg) as [rounded ->]. by right.
  - apply avg_rating_raises in Havg as ->; [|done]. split_and!; [done..|].
    apply Z.nlt_ge. intros Hlt. by destruct (proj2 Hret (conj Hne Hlt)).
Qed.

End analyzer_lemmas.

(** The answer lines do not depend on the lower-casing tables. *)
Lemma answer_parts_lowering_eq (L1 L2 : Lowering)
    question dish_name window reviews avg kws relevant :
  @answer_parts L1 question dish_name window reviews avg kws relevant =
  @answer_parts L2 question dish_name window reviews avg kws relevant.
Proof.
  unfold answer_parts, is_recommendation, is_negative_check, is_consistency.
  by rewrite (asks_lowering L1 L2 recommendation_words),
    (asks_lowering L1 L2 negative_words), (asks_lowering L1 L2 consistency_words)
    by eauto using recommendation_words_ascii, negative_words_ascii,
      consistency_words_ascii.
Qed.

(** ** What the analyzer reads of a review

    A map [h] of the reviews that keeps every rating and every text changes
    the response in the identifiers only; when it keeps the identifiers too
    it changes nothing. *)

Section analyzer_relabel.
Context `{Lowering} (h : ReviewData.t → ReviewData.t).
Context (h_rating : ∀ r, rating (h r) = rating r).
Context (h_text : ∀ r, text (h r) = text r).

Lemma answer_parts_relabel question dish_name window reviews avg kws relevant :
  answer_parts question dish_name window (h <$> reviews) avg kws (h <$> relevant) =
  answer_parts question dish_name window reviews avg kws relevant.
Proof.
  unfold answer_parts.
  by rewrite recommendation_parts_relabel, negative_parts_relabel,
    consistency_parts_relabel, keyword_parts_relabel, summary_parts_relabel,
    truthy_fmap.
Qed.

(** The call on the mapped reviews is the same sequence, with the
    identifiers of the mapped reviews. *)
Lemma analyze_reviews_relabel question reviews dish_name window :
  reviews ≠ [] →
  analyze_reviews question (h <$> reviews) dish_name window =
  avg ← avg_rating reviews;
  parts ← answer_parts question dish_name window reviews avg
    (keywords_to_search question)
    (select_reviews (keywords_to_search question) reviews).1;
  rounded ← py_round1 avg;
  mret (response window parts
          (id ∘ h <$> (select_reviews (keywords_to_search question) reviews).1)
          (total reviews) rounded (keywords_to_search question)).
Proof.
  intros Hne. rewrite analyze_reviews_cons by (by destruct reviews).
  rewrite avg_rating_relabel, select_reviews_relabel, total_relabel,
    <-list_fmap_compose by done.
  destruct (avg_rating reviews) as [avg|]; [simpl|done].
  by rewrite answer_parts_relabel.
Qed.

Lemma analyze_reviews_relabel_ids question reviews dish_name window :
  (∀ r, id (h r) = id r) →
  analyze_reviews question (h <$> reviews) dish_name window =
  analyze_reviews question reviews dish_name window.
Proof.
  intros h_id. destruct (decide (reviews = [])) as [->|Hne]; [done|].
  rewrite analyze_reviews_relabel, (analyze_reviews_cons _ reviews) by done.
  by rewrite (list_fmap_ext (id ∘ h) id) by (intros; apply h_id).
Qed.

Lemma analyze_reviews_relabel_view question reviews dish_name window :
  unattributed <$> analyze_reviews question (h <$> reviews) dish_name window =
  unattributed <$> analyze_reviews question reviews dish_name window.
Proof.
  destruct (decide (reviews = [])) as [->|Hne]; [done|].
  rewrite analyze_reviews_relabel, (analyze_reviews_cons _ reviews) by done.
  destruct (avg_rating reviews) as [avg|]; [simpl|done].
  destruct (answer_parts _ _ _ _ _ _ _) as [parts|]; [simpl|done].
  destruct (py_round1 avg) as [rounded|]; [simpl|done].
  unfold unattributed, response, slice_to. simpl.
  by rewrite !length_take, !length_fmap.
Qed.

End analyzer_relabel.

(** Two lists of reviews that differ in the dates at most get the same
    response. *)
Lemma analyze_reviews_same_content `{Lowering} question l1 l2 dish_name window :
  Forall2 same_content l1 l2 →
  analyze_reviews question l1 dish_name window =
  analyze_reviews question l2 dish_name window.
Proof.
  intros Hl%same_content_undated.
  transitivity (analyze_reviews question (undated <$> l1) dish_name window).
  - symmetry. by apply analyze_reviews_relabel_ids.
  - rewrite Hl. by apply analyze_reviews_relabel_ids.
Qed.

(** Two lists of reviews with the same ratings and texts get the same
    response, the identifiers apart. *)
Lemma analyze_reviews_same_words `{Lowering} question l1 l2 dish_name window :
  Forall2 same_words l1 l2 →
  unattributed <$> analyze_reviews question l1 dish_name window =
  unattributed <$> analyze_reviews question l2 dish_name window.
Proof.
  intros Hl%same_words_anonymous.
  transitivity
    (unattributed <$> analyze_reviews question (anonymous <$> l1) dish_name window).
  - symmetry. by apply analyze_reviews_relabel_view.
  - rewrite Hl. by apply analyze_reviews_relabel_view.
Qed.

(** ** The order of the reviews *)

(** Rearranging the reviews changes the quotations of the answer and the
    identifiers at most: the metadata, the window and the number of
    identifiers stay, and so does the exception. *)
Lemma analyze_reviews_perm `{Lowering} question l1 l2 dish_name window :
  l1 ≡ₚ l2 →
  unquoted <$> analyze_reviews question l1 dish_name window =
  unquoted <$> analyze_reviews question l2 dish_name window.
Proof.
  intros Hl. destruct (decide (l1 = [])) as [->|Hne].
  { by apply Permutation_nil_l in Hl as ->. }
  assert (l2 ≠ []) as Hne' by (intros ->; by apply Permutation_nil_r in Hl).
  rewrite !analyze_reviews_cons by done. rewrite Hl.
  destruct (avg_rating l2) as [avg|]; [simpl|done].
  destruct (answer_parts_returns question dish_name window l1 avg
    (keywords_to_search question)
    (select_reviews (keywords_to_search question) l1).1) as [p1 ->]; [done|].
  destruct (answer_parts_returns question dish_name window l2 avg
    (keywords_to_search question)
    (select_reviews (keywords_to_search question) l2).1) as [p2 ->]; [done|].
  simpl. destruct (py_round1 avg); [simpl|done].
  unfold unquoted, response, slice_to.
  cbn [ChatResponse.reviewIdsUsed ChatResponse.window ChatResponse.metadata].
  by rewrite (total_perm _ _ Hl), !length_take, !length_fmap,
    (select_reviews_perm _ _ _ Hl).
Qed.

(** ** Main results *)

Section analyzer_theorems.
Context `{Lowering}.

(** C1: [analyze_reviews] returns a response exactly when the list of
    reviews is empty or the magnitude of the sum of the ratings is below
    [(2^1024 - 2^970)] times their number, the overflow threshold of the
    float division; the question, the dish name and the window play no
    part. *)
Theorem analyze_reviews_returns_iff question reviews dish_name window :
  returns (analyze_reviews question reviews dish_name window) ↔
  reviews = [] ∨
  Z.abs (rating_sum reviews) < overflow_threshold * total reviews.
Proof.
  pose proof (analyze_reviews_outcome question reviews dish_name window) as Hout.
  destruct (analyze_reviews _ _ _ _) as [resp|e].
  - split; [done|intros _; apply returns_Ok].
  - destruct Hout as (_ & Hne & Hge). split; [by intros [? ?]|].
    intros [?|?]; [done|lia].
Qed.

(** C2: on every list of reviews whose ratings are between 1 and 5 (fewer
    than [2^1020] of them), empty or not, and for every question, dish name
    and window, [analyze_reviews] returns a response: no call it makes
    raises. *)
Theorem analyze_reviews_total question reviews dish_name window :
  star_ratings reviews → total reviews < 2 ^ 1020 →
  returns (analyze_reviews question reviews dish_name window).
Proof.
  intros Hstars Hlen. destruct (decide (reviews = [])) as [->|Hne].
  { apply returns_Ok. }
  rewrite analyze_reviews_cons by done.
  destruct (avg_rating_returns_stars reviews Hne Hstars Hlen) as [avg Havg].
  destruct (answer_parts_returns question dish_name window reviews avg
    (keywords_to_search question)
    (select_reviews (keywords_to_search question) reviews).1 Hne) as [parts Hp].
  destruct (avg_rating_round_returns reviews avg Hstars Havg) as [rounded Hr].
  rewrite Havg. simpl. rewrite Hp. simpl. rewrite Hr. apply returns_Ok.
Qed.

(** C3: the response lists at most 10 review identifiers, and they are
    identifiers of input reviews in input order: the first ten identifiers
    of the reviews selected by the keywords of the question. *)
Theorem analyze_reviews_ids question reviews dish_name window resp :
  analyze_reviews question reviews dish_name window = Ok resp →
  (length (ChatResponse.reviewIdsUsed resp) ≤ 10)%nat ∧
  ChatResponse.reviewIdsUsed resp `sublist_of` (id <$> reviews) ∧
  ChatResponse.reviewIdsUsed resp =
    take 10 (id <$> (select_reviews (keywords_to_search question) reviews).1).
Proof.
  destruct (decide (reviews = [])) as [->|Hne].
  { intros [= <-]. rewrite select_reviews_empty.
    split_and!; [apply Nat.le_0_l|apply sublist_nil_l|done]. }
  intros (avg & parts & rounded & _ & _ & _ & ->)%analyze_reviews_Ok; [|done].
  unfold response. cbn [ChatResponse.reviewIdsUsed].
  split_and!; [apply length_slice_to| |done].
  etrans; [apply sublist_take|apply used_ids_sublist].
Qed.

(** C5: for an empty list of reviews the response is the fixed message with
    the dish name and the window, no identifier, and the metadata
    [{"reviewsAnalyzed": 0}], whatever the question. *)
Theorem analyze_reviews_empty question dish_name window :
  analyze_reviews question [] dish_name window =
  Ok (ChatResponse.mk
        (lit "No reviews found for " ++ dish_name ++ lit " in the last " ++
         window ++ lit ". Be the first to leave a review!")
        [] window [("reviewsAnalyzed"%string, MInt 0)]).
Proof. done. Qed.

(** C6: for a non-empty list the response echoes the window and its
    metadata holds, in this order, the number of input reviews, the float
    mean of the ratings rounded to one decimal, and the keywords found in
    the question. *)
Theorem analyze_reviews_metadata question reviews dish_name window resp :
  reviews ≠ [] →
  analyze_reviews question reviews dish_name window = Ok resp →
  ChatResponse.window resp = window ∧
  ∃ avg rounded,
    truediv (py_sum (rating <$> reviews)) (Z.of_nat (length reviews)) = Ok avg ∧
    py_round1 avg = Ok rounded ∧
    ChatResponse.metadata resp =
      [("reviewsAnalyzed"%string, MInt (Z.of_nat (length reviews)));
       ("avgRating"%string, MFloat rounded);
       ("keywordsMatched"%string, MStrList (keywords_to_search question))].
Proof.
  intros Hne (avg & parts & rounded & ? & _ & ? & ->)%analyze_reviews_Ok; [|done].
  split; [done|]. by exists avg, rounded.
Qed.


(** C9: the response does not depend on the case of the ASCII letters of
    the question. *)
Theorem analyze_reviews_case question question' reviews dish_name window :
  ascii_lower question = ascii_lower question' →
  analyze_reviews question reviews dish_name window =
  analyze_reviews question' reviews dish_name window.
Proof.
  intros Heq. unfold analyze_reviews.
  rewrite (keywords_to_search_case question question') by done.
  unfold answer_parts, is_recommendation, is_negative_check, is_consistency.
  by rewrite (asks_case recommendation_words question question'),
    (asks_case negative_words question question'),
    (asks_case consistency_words question question')
    by eauto using recommendation_words_ascii, negative_words_ascii,
      consistency_words_ascii.
Qed.

(** C10: the only exception [analyze_reviews] can raise is [OverflowError],
    and only on a non-empty list: the division is never by zero and [max]
    and [min] are never called on an empty sequence. *)
Theorem analyze_reviews_raises question reviews dish_name window e :
  analyze_reviews question reviews dish_name window = Raise e →
  e = OverflowError ∧ reviews ≠ [].
Proof.
  intros Hraise.
  pose proof (analyze_reviews_outcome question reviews dish_name window) as Hout.
  rewrite Hraise in Hout. by destruct Hout as (? & ? & _).
Qed.

(** C4: every response [analyze_reviews] returns is well formed: the answer
    is not empty, there are at most ten identifiers and no more than reviews
    analysed, the metadata is [{reviewsAnalyzed: 0}] or the three entries
    [reviewsAnalyzed] (positive), [avgRating] (a binary64 value) and
    [keywordsMatched] (vocabulary words in vocabulary order), and it is the
    single entry exactly when there is no review. *)
Theorem analyze_reviews_well_formed question reviews dish_name window resp :
  analyze_reviews question reviews dish_name window = Ok resp →
  well_formed resp ∧
  (ChatResponse.metadata resp = [("reviewsAnalyzed"%string, MInt 0)] ↔
   reviews = []).
Proof.
  intros Hresp. split; [by eapply analyze_reviews_wf|].
  destruct (decide (reviews = [])) as [->|Hne]; [by injection Hresp as <-|].
  by apply analyze_reviews_Ok in Hresp as (? & ? & ? & _ & _ & _ & ->).
Qed.

(** C30: when the chain reaches the keyword branch, the answer is the header
    followed by quotations of the first four reviews whose lower-cased text
    holds a keyword of the question, in input order; the identifiers
    returned are those of the first ten such reviews, so every review quoted
    is one whose identifier is returned. *)
Theorem keyword_answer question reviews dish_name window resp :
  let kws := keywords_to_search question in
  let relevant := filter (λ r, mentions kws r) reviews in
  intent question kws (select_reviews kws reviews).1 = KeywordSearch →
  analyze_reviews question reviews dish_name window = Ok resp →
  kws ≠ [] ∧ relevant ≠ [] ∧
  ChatResponse.answer resp =
    join newline (keyword_header window reviews kws relevant ::
                  (quote_line 150 <$> take 4 relevant)) ∧
  ChatResponse.reviewIdsUsed resp = id <$> take 10 relevant ∧
  Forall (λ r, ∃ kw, kw ∈ kws ∧ substring kw (ascii_lower (text r))) relevant ∧
  ∀ r, r ∈ take 4 relevant → id r ∈ ChatResponse.reviewIdsUsed resp.
Proof.
  intros kws relevant Hint Hresp.
  pose proof Hint as (_ & _ & _ & Hk & Hrel)%intent_keyword_search.
  rewrite select_reviews_filter in Hint, Hrel by done. cbn [fst] in Hint, Hrel.
  assert (reviews ≠ []) as Hne by (by intros ->).
  apply analyze_reviews_Ok in Hresp as (avg & parts & rounded & _ & Hp & _ & ->);
    [|done].
  rewrite select_reviews_filter in Hp |- * by done. cbn [fst] in Hp |- *.
  rewrite answer_parts_keyword in Hp by done. injection Hp as <-.
  unfold response. cbn [ChatResponse.answer ChatResponse.reviewIdsUsed].
  split_and!; [done..| | |].
  - unfold slice_to. by rewrite fmap_take.
  - apply Forall_forall. intros r [Hr _]%list_elem_of_filter.
    by apply mentions_spec in Hr; [|apply keywords_to_search_sublist].
  - intros r Hr. unfold slice_to. rewrite <-fmap_take.
    apply list_elem_of_fmap_2. apply elem_of_take in Hr as (i & Hr & Hi).
    apply elem_of_take. exists i. split; [done|lia].
Qed.

(** C11: the response does not depend on the dates of the reviews: two
    lists of reviews that agree, position by position, on the identifier,
    the rating and the text get the same response or the same exception,
    whatever [createdAt] holds. *)
Theorem analyze_reviews_createdAt question l1 l2 dish_name window :
  Forall2 same_content l1 l2 →
  analyze_reviews question l1 dish_name window =
  analyze_reviews question l2 dish_name window.
Proof. apply analyze_reviews_same_content. Qed.

(** C12: the identifiers of the reviews only name them: two lists of reviews
    that agree, position by position, on the rating and the text get the
    same answer, the same window, the same metadata and the same number of
    identifiers, or the same exception. *)
Theorem analyze_reviews_anonymous question l1 l2 dish_name window :
  Forall2 same_words l1 l2 →
  unattributed <$> analyze_reviews question l1 dish_name window =
  unattributed <$> analyze_reviews question l2 dish_name window.
Proof. apply analyze_reviews_same_words. Qed.

(** C13: the order of the reviews matters for the quotations only:
    rearranging the reviews leaves the metadata (number of reviews, rounded
    mean, keywords), the window and the number of identifiers returned
    unchanged, and the call raises on one list exactly when it raises on the
    other. *)
Theorem analyze_reviews_order question l1 l2 dish_name window :
  l1 ≡ₚ l2 →
  unquoted <$> analyze_reviews question l1 dish_name window =
  unquoted <$> analyze_reviews question l2 dish_name window.
Proof. apply analyze_reviews_perm. Qed.

End analyzer_theorems.

(** ** The theorems at sample requests *)

Lemma analyze_reviews_total_witness :
  returns (analyze_reviews (lit "Is it good?") Sample.mixed (lit "Biryani")
             (lit "24h")).
Proof. apply analyze_reviews_total; [by_compute|by vm_compute]. Defined.

Lemma analyze_reviews_ids_witness :
  (length (ChatResponse.reviewIdsUsed (sample_response "How is it?" Sample.many))
     ≤ 10)%nat ∧
  ChatResponse.reviewIdsUsed (sample_response "How is it?" Sample.many)
    `sublist_of` (id <$> Sample.many) ∧
  ChatResponse.reviewIdsUsed (sample_response "How is it?" Sample.many) =
    take 10 (id <$> (select_reviews (keywords_to_search (lit "How is it?"))
                       Sample.many).1).
Proof.
  apply (analyze_reviews_ids (lit "How is it?") Sample.many
           (lit "Chicken Biryani") (lit "24h")). by vm_compute.
Defined.

Lemma analyze_reviews_well_formed_witness :
  well_formed (sample_response "Is it too Spicy?" Sample.mixed) ∧
  (ChatResponse.metadata (sample_response "Is it too Spicy?" Sample.mixed) =
     [("reviewsAnalyzed"%string, MInt 0)] ↔ Sample.mixed = []).
Proof.
  apply (analyze_reviews_well_formed (lit "Is it too Spicy?") Sample.mixed
           (lit "Chicken Biryani") (lit "24h")). by vm_compute.
Defined.

Lemma keyword_answer_witness :
  let question := lit "Is it too Spicy?" in
  let resp := sample_response "Is it too Spicy?" Sample.mixed in
  let kws := keywords_to_search question in
  let relevant := filter (λ r, mentions kws r) Sample.mixed in
  kws ≠ [] ∧ relevant ≠ [] ∧
  ChatResponse.answer resp =
    join newline (keyword_header (lit "24h") Sample.mixed kws relevant ::
                  (quote_line 150 <$> take 4 relevant)) ∧
  ChatResponse.reviewIdsUsed resp = id <$> take 10 relevant ∧
  Forall (λ r, ∃ kw, kw ∈ kws ∧ substring kw (ascii_lower (text r))) relevant ∧
  ∀ r, r ∈ take 4 relevant → id r ∈ ChatResponse.reviewIdsUsed resp.
Proof.
  apply (keyword_answer (lit "Is it too Spicy?") Sample.mixed
           (lit "Chicken Biryani") (lit "24h")); by vm_compute.
Defined.

Lemma analyze_reviews_metadata_witness :
  ChatResponse.window (sample_response "Is it too Spicy?" Sample.mixed) =
    lit "24h" ∧
  ∃ avg rounded,
    truediv (py_sum (rating <$> Sample.mixed))
      (Z.of_nat (length Sample.mixed)) = Ok avg ∧
    py_round1 avg = Ok rounded ∧
    ChatResponse.metadata (sample_response "Is it too Spicy?" Sample.mixed) =
      [("reviewsAnalyzed"%string, MInt (Z.of_nat (length Sample.mixed)));
       ("avgRating"%string, MFloat rounded);
       ("keywordsMatched"%string,
        MStrList (keywords_to_search (lit "Is it too Spicy?")))].
Proof.
  apply (analyze_reviews_metadata (lit "Is it too Spicy?") Sample.mixed
           (lit "Chicken Biryani") (lit "24h")); by vm_compute.
Defined.

Lemma analyze_reviews_createdAt_witness :
  analyze_reviews (lit "Is it too spicy?")
    [ReviewData.mk (lit "r1") 5 (lit "Spicy and fresh") (lit "2024-05-01");
     ReviewData.mk (lit "r2") 2 (lit "Too oily") (lit "2024-05-02")]
    (lit "Biryani") (lit "24h") =
  analyze_reviews (lit "Is it too spicy?")
    [ReviewData.mk (lit "r1") 5 (lit "Spicy and fresh") (lit "yesterday");
     ReviewData.mk (lit "r2") 2 (lit "Too oily") []]
    (lit "Biryani") (lit "24h").
Proof. apply analyze_reviews_createdAt. by_compute. Defined.

Lemma analyze_reviews_anonymous_witness :
  unattributed <$> analyze_reviews (lit "Is it too spicy?")
    [ReviewData.mk (lit "r1") 5 (lit "Spicy and fresh") (lit "2024-05-01");
     ReviewData.mk (lit "r2") 2 (lit "Too oily") (lit "2024-05-02")]
    (lit "Biryani") (lit "24h") =
  unattributed <$> analyze_reviews (lit "Is it too spicy?")
    [ReviewData.mk (lit "a") 5 (lit "Spicy and fresh") [];
     ReviewData.mk (lit "b") 2 (lit "Too oily") []]
    (lit "Biryani") (lit "24h").
Proof. apply analyze_reviews_anonymous. by_compute. Defined.

Lemma analyze_reviews_order_witness :
  unquoted <$> analyze_reviews (lit "Is it too spicy?") Sample.mixed
    (lit "Biryani") (lit "24h") =
  unquoted <$> analyze_reviews (lit "Is it too spicy?") (reverse Sample.mixed)
    (lit "Biryani") (lit "24h").
Proof. apply analyze_reviews_order. by rewrite reverse_Permutation. Defined.

Lemma analyze_reviews_case_witness :
  analyze_reviews (lit "IS IT TOO SPICY?") Sample.mixed (lit "Biryani") (lit "24h") =
  analyze_reviews (lit "is it too spicy?") Sample.mixed (lit "Biryani") (lit "24h").
Proof. apply analyze_reviews_case. by vm_compute. Defined.

Lemma analyze_reviews_raises_witness :
  OverflowError = OverflowError ∧ [Sample.review "big" (2 ^ 1024) "Great"] ≠ [].
Proof.
  apply (analyze_reviews_raises (lit "Is it good?")
           [Sample.review "big" (2 ^ 1024) "Great"] (lit "Biryani") (lit "24h")).
  by vm_compute.
Defined.

(** C8: the response does not depend on how the platform lower-cases
    non-ASCII text: any two implementations of [str.lower] that agree with
    Unicode on the code points whose lower case holds an ASCII character
    give the same response. *)
Theorem analyze_reviews_lowering (L1 L2 : Lowering)
    question reviews dish_name window :
  @analyze_reviews L1 question reviews dish_name window =
  @analyze_reviews L2 question reviews dish_name window.
Proof.
  unfold analyze_reviews.
  rewrite (keywords_to_search_lowering L1 L2).
  rewrite (select_reviews_lowering L1 L2)
    by apply (@keywords_to_search_sublist L2).
  destruct (negb (truthy reviews)); [done|].
  destruct (avg_rating reviews) as [avg|e]; [simpl|done].
  destruct (select_reviews _ _) as [relevant used_ids].
  by rewrite (answer_parts_lowering_eq L1 L2).
Qed.

(** ** The request boundary *)

(** The endpoint analyzes the fields of the validated request: the
    question as sent, and the defaults ["this dish"], ["24h"] and the empty
    list for the fields the body leaves out. *)
Theorem chat_make `{Lowering} d q w n rs request :
  ChatRequest.make d q w n rs = Ok request →
  chat request =
  analyze_reviews q (default [] rs) (default (lit "this dish") n)
    (default (lit "24h") w).
Proof.
  intros (_ & Hq & Hw & Hn & Hrs)%make_Ok. unfold chat.
  by rewrite Hq, Hw, Hn, Hrs.
Qed.

Lemma chat_make_witness :
  chat (ChatRequest.mk (lit "dish-1") (lit "Is it good?") (lit "24h")
          (lit "this dish") []) =
  analyze_reviews (lit "Is it good?") (default [] None)
    (default (lit "this dish") None) (default (lit "24h") None).
Proof.
  apply (chat_make (lit "dish-1") (lit "Is it good?") None None None).
  by vm_compute.
Defined.

(** ** Scenarios *)

(** A single review whose rating is [2^1024] makes the division of
    line 40 raise [OverflowError], whatever the question: the code does not
    bound the ratings. *)
Example analyze_reviews_overflow `{Lowering} question dish_name window :
  analyze_reviews question [Sample.review "big" (2 ^ 1024) "Great"]
    dish_name window = Raise OverflowError.
Proof. by rewrite analyze_reviews_cons. Qed.

(** Ratings 5, 4, 2 and a question without intent word or keyword give
    the default summary: mean 3.7, the bucket line, the first review of at
    least 4 stars as latest positive, all three identifiers, and the mean
    rounded to the double nearest to 3.7. *)
Example summary_scenario :
  analyze_reviews (lit "What do people think?") Sample.mixed
    (lit "Chicken Biryani") (lit "24h") =
  Ok (ChatResponse.mk
        (lit "Here's a summary of **Chicken Biryani** (3 reviews, last 24h):" ++
         newline ++ lit "- Average rating: **3.7/5**" ++
         newline ++ lit "- ⭐5: 1 | ⭐4: 1 | ⭐3: 0 | ⭐1-2: 1" ++
         newline ++ newline ++ lit "> Latest positive: *" ++ dquote ++
         lit "Loved the biryani, perfectly Spicy and fresh" ++ dquote ++
         lit "* — ⭐5/5")
        [lit "r1"; lit "r2"; lit "r3"] (lit "24h")
        [("reviewsAnalyzed"%string, MInt 3);
         ("avgRating"%string, MFloat (mkfloat false 8331659310635418 (-51)));
         ("keywordsMatched"%string, MStrList [])]).
Proof. by vm_compute. Qed.

(** The question "Is it too Spicy?" matches the keyword "spicy" only,
    selects the one review whose text mentions it in any case, and gets the
    keyword answer. *)
Example spicy_scenario :
  analyze_reviews (lit "Is it too Spicy?") Sample.mixed
    (lit "Chicken Biryani") (lit "24h") =
  Ok (ChatResponse.mk
        (lit "Found 1 review(s) mentioning **spicy** out of 3 total (last 24h):" ++
         newline ++ newline ++ lit "> *" ++ dquote ++
         lit "Loved the biryani, perfectly Spicy and fresh" ++ dquote ++
         lit "* — ⭐5/5")
        [lit "r1"] (lit "24h")
        [("reviewsAnalyzed"%string, MInt 3);
         ("avgRating"%string, MFloat (mkfloat false 8331659310635418 (-51)));
         ("keywordsMatched"%string, MStrList [lit "spicy"])]).
Proof. by vm_compute. Qed.

(** Ratings 4, 5, 5, 4 (spread 1) get the "very consistent" answer and
    ratings 2, 5, 3, 4 (spread 3) the "quality varies" answer. *)
Example consistency_scenarios :
  ChatResponse.answer (sample_response "Is it consistent?" Sample.steady) =
    lit "**Chicken Biryani is very consistent!** All 4 recent ratings are between 4 and 5 stars (avg 4.5/5)." ∧
  ChatResponse.answer (sample_response "Is it consistent?" Sample.uneven) =
    lit "**Quality varies.** Ratings range from 2 to 5 stars (avg 3.5/5) across 4 reviews.".
Proof. by vm_compute. Qed.

(** The identifiers returned are those of the reviews that mention a
    keyword of the question, not those of the reviews the answer quotes: the
    question "Anything bad?" quotes the 1-star review [a] and returns the
    identifier of [b] only. *)
Example negative_quote_outside_ids :
  analyze_reviews (lit "Anything bad?")
    [Sample.review "a" 1 "Cold and late"; Sample.review "b" 5 "Not bad at all"]
    (lit "Dal") (lit "24h") =
  Ok (ChatResponse.mk
        (lit "Found 1 negative review(s) out of 2 in the last 24h:" ++
         newline ++ newline ++ lit "> *" ++ dquote ++ lit "Cold and late" ++
         dquote ++ lit "* — ⭐1/5")
        [lit "b"] (lit "24h")
        [("reviewsAnalyzed"%string, MInt 2);
         ("avgRating"%string, MFloat (mkfloat false 6755399441055744 (-51)));
         ("keywordsMatched"%string, MStrList [lit "bad"])]).
Proof. by vm_compute. Qed.
