(* ===== verification/Wire.v ===== *)
(** * Wire: the models of [src/llm-service/main.py] on the wire

    The annotations of the three models (lines 7-26) say how a body is read
    and a response written.  [decode_review] and [decode_request] are the
    validation of a parsed body against [ReviewData] and [ChatRequest]:
    every key of a field declared with [Field(...)] or without a default
    must be present, the keys of the fields with a default may be absent,
    other keys are ignored, and the field constraints are those of
    [ChatRequest.make].  [encode_response] is the response written from a
    [ChatResponse] ([response_model=ChatResponse], line 162).  [body_of] and
    [encode_request] are the bodies a client sends.

    The theorems: a body built by a client decodes to the request it was
    built from; a malformed body is rejected with [ValidationError] whatever
    the casting table; a body the strict table accepts is read alike by
    every table; a well-formed response written as a body and read back by
    [decode_response] is the same response, so the encoding loses
    nothing. *)

From stdpp Require Import strings gmap.
From S2P Require Import Prelude PySeq PyStr PyFloat PyDecimal Json Schema Stats.
From S2P Require Import Keywords Intent Render Analyzer.

Local Open Scope Z_scope.

Implicit Types (j body : json) (o : gmap string json) (d q : str)
  (w n : option str) (rs : option (list ReviewData.t)).

Section decode.
Context `{Casting}.

(** [class ReviewData(BaseModel)]: four required fields. *)
Definition decode_review (j : json) : result ReviewData.t :=
  match j with
  | JObj o =>
      id ← required decode_str "id" o;
      rating ← required decode_int "rating" o;
      text ← required decode_str "text" o;
      createdAt ← required decode_str "createdAt" o;
      mret (ReviewData.mk id rating text createdAt)
  | _ => Raise ValidationError
  end.

(** [class ChatRequest(BaseModel)]: two required fields, three with a
    default, then the constraints. *)
Definition decode_request (body : json) : result ChatRequest.t :=
  match body with
  | JObj o =>
      d ← required decode_str "dishAtRestaurantId" o;
      q ← required decode_str "question" o;
      w ← optional decode_str "window" o;
      n ← optional decode_str "dishName" o;
      rs ← optional (decode_list decode_review) "reviews" o;
      ChatRequest.make d q w n rs
  | _ => Raise ValidationError
  end.

End decode.

(** A review as a client writes it. *)
Definition encode_review (r : ReviewData.t) : json :=
  JObj (list_to_map
    [("id", JStr (ReviewData.id r)); ("rating", JInt (ReviewData.rating r));
     ("text", JStr (ReviewData.text r));
     ("createdAt", JStr (ReviewData.createdAt r))]).

(** The entry of a field that the body may leave out. *)
Definition entry (k : string) (v : option json) : list (string * json) :=
  match v with Some j => [(k, j)] | None => [] end.

(** The body of a client that sends the two required fields and those of
    the three others it has a value for. *)
Definition body_of d q w n rs : json :=
  JObj (list_to_map
    ([("dishAtRestaurantId", JStr d); ("question", JStr q)] ++
     entry "window" (JStr <$> w) ++ entry "dishName" (JStr <$> n) ++
     entry "reviews" ((λ l, JArr (encode_review <$> l)) <$> rs))).

(** The values of [metadata]. *)
Definition encode_meta (v : MetaValue) : json :=
  match v with
  | MInt z => JInt z
  | MFloat x => JFloat x
  | MStrList l => JArr (JStr <$> l)
  end.

(** [response_model=ChatResponse]: the four fields of the response. *)
Definition encode_response (resp : ChatResponse.t) : json :=
  JObj (list_to_map
    [("answer", JStr (ChatResponse.answer resp));
     ("reviewIdsUsed", JArr (JStr <$> ChatResponse.reviewIdsUsed resp));
     ("window", JStr (ChatResponse.window resp));
     ("metadata",
      JObj (list_to_map (prod_map id encode_meta <$> ChatResponse.metadata resp)))]).

(** The body a client sends for a request model: every field present. *)
Definition encode_request (r : ChatRequest.t) : json :=
  body_of (ChatRequest.dishAtRestaurantId r) (ChatRequest.question r)
    (Some (ChatRequest.window r)) (Some (ChatRequest.dishName r))
    (Some (ChatRequest.reviews r)).

(** What a client makes of the reply: a string is read from a JSON string
    and nothing else. *)
Definition read_str : json → result str := @decode_str strict_casting.

(** A value of the metadata, from the three shapes [encode_meta] writes. *)
Definition decode_meta (j : json) : result MetaValue :=
  match j with
  | JInt z => Ok (MInt z)
  | JFloat x => Ok (MFloat x)
  | JArr l => MStrList <$> mapM read_str l
  | _ => Raise ValidationError
  end.

(** The keys of the metadata, in the order in which the analyzer inserts
    them (lines 154-158). *)
Definition metadata_keys : list string :=
  ["reviewsAnalyzed"; "avgRating"; "keywordsMatched"].

(** The metadata read back in insertion order: a JSON object does not keep
    the order of its keys, the data model does. *)
Definition decode_metadata (j : json) : result (list (string * MetaValue)) :=
  match j with
  | JObj o =>
      mapM (λ kv, pair kv.1 <$> decode_meta kv.2)
        (omap (λ k, pair k <$> o !! k) metadata_keys)
  | _ => Raise ValidationError
  end.

(** The response read from the body of a reply. *)
Definition decode_response (j : json) : result ChatResponse.t :=
  match j with
  | JObj o =>
      answer ← required read_str "answer" o;
      reviewIdsUsed ← required (decode_list read_str) "reviewIdsUsed" o;
      window ← required read_str "window" o;
      metadata ← required decode_metadata "metadata" o;
      mret (ChatResponse.mk answer reviewIdsUsed window metadata)
  | _ => Raise ValidationError
  end.

(** The malformed items of [reviews]: not an object, a field missing, or
    [null], an array or an object where a string or an integer is
    declared. *)
Inductive malformed_review : json → Prop :=
| review_not_object j : (∀ o, j ≠ JObj o) → malformed_review j
| review_missing o k :
    k ∈ ["id"; "rating"; "text"; "createdAt"] → o !! k = None →
    malformed_review (JObj o)
| review_not_scalar o k j :
    k ∈ ["id"; "rating"; "text"; "createdAt"] → o !! k = Some j → ¬ scalar j →
    malformed_review (JObj o).

(** The malformed bodies: not an object, a required field missing, a field
    that is no scalar, [reviews] that is no array or holds a malformed item,
    an empty identifier or a question out of bounds. *)
Inductive malformed : json → Prop :=
| body_not_object j : (∀ o, j ≠ JObj o) → malformed j
| body_missing o k :
    k ∈ ["dishAtRestaurantId"; "question"] → o !! k = None → malformed (JObj o)
| body_not_scalar o k j :
    k ∈ ["dishAtRestaurantId"; "question"; "window"; "dishName"] →
    o !! k = Some j → ¬ scalar j → malformed (JObj o)
| body_reviews_not_array o j :
    o !! "reviews" = Some j → (∀ l, j ≠ JArr l) → malformed (JObj o)
| body_review o l j :
    o !! "reviews" = Some (JArr l) → j ∈ l → malformed_review j →
    malformed (JObj o)
| body_constraints o d q :
    o !! "dishAtRestaurantId" = Some (JStr d) → o !! "question" = Some (JStr q) →
    ¬ (d ≠ [] ∧ 1 ≤ length q ≤ 500)%nat → malformed (JObj o).

(** [validation_only] shows that a chain of field decoders raises nothing
    but [ValidationError]. *)
Ltac validation_only :=
  repeat match goal with
  | H : _ ≫= _ = Raise _ |- _ => apply bind_Raise in H as [H|(? & _ & H)]
  | H : required _ _ _ = Raise _ |- _ =>
      by eapply required_Raise; [|exact H]; eauto with py
  | H : optional _ _ _ = Raise _ |- _ =>
      by eapply optional_Raise; [|exact H]; eauto with py
  | H : ChatRequest.make _ _ _ _ _ = Raise _ |- _ => by eapply make_raises
  | H : mret _ = Raise _ |- _ => inversion H
  end.

(** ** Decoding what a client encodes *)

Section roundtrip.
Context `{Casting}.

Lemma decode_encode_review r : decode_review (encode_review r) = Ok r.
Proof.
  destruct r as [i s t c]. unfold decode_review, encode_review, required.
  cbn [list_to_map foldr uncurry fst snd ReviewData.id ReviewData.rating
       ReviewData.text ReviewData.createdAt].
  simplify_map_eq. by rewrite !decode_str_str, decode_int_int.
Qed.

Lemma decode_encode_reviews l :
  decode_list decode_review (JArr (encode_review <$> l)) = Ok l.
Proof. apply mapM_fmap_Ok, decode_encode_review. Qed.

Lemma decode_request_body_of d q w n rs :
  decode_request (body_of d q w n rs) = ChatRequest.make d q w n rs.
Proof.
  unfold decode_request, body_of, required, optional.
  destruct w, n, rs;
    cbn [list_to_map foldr uncurry fst snd app entry fmap option_fmap
         option_map];
    simplify_map_eq;
    by rewrite ?decode_str_str,
      ?(mapM_fmap_Ok decode_review encode_review) by apply decode_encode_review.
Qed.

(** ** The only error is [ValidationError] *)

Lemma decode_review_only : only_validation decode_review.
Proof. intros [] e He; try naive_solver. simpl in He. validation_only. Qed.

Lemma decode_request_only : only_validation decode_request.
Proof.
  pose proof decode_review_only.
  intros [] e He; try naive_solver. simpl in He. validation_only.
Qed.

(** A request written as a body and read back. *)
Lemma decode_encode_request (r : ChatRequest.t) :
  ChatRequest.dishAtRestaurantId r ≠ [] →
  (1 ≤ length (ChatRequest.question r) ≤ 500)%nat →
  decode_request (encode_request r) = Ok r.
Proof.
  intros Hd Hq. unfold encode_request. rewrite decode_request_body_of.
  destruct (proj2 (make_returns_bounds (ChatRequest.dishAtRestaurantId r)
    (ChatRequest.question r) (Some (ChatRequest.window r))
    (Some (ChatRequest.dishName r)) (Some (ChatRequest.reviews r))))
    as [r' Hr']; [done|].
  rewrite Hr'. apply make_Ok in Hr' as (? & ? & ? & ? & ?).
  destruct r, r'; simplify_eq/=. done.
Qed.

End roundtrip.

(** ** A body the strict table accepts *)

Lemma decode_review_strict `{Casting} :
  accepts_less (@decode_review strict_casting) decode_review.
Proof.
  intros [] r; try done. simpl. intros Hr. simplify_result.
  repeat match goal with
  | H : required decode_str _ _ = Ok _ |- _ =>
      apply (required_accepts_less _ decode_str _ _ _ strict_str_accepts_less) in H;
      rewrite H; clear H
  | H : required decode_int _ _ = Ok _ |- _ =>
      apply (required_accepts_less _ decode_int _ _ _ strict_int_accepts_less) in H;
      rewrite H; clear H
  end. done.
Qed.

#[export] Hint Resolve decode_review_strict : py.

Lemma decode_request_strict_less `{Casting} :
  accepts_less (@decode_request strict_casting) decode_request.
Proof.
  intros [] r; try done. simpl. intros Hr. simplify_result.
  repeat match goal with
  | H : required _ _ _ = Ok _ |- _ =>
      eapply required_accepts_less in H; [rewrite H; clear H|eauto with py]
  | H : optional _ _ _ = Ok _ |- _ =>
      eapply optional_accepts_less in H; [rewrite H; clear H|eauto with py]
  end. done.
Qed.

(** ** Malformed bodies are rejected *)

Section rejects.
Context `{Casting}.

Lemma decode_review_well_formed j r :
  decode_review j = Ok r → ¬ malformed_review j.
Proof.
  intros Hr Hbad. destruct Hbad as [j Hj|o k Hk Hnone|o k j Hk Hj Hs].
  - destruct j; try done. by eapply Hj.
  - simpl in Hr. simplify_result.
    repeat match goal with
    | H : required _ _ _ = Ok _ |- _ => apply required_Ok in H as (? & ? & ?)
    end.
    set_unfold. naive_solver.
  - simpl in Hr. simplify_result.
    repeat match goal with
    | H : required _ _ _ = Ok _ |- _ => apply required_Ok in H as (? & ? & ?)
    | H : decode_str _ = Ok _ |- _ => apply decode_str_Ok in H
    | H : decode_int _ = Ok _ |- _ => apply decode_int_Ok in H
    end.
    set_unfold. naive_solver.
Qed.

Lemma decode_request_well_formed body r :
  decode_request body = Ok r → ¬ malformed body.
Proof.
  intros Hr Hbad.
  destruct Hbad as [j Hj|o k Hk Hnone|o k j Hk Hj Hs|o j Hj Ha|o l j Hl Hj Hbad|
                    o d q Hd Hq Hc].
  { destruct j; try done. by eapply Hj. }
  all: simpl in Hr; simplify_result;
    repeat match goal with
    | H : required _ _ _ = Ok _ |- _ => apply required_Ok in H as (? & ? & ?)
    end.
  - set_unfold. naive_solver.
  - repeat match goal with
    | H : optional _ ?k _ = Ok _ |- _ => apply optional_Ok in H
    end.
    set_unfold. destruct Hk as [?|[?|[?|[?|[]]]]]; subst k;
      repeat match goal with
      | H : match o !! ?k with _ => _ end |- _ =>
          rewrite Hj in H; destruct H as (? & ? & _)
      end; simplify_eq; by eapply Hs, decode_str_Ok.
  - match goal with H : optional (decode_list _) _ _ = Ok _ |- _ =>
      apply optional_Ok in H; rewrite Hj in H; destruct H as (? & Hl & _) end.
    apply decode_list_Ok in Hl as (? & ? & _). by eapply Ha.
  - match goal with H : optional (decode_list _) _ _ = Ok _ |- _ =>
      apply optional_Ok in H; rewrite Hl in H; destruct H as (rs & Hrs & _) end.
    apply decode_list_Ok in Hrs as (? & [= <-] & Hall).
    apply list_elem_of_lookup in Hj as [i Hi].
    destruct (Forall2_lookup_l _ _ _ _ _ Hall Hi) as (r' & _ & Hr').
    by eapply decode_review_well_formed.
  - simplify_eq. rewrite !decode_str_str in *. simplify_eq.
    pose proof (ex_intro _ r Hr : returns _) as Hret.
    by apply make_returns_bounds in Hret.
Qed.
(** So a malformed body raises, and only the validation error. *)
Lemma decode_request_malformed body :
  malformed body → decode_request body = Raise ValidationError.
Proof.
  intros Hbad. destruct (decode_request body) as [r|e] eqn:Hr.
  - by destruct (decode_request_well_formed body r).
  - f_equal. by eapply decode_request_only.
Qed.

End rejects.

(** ** Reading back what the service writes *)

Lemma decode_encode_meta v : decode_meta (encode_meta v) = Ok v.
Proof.
  destruct v as [z|x|l]; [done..|]. simpl.
  by rewrite (mapM_fmap_Ok read_str JStr) by done.
Qed.

Lemma decode_encode_metadata (m : list (string * MetaValue)) :
  (m = [("reviewsAnalyzed"%string, MInt 0)] ∨
   ∃ (z : Z) x kws, m =
     [("reviewsAnalyzed"%string, MInt z); ("avgRating"%string, MFloat x);
      ("keywordsMatched"%string, MStrList kws)]) →
  decode_metadata (JObj (list_to_map (prod_map id encode_meta <$> m))) = Ok m.
Proof.
  intros [->|(z & x & kws & ->)]; [done|].
  unfold decode_metadata, metadata_keys.
  cbn [list_to_map foldr uncurry fmap list_fmap prod_map fst snd id omap
       list_omap].
  simplify_map_eq. by rewrite (mapM_fmap_Ok read_str JStr) by done.
Qed.

(** A well-formed response written as a body and read back. *)
Lemma decode_encode_response resp :
  well_formed resp → decode_response (encode_response resp) = Ok resp.
Proof.
  intros Hm%well_formed_metadata%decode_encode_metadata.
  destruct resp as [a i w m]. unfold decode_response, encode_response, required.
  cbn [list_to_map foldr uncurry fst snd ChatResponse.answer
       ChatResponse.reviewIdsUsed ChatResponse.window ChatResponse.metadata] in *.
  revert Hm. generalize (JObj (list_to_map (prod_map id encode_meta <$> m))).
  intros jm Hm. simplify_map_eq.
  by rewrite (mapM_fmap_Ok read_str JStr), Hm.
Qed.

(** So the encoding loses nothing: two well-formed responses with the same
    encoding are equal. *)
Lemma encode_response_inj r1 r2 :
  well_formed r1 → well_formed r2 →
  encode_response r1 = encode_response r2 → r1 = r2.
Proof.
  intros H1%decode_encode_response H2%decode_encode_response Heq.
  rewrite Heq in H1. congruence.
Qed.

(** ** Main results *)

(** C19: a request model written as a body and read back is the same
    request, whatever the casting table: for a request whose identifier is
    not empty and whose question has 1 to 500 code points,
    [decode_request (encode_request r)] returns [r]. *)
Theorem decode_request_roundtrip `{Casting} (r : ChatRequest.t) :
  ChatRequest.dishAtRestaurantId r ≠ [] →
  (1 ≤ length (ChatRequest.question r) ≤ 500)%nat →
  decode_request (encode_request r) = Ok r.
Proof. apply decode_encode_request. Qed.

Lemma decode_request_roundtrip_witness :
  @decode_request strict_casting
    (encode_request (ChatRequest.mk (lit "dish-1") (lit "Is it good?")
                       (lit "7d") (lit "Dal") Sample.mixed)) =
  Ok (ChatRequest.mk (lit "dish-1") (lit "Is it good?") (lit "7d") (lit "Dal")
        Sample.mixed).
Proof. apply decode_request_roundtrip; by_compute. Defined.

(** C20: a malformed body is rejected with [ValidationError], whatever the
    casting table: a body that is no object, lacks the identifier or the
    question, holds [null], an array or an object where a string is
    declared, holds [reviews] that is no array, a review that is no object,
    lacks a field or holds no scalar in one, or carries an empty identifier
    or a question out of bounds. *)
Theorem decode_request_rejects `{Casting} body :
  malformed body → decode_request body = Raise ValidationError.
Proof. apply decode_request_malformed. Qed.

Lemma decode_request_rejects_witness :
  @decode_request strict_casting
    (JObj {["dishId" := JStr (lit "dish-1");
            "question" := JStr (lit "Is it good?")]}) =
  Raise ValidationError.
Proof.
  apply decode_request_rejects, (body_missing _ "dishAtRestaurantId");
    [set_solver|done].
Defined.

(** C21: a body that the strict table accepts is read alike by every
    casting table: the request does not depend on what pydantic makes of a
    scalar of another type than the annotation, as long as every field
    holds a value of its declared type. *)
Theorem decode_request_strict body r :
  @decode_request strict_casting body = Ok r →
  ∀ C : Casting, @decode_request C body = Ok r.
Proof. intros Hr C. by apply decode_request_strict_less. Qed.

Lemma decode_request_strict_witness :
  @decode_request lenient_casting
    (body_of (lit "dish-1") (lit "Is it good?") None None (Some Sample.mixed)) =
  Ok (ChatRequest.mk (lit "dish-1") (lit "Is it good?") (lit "24h")
        (lit "this dish") Sample.mixed).
Proof.
  apply decode_request_strict. rewrite decode_request_body_of. by vm_compute.
Defined.

(** C22: a response written as a body and read back is the same response:
    for a well-formed response, [decode_response (encode_response resp)]
    returns [resp], field by field, the metadata in the order of the data
    model. *)
Theorem encode_response_roundtrip resp :
  well_formed resp → decode_response (encode_response resp) = Ok resp.
Proof. apply decode_encode_response. Qed.

Lemma encode_response_roundtrip_witness :
  decode_response
    (encode_response (sample_response "Is it too Spicy?" Sample.mixed)) =
  Ok (sample_response "Is it too Spicy?" Sample.mixed).
Proof. apply encode_response_roundtrip. by_compute. Defined.
