(* ===== verification/Service.v ===== *)
(** * Service: what a request to [/chat] comes to

    The endpoint of lines 162-164 of [src/llm-service/main.py] is run by the
    web framework: the body is validated into a [ChatRequest] first, the
    handler [chat] is called on the validated request only, and an
    exception that escapes the handler becomes a server error.  The
    framework is not part of the sources; its dispatch is modelled here from
    the interface and error-handling sections of the specification, on
    typed field values, as the composition of [ChatRequest.make] and [chat]
    ([post_chat]), and on parsed bodies, as the composition of
    [Wire.decode_request] and [chat] ([post_chat_body]).  The theorems
    classify the outcome of every request and show that a request with star
    ratings is always answered. *)

From stdpp Require Import strings.
From S2P Require Import Prelude PySeq PyStr PyFloat PyDecimal Schema Stats.
From S2P Require Import Json Keywords Intent Render Analyzer Wire.
Import ReviewData.

Local Open Scope Z_scope.

Implicit Types (d q : str) (w n : option str)
  (rs : option (list ReviewData.t)) (resp : ChatResponse.t).

(** The three ways a request ends: a response, a client error for a body
    that fails validation, a server error for an exception of the
    handler. *)
Inductive Outcome : Type :=
| Answered (resp : ChatResponse.t)
| Rejected
| Failed (e : PyError).

#[export] Instance Outcome_eq_dec : EqDecision Outcome.
Proof. solve_decision. Defined.

Section service.
Context `{Lowering}.

(** [POST /chat] on the fields of a body: validation, then the handler. *)
Definition post_chat d q w n rs : Outcome :=
  match ChatRequest.make d q w n rs with
  | Raise _ => Rejected
  | Ok request =>
      match chat request with
      | Ok resp => Answered resp
      | Raise e => Failed e
      end
  end.

End service.

Section service_body.
Context `{Lowering} `{Casting}.

(** [POST /chat] on a parsed body: the body is decoded, which validates it,
    then the handler is called. *)
Definition post_chat_body (body : json) : Outcome :=
  match decode_request body with
  | Raise _ => Rejected
  | Ok request =>
      match chat request with
      | Ok resp => Answered resp
      | Raise e => Failed e
      end
  end.

End service_body.

(** ** The outcome of a request *)

Section service_lemmas.
Context `{Lowering}.

(** A body that passes validation reaches the analyzer with the defaults in
    place. *)
Lemma post_chat_valid d q w n rs :
  d ≠ [] → (1 ≤ length q ≤ 500)%nat →
  post_chat d q w n rs =
  match analyze_reviews q (default [] rs) (default (lit "this dish") n)
          (default (lit "24h") w) with
  | Ok resp => Answered resp
  | Raise e => Failed e
  end.
Proof.
  intros Hd Hq. unfold post_chat.
  destruct (proj2 (make_returns_bounds d q w n rs)) as [request Hr]; [done|].
  rewrite Hr. apply make_Ok in Hr as (_ & Hq' & Hw & Hn & Hrs).
  unfold chat. by rewrite Hq', Hw, Hn, Hrs.
Qed.

(** A body that fails validation never reaches the handler. *)
Lemma post_chat_invalid d q w n rs :
  ¬ (d ≠ [] ∧ (1 ≤ length q ≤ 500)%nat) → post_chat d q w n rs = Rejected.
Proof.
  intros Hbad. unfold post_chat.
  destruct (ChatRequest.make d q w n rs) as [request|e] eqn:Hr; [|done].
  destruct Hbad. apply (make_returns_bounds d q w n rs). by exists request.
Qed.

End service_lemmas.

(** ** Requests up to the dates of their reviews

    The analyzer respects [same_content], so a list of reviews can be
    rewritten along it, and with it the outcome of a request. *)

#[export] Instance analyze_reviews_proper `{Lowering} :
  Proper ((=) ==> Forall2 same_content ==> (=) ==> (=) ==> (=)) analyze_reviews.
Proof.
  intros question ? <- l1 l2 Hl dish_name ? <- window ? <-.
  by apply analyze_reviews_same_content.
Qed.

(** Two requests whose reviews differ in the dates at most have the same
    outcome. *)
Lemma post_chat_same_content `{Lowering} d q w n rs1 rs2 :
  option_Forall2 (Forall2 same_content) rs1 rs2 →
  post_chat d q w n rs1 = post_chat d q w n rs2.
Proof.
  intros Hrs. unfold post_chat, ChatRequest.make.
  destruct (ChatRequest.constraints d q); [|done]. unfold chat. simpl.
  assert (Forall2 same_content (default [] rs1) (default [] rs2)) as Hl
    by (by destruct Hrs).
  by rewrite Hl.
Qed.

(** The dish identifier is validated and then dropped: two identifiers that
    are not empty give the same outcome. *)
Lemma post_chat_dish_id `{Lowering} d d' q w n rs :
  d ≠ [] → d' ≠ [] → post_chat d q w n rs = post_chat d' q w n rs.
Proof.
  intros Hd Hd'. destruct (decide (1 ≤ length q ≤ 500)%nat) as [Hq|Hq].
  - by rewrite !post_chat_valid.
  - rewrite !post_chat_invalid; tauto.
Qed.

(** ** From the body to the fields *)

Section service_body_lemmas.
Context `{Lowering} `{Casting}.

(** The body a client builds from the fields is handled as the fields
    are. *)
Lemma post_chat_body_of d q w n rs :
  post_chat_body (body_of d q w n rs) = post_chat d q w n rs.
Proof. unfold post_chat_body, post_chat. by rewrite decode_request_body_of. Qed.

(** A malformed body never reaches the handler. *)
Lemma post_chat_body_malformed body :
  malformed body → post_chat_body body = Rejected.
Proof.
  intros Hbad%decode_request_malformed. unfold post_chat_body. by rewrite Hbad.
Qed.

(** A body that the strict table accepts has the outcome the strict table
    gives it. *)
Lemma post_chat_body_strict body request :
  @decode_request strict_casting body = Ok request →
  post_chat_body body = @post_chat_body _ strict_casting body.
Proof.
  intros Hr. unfold post_chat_body.
  by rewrite Hr, (decode_request_strict_less _ _ Hr).
Qed.

(** The outcome of a body in every case: rejected when it does not decode,
    failed with [OverflowError] or answered with a well-formed response when
    the handler raises or returns on the decoded request. *)
Lemma post_chat_body_cases body :
  match post_chat_body body with
  | Rejected => decode_request body = Raise ValidationError
  | Failed e =>
      e = OverflowError ∧
      ∃ request, decode_request body = Ok request ∧ chat request = Raise e
  | Answered resp =>
      well_formed resp ∧
      ∃ request, decode_request body = Ok request ∧ chat request = Ok resp
  end.
Proof.
  unfold post_chat_body.
  destruct (decode_request body) as [request|e] eqn:Hreq.
  - unfold chat.
    pose proof (analyze_reviews_outcome (ChatRequest.question request)
      (ChatRequest.reviews request) (ChatRequest.dishName request)
      (ChatRequest.window request)) as Hout.
    destruct (analyze_reviews _ _ _ _) as [resp|e] eqn:Hresp.
    + split; [by eapply analyze_reviews_wf|by exists request].
    + destruct Hout as (-> & _). split; [done|by exists request].
  - f_equal. by eapply decode_request_only.
Qed.

End service_body_lemmas.

(** ** Main results *)

(** C15: the outcome of a request in every case.  It is rejected exactly
    when the dish identifier is empty or the question does not have between
    1 and 500 code points; it fails exactly when the body is valid, there
    are reviews and the magnitude of the sum of their ratings reaches
    [2^1024 - 2^970] times their number, and then with [OverflowError]; it
    is answered otherwise, with the well-formed response [analyze_reviews]
    returns on the question and the defaults ["this dish"], ["24h"] and no
    review for the absent fields. *)
Theorem post_chat_outcome `{Lowering} d q w n rs :
  let reviews := default [] rs in
  let valid := d ≠ [] ∧ (1 ≤ length q ≤ 500)%nat in
  match post_chat d q w n rs with
  | Rejected => ¬ valid
  | Failed e =>
      valid ∧ e = OverflowError ∧ reviews ≠ [] ∧
      overflow_threshold * total reviews ≤ Z.abs (rating_sum reviews)
  | Answered resp =>
      valid ∧ well_formed resp ∧
      (reviews = [] ∨
       Z.abs (rating_sum reviews) < overflow_threshold * total reviews) ∧
      analyze_reviews q reviews (default (lit "this dish") n)
        (default (lit "24h") w) = Ok resp
  end.
Proof.
  intros reviews valid. destruct (decide valid) as [[Hd Hq]|Hbad].
  - rewrite post_chat_valid by done.
    pose proof (analyze_reviews_outcome q reviews
      (default (lit "this dish") n) (default (lit "24h") w)) as Hout.
    destruct (analyze_reviews _ _ _ _) as [resp|e] eqn:Hresp.
    + split_and!; [done| |done..]. by eapply analyze_reviews_wf.
    + by destruct Hout as (? & ? & ?).
  - by rewrite post_chat_invalid.
Qed.

(** C16: every request with a valid body and star ratings is answered: for
    a non-empty dish identifier, a question of 1 to 500 code points and
    reviews rated 1 to 5 (fewer than [2^1020] of them, none included), the
    service returns a well-formed response; it neither rejects the request
    nor fails. *)
Theorem post_chat_answers `{Lowering} d q w n rs :
  d ≠ [] → (1 ≤ length q ≤ 500)%nat →
  star_ratings (default [] rs) → total (default [] rs) < 2 ^ 1020 →
  ∃ resp, post_chat d q w n rs = Answered resp ∧ well_formed resp.
Proof.
  intros Hd Hq Hstars Hlen. rewrite post_chat_valid by done.
  pose proof (analyze_reviews_outcome q (default [] rs)
    (default (lit "this dish") n) (default (lit "24h") w)) as Hout.
  destruct (analyze_reviews _ _ _ _) as [resp|e] eqn:Hresp.
  { exists resp. split; [done|]. by eapply analyze_reviews_wf. }
  destruct Hout as (_ & Hne & Hge).
  destruct (avg_rating_returns_stars _ Hne Hstars Hlen) as [avg Havg].
  assert (returns (avg_rating (default [] rs))) as Hret by (by exists avg).
  apply avg_rating_returns_iff in Hret as [_ ?]. lia.
Qed.

Lemma post_chat_answers_witness :
  ∃ resp,
    post_chat (lit "dish-1") (lit "Is it good?") None None (Some Sample.mixed) =
      Answered resp ∧ well_formed resp.
Proof.
  apply (post_chat_answers (lit "dish-1") (lit "Is it good?") None None
           (Some Sample.mixed)); by_compute || by vm_compute.
Defined.

(** ** Scenarios *)

(** An empty question is rejected, a question on no review gets the fixed
    message with the default dish name and window, and a rating of [2^1024]
    makes the request fail. *)
Example post_chat_scenarios :
  post_chat (lit "dish-1") [] None None None = Rejected ∧
  post_chat (lit "dish-1") (lit "Is it good?") None None None =
    Answered (empty_response (lit "this dish") (lit "24h")) ∧
  post_chat (lit "dish-1") (lit "Is it good?") None None
    (Some [Sample.review "big" (2 ^ 1024) "Great"]) = Failed OverflowError.
Proof. by vm_compute. Qed.

(** The bounds of the question are inclusive: 500 code points are accepted,
    501 are not. *)
Example question_bounds_scenarios :
  post_chat (lit "dish-1") (replicate 500 97%N) None None None =
    Answered (empty_response (lit "this dish") (lit "24h")) ∧
  post_chat (lit "dish-1") (replicate 501 97%N) None None None = Rejected ∧
  post_chat (lit "dish-1") [97%N] None None None =
    Answered (empty_response (lit "this dish") (lit "24h")).
Proof. by vm_compute. Qed.
