(* ===== verification/Contract.v ===== *)
(** * Contract: what the analyzer promises, in exact arithmetic

    The specification of [analyze_reviews] that a caller can rely on
    without knowing about floats, loops or lower-casing tables: keywords and
    relevant reviews are defined by the substring relation, the intent by
    the first word list one of whose words occurs in the question, the
    thresholds by the exact mean [sum / total], and the digit printed by the
    exact mean rounded to one decimal.  [analyze_reviews_refines] shows that
    the code implements this specification for star ratings, fewer than
    [2^46] reviews and a mean that is not half way between two one-decimal
    values. *)

From stdpp Require Import strings.
From S2P Require Import Prelude PySeq PyStr PyFloat PyDecimal Schema Stats.
From S2P Require Import Keywords Intent Render Analyzer.
Import ReviewData.

Local Open Scope Z_scope.

Implicit Types (question dish_name window : str)
  (reviews : list ReviewData.t) (avg rounded : float) (words : list str).

(** ** The specification *)

(** One of [words] occurs in the question, ASCII case apart. *)
Definition spec_asks words question : bool :=
  bool_decide (Exists (λ w, substring w (ascii_lower question)) words).

(** The vocabulary words that occur in the question. *)
Definition spec_keywords question : list str :=
  filter (λ word, substring word (ascii_lower question)) food_keywords.

(** The reviews that mention a keyword of the question; all of them when
    the question has none. *)
Definition spec_relevant question reviews : list ReviewData.t :=
  if decide (spec_keywords question = []) then reviews
  else filter (λ r, Exists (λ kw, substring kw (ascii_lower (text r)))
                      (spec_keywords question)) reviews.

Definition spec_intent question reviews : Intent :=
  if spec_asks recommendation_words question then Recommendation
  else if spec_asks negative_words question then NegativeCheck
  else if spec_asks consistency_words question then Consistency
  else if bool_decide (spec_keywords question ≠ [] ∧
                       spec_relevant question reviews ≠ []) then KeywordSearch
  else Summary.

(** Ten times the exact mean, rounded to the nearest integer. *)
Definition mean_tenths reviews : Z :=
  round_half_even (10 * rating_sum reviews) (total reviews).

Definition print_tenths (t : Z) : str :=
  str_of_int (t / 10) ++ lit "." ++ str_of_int (t mod 10).

(** A float that reads as the exact mean: it prints as the exact mean
    rounded to one decimal and lies on the side of the thresholds on which
    the exact mean lies. *)
Definition exact_reading reviews avg : Prop :=
  format_f1 avg = print_tenths (mean_tenths reviews) ∧
  fle (float_of_int 4) avg =
    bool_decide (4 * total reviews ≤ rating_sum reviews) ∧
  fle (float_of_int 3) avg =
    bool_decide (3 * total reviews ≤ rating_sum reviews).

(** The exact mean is half way between two one-decimal values. *)
Definition decimal_tie reviews : Prop :=
  reviews ≠ [] ∧
  (20 * rating_sum reviews) mod (2 * total reviews) = total reviews.

(** The inputs on which the float mean is guaranteed to read as the exact
    mean. *)
Definition exact_inputs reviews : Prop :=
  star_ratings reviews ∧ 10 * total reviews < 2 ^ 50 ∧ ¬ decimal_tie reviews.

(** The response promised for a request, field by field. *)
Definition analyze_spec question reviews dish_name window
    (resp : ChatResponse.t) : Prop :=
  ChatResponse.window resp = window ∧
  ChatResponse.reviewIdsUsed resp =
    (if decide (reviews = []) then []
     else take 10 (id <$> spec_relevant question reviews)) ∧
  if decide (reviews = []) then
    ChatResponse.answer resp =
      lit "No reviews found for " ++ dish_name ++ lit " in the last " ++
      window ++ lit ". Be the first to leave a review!" ∧
    ChatResponse.metadata resp = [("reviewsAnalyzed"%string, MInt 0)]
  else ∃ rounded parts,
    truediv (mean_tenths reviews) 10 = Ok rounded ∧
    (∀ avg, exact_reading reviews avg →
      parts_of_intent (spec_intent question reviews) dish_name window reviews
        avg (spec_keywords question) (spec_relevant question reviews) =
      Ok parts) ∧
    ChatResponse.answer resp = join newline parts ∧
    ChatResponse.metadata resp =
      [("reviewsAnalyzed"%string, MInt (Z.of_nat (length reviews)));
       ("avgRating"%string, MFloat rounded);
       ("keywordsMatched"%string, MStrList (spec_keywords question))].

#[export] Instance exact_inputs_dec reviews : Decision (exact_inputs reviews).
Proof. unfold exact_inputs, decimal_tie. apply _. Defined.

(** ** The components implement their specification *)

Section refinement.
Context `{Lowering}.

Lemma asks_spec_asks words question :
  Forall ascii_word words → asks words question = spec_asks words question.
Proof.
  intros Hall. apply bool_decide_of_iff.
  by rewrite asks_spec, Exists_exists.
Qed.

Lemma keywords_to_search_spec question :
  keywords_to_search question = spec_keywords question.
Proof. apply keywords_to_search_substring. Qed.

Lemma select_reviews_spec_relevant question reviews :
  (select_reviews (keywords_to_search question) reviews).1 =
  spec_relevant question reviews.
Proof.
  unfold spec_relevant. rewrite <-keywords_to_search_spec.
  destruct (decide (keywords_to_search question = [])) as [->|Hne]; [done|].
  apply select_reviews_substring; [apply keywords_to_search_sublist|done].
Qed.

Lemma intent_spec_intent question reviews :
  intent question (keywords_to_search question)
    (select_reviews (keywords_to_search question) reviews).1 =
  spec_intent question reviews.
Proof.
  unfold intent, spec_intent, is_recommendation, is_negative_check,
    is_consistency.
  rewrite !asks_spec_asks by eauto using recommendation_words_ascii,
    negative_words_ascii, consistency_words_ascii.
  rewrite select_reviews_spec_relevant, keywords_to_search_spec.
  repeat case_match; try done; case_bool_decide as Hd; try done.
  - destruct Hd. rewrite <-!truthy_spec. by destruct (truthy _), (truthy _).
  - destruct Hd as [?%truthy_spec ?%truthy_spec].
    by destruct (truthy _), (truthy _).
Qed.

(** The chain answers by the specified intent. *)
Lemma answer_parts_spec question dish_name window reviews avg :
  answer_parts question dish_name window reviews avg
    (keywords_to_search question)
    (select_reviews (keywords_to_search question) reviews).1 =
  parts_of_intent (spec_intent question reviews) dish_name window reviews avg
    (spec_keywords question) (spec_relevant question reviews).
Proof.
  rewrite <-intent_spec_intent, <-select_reviews_spec_relevant.
  rewrite <-keywords_to_search_spec.
  unfold answer_parts, intent. by repeat case_match.
Qed.

End refinement.

(** The answer of an intent depends on the mean through its reading
    only. *)
Lemma parts_of_intent_reading i dish_name window reviews avg avg' kws relevant :
  same_reading avg avg' →
  parts_of_intent i dish_name window reviews avg kws relevant =
  parts_of_intent i dish_name window reviews avg' kws relevant.
Proof. intros Hr. destruct i; simpl; by rewrite ?Hr. Qed.

Lemma exact_reading_same reviews avg avg' :
  exact_reading reviews avg → exact_reading reviews avg' → same_reading avg avg'.
Proof. intros (? & ? & ?) (? & ? & ?). split_and!; congruence. Qed.

Lemma exact_inputs_tenths reviews avg :
  exact_inputs reviews → avg_rating reviews = Ok avg →
  fneg avg = false ∧ tenths avg = mean_tenths reviews.
Proof.
  intros (Hstars & Hlen & Htie) Havg.
  apply avg_rating_tenths_eq; try done. intros Hmod. apply Htie.
  split; [by eapply avg_rating_Ok_nonempty|done].
Qed.

(** On exact inputs the float mean reads as the exact mean. *)
Lemma avg_rating_exact_reading reviews avg :
  exact_inputs reviews → avg_rating reviews = Ok avg → exact_reading reviews avg.
Proof.
  intros Hin Havg.
  destruct (exact_inputs_tenths reviews avg Hin Havg) as [Hs Ht].
  destruct Hin as (_ & Hlen & _). pose proof (total_nonneg reviews). split_and!.
  - unfold format_f1, print_tenths. by rewrite Hs, Ht.
  - apply bool_decide_of_iff, avg_rating_ge_iff; [lia|lia|done].
  - apply bool_decide_of_iff, avg_rating_ge_iff; [lia|lia|done].
Qed.

(** ... and its rounding is the double nearest to the exact mean rounded
    to one decimal. *)
Lemma avg_rating_round_exact reviews avg :
  exact_inputs reviews → avg_rating reviews = Ok avg →
  py_round1 avg = truediv (mean_tenths reviews) 10.
Proof.
  intros Hin Havg.
  destruct (exact_inputs_tenths reviews avg Hin Havg) as [Hs Ht].
  unfold py_round1, truediv. rewrite Hs, Ht. simpl (10 =? 0).
  pose proof (tenths_nonneg avg (truediv_mant_nonneg _ _ _ Havg)) as Hnn.
  rewrite Ht in Hnn. rewrite Z.abs_eq by done.
  by destruct (Z.ltb_spec (mean_tenths reviews) 0); [lia|].
Qed.

(** The code returns the response of the specification. *)
Lemma analyze_reviews_implements `{Lowering} question reviews dish_name window :
  exact_inputs reviews →
  ∃ resp, analyze_reviews question reviews dish_name window = Ok resp ∧
    analyze_spec question reviews dish_name window resp.
Proof.
  intros Hin. unfold analyze_spec. destruct (decide (reviews = [])) as [->|Hne].
  { by eexists. }
  pose proof Hin as (Hstars & Hlen & _).
  assert (total reviews < 2 ^ 1020) as Hlen'.
  { assert (2 ^ 50 < 2 ^ 1020) by done. pose proof (total_nonneg reviews). lia. }
  destruct (avg_rating_returns_stars reviews Hne Hstars Hlen') as [avg Havg].
  destruct (answer_parts_returns question dish_name window reviews avg
    (keywords_to_search question)
    (select_reviews (keywords_to_search question) reviews).1 Hne) as [parts Hp].
  destruct (avg_rating_round_returns reviews avg Hstars Havg) as [rounded Hr].
  eexists. split.
  { rewrite analyze_reviews_cons, Havg by done. simpl. rewrite Hp. simpl.
    by rewrite Hr. }
  unfold response. cbn [ChatResponse.window ChatResponse.reviewIdsUsed
    ChatResponse.answer ChatResponse.metadata].
  rewrite select_reviews_spec_relevant, keywords_to_search_spec.
  split_and!; [done..|]. exists rounded, parts. split_and!; [|  |done..].
  - by rewrite <-(avg_rating_round_exact reviews avg).
  - intros avg' Havg'. rewrite answer_parts_spec in Hp. rewrite <-Hp.
    apply parts_of_intent_reading, (exact_reading_same reviews); [done|].
    by apply avg_rating_exact_reading.
Qed.

(** ** Main results *)

(** C23: refinement.  On star ratings, fewer than [2^46] reviews and a mean
    that is not half way between two one-decimal values, [analyze_reviews]
    returns the response of the specification: keywords and relevant
    reviews by substring, the intent by the first word list that matches,
    thresholds and printed digit by the exact mean, at most ten identifiers,
    and as [avgRating] the double nearest to the exact mean rounded to one
    decimal. *)
Theorem analyze_reviews_refines `{Lowering} question reviews dish_name window :
  exact_inputs reviews →
  ∃ resp, analyze_reviews question reviews dish_name window = Ok resp ∧
    analyze_spec question reviews dish_name window resp.
Proof. apply analyze_reviews_implements. Qed.

Lemma analyze_reviews_refines_witness :
  ∃ resp,
    analyze_reviews (lit "Is it too Spicy?") Sample.mixed (lit "Biryani")
      (lit "24h") = Ok resp ∧
    analyze_spec (lit "Is it too Spicy?") Sample.mixed (lit "Biryani")
      (lit "24h") resp.
Proof. apply analyze_reviews_refines. by_compute. Defined.

(** On the same inputs the specification determines the response: two
    responses that satisfy it are equal. *)
Theorem analyze_spec_deterministic question reviews dish_name window resp resp' :
  exact_inputs reviews →
  analyze_spec question reviews dish_name window resp →
  analyze_spec question reviews dish_name window resp' →
  resp = resp'.
Proof.
  intros Hin. unfold analyze_spec. destruct resp, resp'. simpl.
  destruct (decide (reviews = [])) as [->|Hne].
  { intros (? & ? & ? & ?) (? & ? & ? & ?). congruence. }
  intros (? & ? & rounded & parts & Hr & Hp & ? & ?)
    (? & ? & rounded' & parts' & Hr' & Hp' & ? & ?).
  pose proof Hin as (Hstars & Hlen & _).
  assert (total reviews < 2 ^ 1020) as Hlen'.
  { assert (2 ^ 50 < 2 ^ 1020) by done. pose proof (total_nonneg reviews). lia. }
  destruct (avg_rating_returns_stars reviews Hne Hstars Hlen') as [avg Havg].
  pose proof (avg_rating_exact_reading reviews avg Hin Havg) as Hread.
  specialize (Hp avg Hread). specialize (Hp' avg Hread). congruence.
Qed.

Lemma analyze_spec_deterministic_witness :
  empty_response (lit "Dal") (lit "24h") = empty_response (lit "Dal") (lit "24h").
Proof.
  apply (analyze_spec_deterministic (lit "Is it good?") [] (lit "Dal") (lit "24h"));
    [by_compute|done..].
Defined.


