(* ===== verification/App.v ===== *)
(** * App: the application object and its one route

    Line 4 of [src/llm-service/main.py] creates the application and the
    decorator of line 162 declares its one route: [POST /chat], whose
    endpoint is [chat] behind the validation of its argument and whose
    response is written from a [ChatResponse].  [app] and [chat_route] are
    these two lines.  What the framework does with a route table is not in
    the sources; [serve] models one exchange from the interface and
    error-handling sections of the specification and from the framework's
    documented statuses: the first route whose path and method match is
    called; a path that is declared with other methods only is answered
    with 405; a body that fails validation with 422, before the endpoint is
    called; an exception of the endpoint with 500; a response with 200 and
    its encoding.  A path the program declares no route for is left to the
    framework ([None]): its own pages and the page for an unknown path are
    not the program's.

    The theorems classify the reply to every exchange and compose the
    layers: a client that encodes a valid request, posts it and decodes the
    body of the reply holds the response that the specification of
    [Contract] promises. *)

From stdpp Require Import strings gmap.
From S2P Require Import Prelude PySeq PyStr PyFloat PyDecimal Json Schema Stats.
From S2P Require Import Keywords Intent Render Analyzer Wire Service Contract.

Local Open Scope Z_scope.

Implicit Types (path : string) (body : json).

(** The request methods. *)
Inductive Method : Type := GET | HEAD | POST | PUT | DELETE | OPTIONS | PATCH.

#[export] Instance Method_eq_dec : EqDecision Method.
Proof. solve_decision. Defined.

(** A route: the method, the path and the response model of the decorator,
    and the endpoint with the validation of its argument. *)
Record Route : Type := mkRoute {
  route_method : Method;
  route_path : string;
  response_model : ChatResponse.t → json;
  endpoint : json → Outcome
}.

(** The application object: its title and the routes declared on it. *)
Record FastAPI : Type := mkFastAPI {
  title : string;
  routes : list Route
}.

(** A reply: the status and, for a response, its body. *)
Record Reply : Type := mkReply {
  status : Z;
  content : option json
}.

Section app.
Context `{Lowering} `{Casting}.

(** [@app.post("/chat", response_model=ChatResponse)] on [chat], and
    [app = FastAPI(title="FreshBite LLM Service")] with this route. *)
Definition chat_route : Route :=
  mkRoute POST "/chat" encode_response post_chat_body.

Definition app : FastAPI := mkFastAPI "FreshBite LLM Service" [chat_route].

End app.

(** The reply to an outcome of the endpoint, the response written by the
    response model of the route. *)
Definition reply_of (write : ChatResponse.t → json) (out : Outcome) : Reply :=
  match out with
  | Answered resp => mkReply 200 (Some (write resp))
  | Rejected => mkReply 422 None
  | Failed _ => mkReply 500 None
  end.

Definition method_not_allowed : Reply := mkReply 405 None.

(** One exchange: the routes declared for the path, then among them the
    first one declared for the method. *)
Definition serve (a : FastAPI) (m : Method) path body : option Reply :=
  match filter (λ r, route_path r = path) (routes a) with
  | [] => None
  | r :: rs =>
      match head (filter (λ r, route_method r = m) (r :: rs)) with
      | Some r => Some (reply_of (response_model r) (endpoint r body))
      | None => Some method_not_allowed
      end
  end.

(** The statuses that blame the request. *)
Definition client_error (r : Reply) : Prop := 400 ≤ status r < 500.

(** ** Any route table *)

(** An exchange is left to the framework exactly when no route is declared
    for the path. *)
Lemma serve_None (a : FastAPI) m path body :
  serve a m path body = None ↔ Forall (λ r, route_path r ≠ path) (routes a).
Proof.
  unfold serve.
  rewrite <-(filter_nil_Forall (λ r, route_path r = path) (routes a)).
  destruct (filter _ (routes a)) as [|r rs]; [done|].
  by destruct (head (filter _ (r :: rs))).
Qed.

(** The endpoint that runs is that of a declared route with the path and
    the method of the request; when none has the method the reply is 405. *)
Lemma serve_Some (a : FastAPI) m path body rep :
  serve a m path body = Some rep →
  (rep = method_not_allowed ∧
   Forall (λ r, ¬ (route_path r = path ∧ route_method r = m)) (routes a)) ∨
  ∃ r, r ∈ routes a ∧ route_path r = path ∧ route_method r = m ∧
    rep = reply_of (response_model r) (endpoint r body).
Proof.
  unfold serve. destruct (filter _ (routes a)) as [|r0 rs] eqn:Hpath; [done|].
  rewrite <-Hpath.
  pose proof (head_filter_split (λ r, route_method r = m)
    (filter (λ r, route_path r = path) (routes a))) as Hhead.
  destruct (head (filter _ (filter _ (routes a)))) as [r|]; intros [= <-].
  - right. exists r. destruct Hhead as (l1 & l2 & Heq & _ & Hm).
    assert (r ∈ filter (λ r, route_path r = path) (routes a)) as Hr
      by (rewrite Heq; set_solver).
    apply list_elem_of_filter in Hr as [? ?]. by split_and!.
  - left. split; [done|]. rewrite Forall_forall in Hhead |- *.
    intros r Hr [Hp Hm]. apply (Hhead r); [|done].
    by apply list_elem_of_filter.
Qed.

(** ** The three kinds of exchange *)

Section app_lemmas.
Context `{Lowering} `{Casting}.

Lemma serve_chat body :
  serve app POST "/chat" body = Some (reply_of encode_response (post_chat_body body)).
Proof. done. Qed.

Lemma serve_other_method m body :
  m ≠ POST → serve app m "/chat" body = Some method_not_allowed.
Proof. by destruct m. Qed.

Lemma serve_other_path m path body :
  path ≠ "/chat" → serve app m path body = None.
Proof.
  intros Hp. unfold serve, app, chat_route. cbn [routes].
  by rewrite filter_cons_False, filter_nil by (cbn [route_path]; congruence).
Qed.

Lemma serve_cases m path body :
  match serve app m path body with
  | None => path ≠ "/chat"
  | Some r =>
      path = "/chat" ∧
      if decide (m = POST) then r = reply_of encode_response (post_chat_body body)
      else r = method_not_allowed
  end.
Proof.
  destruct (decide (path = "/chat")) as [->|Hp].
  - destruct (decide (m = POST)) as [->|Hm].
    + by rewrite serve_chat.
    + by rewrite serve_other_method.
  - by rewrite serve_other_path.
Qed.

(** The status of the reply to an outcome of the endpoint says which
    outcome it was. *)
Lemma reply_of_post_chat_body body :
  let r := reply_of encode_response (post_chat_body body) in
  status r ∈ [200; 422; 500] ∧
  (status r = 422 ↔ decode_request body = Raise ValidationError) ∧
  (status r = 500 ↔
   ∃ request, decode_request body = Ok request ∧
     chat request = Raise OverflowError) ∧
  (status r = 200 ↔
   ∃ request resp, decode_request body = Ok request ∧
     chat request = Ok resp ∧ well_formed resp ∧
     content r = Some (encode_response resp)).
Proof.
  pose proof (post_chat_body_cases body) as Hcases.
  destruct (post_chat_body body) as [resp| |e]; simpl.
  - destruct Hcases as (Hwf & request & Hreq & Hresp).
    split_and!; [set_solver|split; [done|congruence]|
      split; [done|intros (? & ? & ?); congruence]|].
    split; [intros _|done]. by exists request, resp.
  - split_and!; [set_solver|done|split; [done|intros (? & ? & ?); congruence]|].
    split; [done|intros (? & ? & ? & ?); congruence].
  - destruct Hcases as (-> & request & Hreq & Hresp).
    split_and!; [set_solver|split; [done|congruence]| |].
    + split; [intros _; by exists request|done].
    + split; [done|intros (? & ? & ? & ? & ?); congruence].
Qed.

(** A malformed body is answered with a client error, and the endpoint is
    not called. *)
Lemma serve_malformed body :
  malformed body →
  ∃ r, serve app POST "/chat" body = Some r ∧ client_error r ∧
    post_chat_body body = Rejected.
Proof.
  intros Hbad%post_chat_body_malformed. rewrite serve_chat, Hbad.
  eexists. split_and!; [done| |done]. unfold client_error. simpl. lia.
Qed.

(** A client that sends a valid request on which the mean reads exactly
    gets the response of the specification. *)
Lemma serve_client (r : ChatRequest.t) :
  ChatRequest.dishAtRestaurantId r ≠ [] →
  (1 ≤ length (ChatRequest.question r) ≤ 500)%nat →
  exact_inputs (ChatRequest.reviews r) →
  ∃ b resp,
    serve app POST "/chat" (encode_request r) = Some (mkReply 200 (Some b)) ∧
    decode_response b = Ok resp ∧
    analyze_spec (ChatRequest.question r) (ChatRequest.reviews r)
      (ChatRequest.dishName r) (ChatRequest.window r) resp.
Proof.
  intros Hd Hq Hin. rewrite serve_chat. unfold post_chat_body.
  rewrite decode_encode_request by done. unfold chat.
  destruct (analyze_reviews_implements (ChatRequest.question r)
    (ChatRequest.reviews r) (ChatRequest.dishName r) (ChatRequest.window r) Hin)
    as (resp & Hresp & Hspec).
  rewrite Hresp. exists (encode_response resp), resp. split_and!; [done| |done].
  by eapply decode_encode_response, analyze_reviews_wf.
Qed.

End app_lemmas.

(** A body that the strict casting table accepts gets the same reply under
    every casting table. *)
Lemma serve_strict `{Lowering} `{Casting} m path body request :
  @decode_request strict_casting body = Ok request →
  serve app m path body = serve (@app _ strict_casting) m path body.
Proof.
  intros Hreq. pose proof (serve_cases m path body) as Hcases.
  pose proof (@serve_cases _ strict_casting m path body) as Hstrict.
  destruct (serve app m path body) as [r|],
    (serve (@app _ strict_casting) m path body) as [r'|]; [|naive_solver..].
  destruct Hcases as [_ Hr], Hstrict as [_ Hr'].
  destruct (decide (m = POST)); subst r r'; [|done].
  by rewrite (post_chat_body_strict body request Hreq).
Qed.

(** ** Main results *)

(** C18: the reply to every exchange.  A path other than [/chat] is not the
    program's; on [/chat] the status is 405 exactly for a method other than
    POST, 422 exactly when the body fails validation, 500 exactly when the
    endpoint raises on the validated request, and then [OverflowError], and
    200 exactly when it returns, with the encoding of a well-formed
    response as body; there is no other status. *)
Theorem serve_status `{Lowering} `{Casting} m path body :
  match serve app m path body with
  | None => path ≠ "/chat"
  | Some r =>
      path = "/chat" ∧ status r ∈ [200; 405; 422; 500] ∧
      (status r = 405 ↔ m ≠ POST) ∧
      (status r = 422 ↔
       m = POST ∧ decode_request body = Raise ValidationError) ∧
      (status r = 500 ↔
       m = POST ∧ ∃ request, decode_request body = Ok request ∧
         chat request = Raise OverflowError) ∧
      (status r = 200 ↔
       m = POST ∧ ∃ request resp, decode_request body = Ok request ∧
         chat request = Ok resp ∧ well_formed resp ∧
         content r = Some (encode_response resp))
  end.
Proof.
  pose proof (serve_cases m path body) as Hcases.
  destruct (serve app m path body) as [r|]; [|done].
  destruct Hcases as [-> Hr]. split; [done|].
  destruct (decide (m = POST)) as [->|Hm]; subst r.
  - destruct (reply_of_post_chat_body body) as (Hs & H422 & H500 & H200).
    split_and!; [set_solver| |naive_solver..].
    split; [|done]. intros Heq. rewrite Heq in Hs. set_solver.
  - split_and!; [set_solver|done|split; [done|tauto]..].
Qed.

(** C17: end to end.  A client that encodes a request with a non-empty
    identifier, a question of 1 to 500 code points and reviews on which the
    mean reads exactly (star ratings, fewer than [2^46] of them, no decimal
    tie), posts it to [/chat] and decodes the body of the reply gets status
    200 and the response of the specification [Contract.analyze_spec],
    whatever the lower-casing and casting tables. *)
Theorem serve_end_to_end `{Lowering} `{Casting} (r : ChatRequest.t) :
  ChatRequest.dishAtRestaurantId r ≠ [] →
  (1 ≤ length (ChatRequest.question r) ≤ 500)%nat →
  exact_inputs (ChatRequest.reviews r) →
  ∃ b resp,
    serve app POST "/chat" (encode_request r) = Some (mkReply 200 (Some b)) ∧
    decode_response b = Ok resp ∧
    analyze_spec (ChatRequest.question r) (ChatRequest.reviews r)
      (ChatRequest.dishName r) (ChatRequest.window r) resp.
Proof. apply serve_client. Qed.

Lemma serve_end_to_end_witness :
  ∃ b resp,
    serve app POST "/chat"
      (encode_request (ChatRequest.mk (lit "dish-1") (lit "Is it too Spicy?")
                         (lit "24h") (lit "Biryani") Sample.mixed)) =
      Some (mkReply 200 (Some b)) ∧
    decode_response b = Ok resp ∧
    analyze_spec (lit "Is it too Spicy?") Sample.mixed (lit "Biryani")
      (lit "24h") resp.
Proof.
  apply (serve_end_to_end (ChatRequest.mk (lit "dish-1")
    (lit "Is it too Spicy?") (lit "24h") (lit "Biryani") Sample.mixed));
    by_compute.
Defined.

(** ** Scenarios *)

(** A minimal valid body is answered, a body that names the identifier
    [dishId] is rejected, [GET /chat] is not allowed, and [/chats] is not a
    route of the program. *)
Example serve_scenarios :
  status <$> serve app POST "/chat"
    (body_of (lit "dish-1") (lit "Is it good?") None None None) = Some 200 ∧
  status <$> serve app POST "/chat" (JObj {["dishId" := JStr (lit "dish-1")]}) =
    Some 422 ∧
  status <$> serve app GET "/chat" JNull = Some 405 ∧
  serve app POST "/chats" JNull = None.
Proof. by vm_compute. Qed.
